(** * Node reputation and audit history of the satellite database

    A shallow embedding of [satellitedb.reputations] (the part of
    [satellite/satellitedb/reputations.go] that applies one audit outcome to
    one node): [recordAuditHistory], [updateAuditHistoryWithTx],
    [populateUpdateNodeStats], [populateUpdateFields] and [Update].

    Conventions.
    - [float64] is Rocq's primitive binary64 float, which has Go's
      round-to-nearest-even arithmetic and Go's comparison on NaN.
    - [int64] and [int32] are [Z] with the wrap-around of Go's [+] written
      out ([add64], [add32]).
    - [time.Time] is the number of nanoseconds since the zero time, a [Z];
      a [*time.Time] column is an [option].  [time.Duration] is an [int64]
      count of nanoseconds.  What [time.Now()] reads inside [time.Since]
      is an argument of its own, [wall], next to the parameter [now].
    - The two tables the code touches are finite maps keyed by node id.
      [pb.Marshal] followed by [pb.Unmarshal] is taken to be the identity,
      so the [history] column holds the decoded message, and the statements
      of the in-memory store never fail with a storage error. *)

From Stdlib Require Import ZArith List Bool Lia String Floats.
From stdpp Require Import gmap.
Import ListNotations.

Local Open Scope Z_scope.

(** ** Machine integers *)

Definition wrap (bits : Z) (x : Z) : Z :=
  (x + 2 ^ (bits - 1)) mod 2 ^ bits - 2 ^ (bits - 1).

Definition add64 (a b : Z) : Z := wrap 64 (a + b).
Definition add32 (a b : Z) : Z := wrap 32 (a + b).
Definition neg64 (a : Z) : Z := wrap 64 (- a).

Definition minInt64 : Z := - 2 ^ 63.
Definition maxInt64 : Z := 2 ^ 63 - 1.

(** ** float64 *)

(** [float64(n)] for an integer [n] of magnitude below 2^63. *)
Definition float64_of_Z (z : Z) : float :=
  if z <? 0 then PrimFloat.opp (PrimFloat.of_uint63 (Uint63.of_Z (- z)))
  else PrimFloat.of_uint63 (Uint63.of_Z z).

(** [int(f)]: Go truncates toward zero.  The conversion of a NaN, an infinity
    or a value outside [int64] is implementation-specific; amd64's cvttsd2si
    gives the smallest [int64], which is what is written here. *)
Definition int_of_float64 (f : float) : Z :=
  match Prim2SF f with
  | S754_zero _ => 0
  | S754_finite s m e =>
      let a := if 0 <=? e then Z.pos m * 2 ^ e else Z.pos m / 2 ^ (- e) in
      let v := if s then - a else a in
      if (minInt64 <=? v) && (v <=? maxInt64) then v else minInt64
  | S754_infinity _ | S754_nan => minInt64
  end.

(** ** time.Time and time.Duration *)

Module Time.

Definition t : Type := Z.

Definition Before (a b : t) : bool := a <? b.
Definition After (a b : t) : bool := b <? a.
Definition Add (a : t) (d : Z) : t := a + d.

(** [a.Sub(b)] saturates at the ends of [int64]. *)
Definition Sub (a b : t) : Z := Z.max minInt64 (Z.min maxInt64 (a - b)).

(** [a.Truncate(d)] rounds down to a multiple of [d] since the zero time,
    and returns [a] when [d <= 0]. *)
Definition Truncate (a : t) (d : Z) : t :=
  if d <=? 0 then a else a - a mod d.

End Time.

Module Duration.

Definition Second : Z := 1000000000.

(** [d.Seconds()]: whole seconds plus the fraction, both converted first. *)
Definition Seconds (d : Z) : float :=
  let sec := Z.quot d Second in
  let nsec := Z.rem d Second in
  (float64_of_Z sec + float64_of_Z nsec / 1e9)%float.

End Duration.

(** ** Requests and configuration *)

Inductive AuditType : Type :=
  | AuditSuccess
  | AuditFailure
  | AuditUnknown
  | AuditOffline.

Definition AuditType_eqb (a b : AuditType) : bool :=
  match a, b with
  | AuditSuccess, AuditSuccess
  | AuditFailure, AuditFailure
  | AuditUnknown, AuditUnknown
  | AuditOffline, AuditOffline => true
  | _, _ => false
  end.

Record AuditHistoryConfig : Type := {
  WindowSize : Z;
  TrackingPeriod : Z;
  GracePeriod : Z;
  OfflineThreshold : float;
  OfflineDQEnabled : bool;
  OfflineSuspensionEnabled : bool
}.

(** [storj.NodeID], 32 bytes, read as a number. *)
Abbreviation NodeID := N (only parsing).

Record UpdateRequest : Type := {
  NodeID_ : NodeID;
  AuditOutcome : AuditType;
  AuditLambda : float;
  AuditWeight : float;
  AuditDQ : float;
  SuspensionGracePeriod : Z;
  SuspensionDQEnabled : bool;
  AuditsRequiredForVetting : Z;
  AuditHistory : AuditHistoryConfig
}.

(** ** Audit history *)

Record AuditWindow : Type := {
  WindowStart : Time.t;
  OnlineCount : Z;
  TotalCount : Z
}.

Record AuditHistoryPB : Type := {
  Windows : list AuditWindow;
  Score : float
}.

(** The one error of [recordAuditHistory], "cannot add audit to audit
    history; window already passed", and the run-time panic of an index out
    of range. *)
Inductive Error : Type :=
  | ErrWindowPassed
  | PanicIndexOutOfRange.

(** The deleting loop of [recordAuditHistory]: every leading window that
    starts before [earliestWindow] goes; the flag says whether one did. *)
Fixpoint dropOldWindows (earliestWindow : Time.t) (ws : list AuditWindow)
  : list AuditWindow * bool :=
  match ws with
  | [] => ([], false)
  | window :: rest =>
      if Time.Before (WindowStart window) earliestWindow
      then (fst (dropOldWindows earliestWindow rest), true)
      else (ws, false)
  end.

(** The second clause of the condition is only evaluated on a non-empty
    slice. *)
Definition needsNewWindow (ws : list AuditWindow) (start : Time.t) : bool :=
  match last ws with
  | None => true
  | Some w => Time.Before (WindowStart w) start
  end.

(** [a.Windows[latestIndex].OnlineCount++] and [.TotalCount++]. *)
Definition addAudit (online : bool) (w : AuditWindow) : AuditWindow :=
  {| WindowStart := WindowStart w;
     OnlineCount := if online then add32 (OnlineCount w) 1 else OnlineCount w;
     TotalCount := add32 (TotalCount w) 1 |}.

Fixpoint addAuditToLatest (online : bool) (ws : list AuditWindow)
  : list AuditWindow :=
  match ws with
  | [] => []
  | [w] => [addAudit online w]
  | w :: rest => w :: addAuditToLatest online rest
  end.

Definition windowScore (w : AuditWindow) : float :=
  (float64_of_Z (OnlineCount w) / float64_of_Z (TotalCount w))%float.

(** The scoring loop, with its index [i] and its [break] at the last
    window. *)
Fixpoint sumWindowScores (ws : list AuditWindow) (i len : Z) (total : float)
  : float :=
  match ws with
  | [] => total
  | window :: rest =>
      if i + 1 =? len then total
      else sumWindowScores rest (i + 1) len (total + windowScore window)%float
  end.

Definition len {A : Type} (l : list A) : Z := Z.of_nat (length l).

(** The windows after the deleting loop and the append, and the flag
    [windowsModified] at that point. *)
Definition prepareWindows (a : AuditHistoryPB) (auditTime : Time.t)
    (config : AuditHistoryConfig) : list AuditWindow * bool :=
  let newAuditWindowStartTime := Time.Truncate auditTime (WindowSize config) in
  let earliestWindow :=
    Time.Add newAuditWindowStartTime (neg64 (TrackingPeriod config)) in
  let '(updatedWindows, dropped) := dropOldWindows earliestWindow (Windows a) in
  if needsNewWindow updatedWindows newAuditWindowStartTime
  then (updatedWindows ++
          [{| WindowStart := newAuditWindowStartTime;
              OnlineCount := 0; TotalCount := 0 |}], true)
  else (updatedWindows, dropped).

(** [recordAuditHistory] mutates [a] in place and returns an error; here it
    returns the message as it is left, next to the error. *)
Definition recordAuditHistory (a : AuditHistoryPB) (auditTime : Time.t)
    (online : bool) (config : AuditHistoryConfig)
  : AuditHistoryPB * option Error :=
  let newAuditWindowStartTime := Time.Truncate auditTime (WindowSize config) in
  let '(windows, windowsModified) := prepareWindows a auditTime config in
  match last windows with
  | None =>
      ({| Windows := windows; Score := Score a |}, Some PanicIndexOutOfRange)
  | Some latest =>
      if Time.After (WindowStart latest) newAuditWindowStartTime
      then ({| Windows := windows; Score := Score a |}, Some ErrWindowPassed)
      else
        let windows := addAuditToLatest online windows in
        if negb windowsModified
        then ({| Windows := windows; Score := Score a |}, None)
        else if len windows <=? 1
        then ({| Windows := windows; Score := 1 |}, None)
        else
          let totalWindowScores := sumWindowScores windows 0 (len windows) 0 in
          ({| Windows := windows;
              Score := (totalWindowScores
                        / float64_of_Z (len windows - 1))%float |}, None)
  end.

(** [reputation.UpdateAuditHistoryResponse]. *)
Record UpdateAuditHistoryResponse : Type := {
  NewScore : float;
  TrackingPeriodFull : bool
}.

(** ** The reputation row *)

(** [dbx.Reputation], one row of the table [reputations]. *)
Record Reputation : Type := {
  Id : NodeID;
  AuditSuccessCount : Z;
  TotalAuditCount : Z;
  VettedAt : option Time.t;
  Contained : bool;
  Disqualified : option Time.t;
  Suspended : option Time.t;
  UnknownAuditSuspended : option Time.t;
  OfflineSuspended : option Time.t;
  UnderReview : option Time.t;
  OnlineScore : float;
  AuditHistoryColumn : AuditHistoryPB;
  AuditReputationAlpha : float;
  AuditReputationBeta : float;
  UnknownAuditReputationAlpha : float;
  UnknownAuditReputationBeta : float
}.

(** [overlay.ReputationStatus]. *)
Record ReputationStatus : Type := {
  rsContained : bool;
  rsDisqualified : option Time.t;
  rsUnknownAuditSuspended : option Time.t;
  rsOfflineSuspended : option Time.t;
  rsVettedAt : option Time.t
}.

(** Modelled from the spec: [overlay.ReputationStatus.Equal] is declared
    outside the files at hand.  The status has changed when one of the five
    externally visible fields differs from the snapshot. *)
Definition ReputationStatus_Equal (a b : ReputationStatus) : bool :=
  bool_decide (rsContained a = rsContained b)
  && bool_decide (rsDisqualified a = rsDisqualified b)
  && bool_decide (rsUnknownAuditSuspended a = rsUnknownAuditSuspended b)
  && bool_decide (rsOfflineSuspended a = rsOfflineSuspended b)
  && bool_decide (rsVettedAt a = rsVettedAt b).

(** The zero value of the struct, which [var oldStatus] holds until it is
    assigned. *)
Definition zeroStatus : ReputationStatus :=
  {| rsContained := false; rsDisqualified := None;
     rsUnknownAuditSuspended := None; rsOfflineSuspended := None;
     rsVettedAt := None |}.

Definition statusOf (dbNode : Reputation) : ReputationStatus :=
  {| rsContained := Contained dbNode;
     rsDisqualified := Disqualified dbNode;
     rsUnknownAuditSuspended := UnknownAuditSuspended dbNode;
     rsOfflineSuspended := OfflineSuspended dbNode;
     rsVettedAt := VettedAt dbNode |}.

Definition getNodeStatus (dbNode : Reputation) : ReputationStatus :=
  {| rsContained := Contained dbNode;
     rsDisqualified := Disqualified dbNode;
     rsUnknownAuditSuspended := UnknownAuditSuspended dbNode;
     rsOfflineSuspended := OfflineSuspended dbNode;
     rsVettedAt := VettedAt dbNode |}.

(** ** The fields of an update *)

(** [int64Field], [float64Field], [boolField] are a flag [set] and a value;
    that is an [option].  A [timeField] has the flag [isNil] besides: unset,
    set to null, or set to a time. *)
Inductive timeField : Type :=
  | timeUnset
  | timeNil
  | timeValue (value : Time.t).

Definition timeField_set (f : timeField) : bool :=
  match f with timeUnset => false | _ => true end.

Record updateNodeStats : Type := {
  uNodeID : NodeID;
  uVettedAt : timeField;
  uTotalAuditCount : option Z;
  uAuditReputationAlpha : option float;
  uAuditReputationBeta : option float;
  uDisqualified : timeField;
  uUnknownAuditReputationAlpha : option float;
  uUnknownAuditReputationBeta : option float;
  uUnknownAuditSuspended : timeField;
  uLastContactSuccess : timeField;
  uLastContactFailure : timeField;
  uAuditSuccessCount : option Z;
  uContained : option bool;
  uOnlineScore : option float;
  uOfflineSuspended : timeField;
  uOfflineUnderReview : timeField
}.

Definition with_VettedAt (v : timeField) (u : updateNodeStats) :=
  {| uNodeID := uNodeID u; uVettedAt := v;
     uTotalAuditCount := uTotalAuditCount u;
     uAuditReputationAlpha := uAuditReputationAlpha u;
     uAuditReputationBeta := uAuditReputationBeta u;
     uDisqualified := uDisqualified u;
     uUnknownAuditReputationAlpha := uUnknownAuditReputationAlpha u;
     uUnknownAuditReputationBeta := uUnknownAuditReputationBeta u;
     uUnknownAuditSuspended := uUnknownAuditSuspended u;
     uLastContactSuccess := uLastContactSuccess u;
     uLastContactFailure := uLastContactFailure u;
     uAuditSuccessCount := uAuditSuccessCount u;
     uContained := uContained u; uOnlineScore := uOnlineScore u;
     uOfflineSuspended := uOfflineSuspended u;
     uOfflineUnderReview := uOfflineUnderReview u |}.

Definition with_Disqualified (v : timeField) (u : updateNodeStats) :=
  {| uNodeID := uNodeID u; uVettedAt := uVettedAt u;
     uTotalAuditCount := uTotalAuditCount u;
     uAuditReputationAlpha := uAuditReputationAlpha u;
     uAuditReputationBeta := uAuditReputationBeta u;
     uDisqualified := v;
     uUnknownAuditReputationAlpha := uUnknownAuditReputationAlpha u;
     uUnknownAuditReputationBeta := uUnknownAuditReputationBeta u;
     uUnknownAuditSuspended := uUnknownAuditSuspended u;
     uLastContactSuccess := uLastContactSuccess u;
     uLastContactFailure := uLastContactFailure u;
     uAuditSuccessCount := uAuditSuccessCount u;
     uContained := uContained u; uOnlineScore := uOnlineScore u;
     uOfflineSuspended := uOfflineSuspended u;
     uOfflineUnderReview := uOfflineUnderReview u |}.

Definition with_UnknownAuditSuspended (v : timeField) (u : updateNodeStats) :=
  {| uNodeID := uNodeID u; uVettedAt := uVettedAt u;
     uTotalAuditCount := uTotalAuditCount u;
     uAuditReputationAlpha := uAuditReputationAlpha u;
     uAuditReputationBeta := uAuditReputationBeta u;
     uDisqualified := uDisqualified u;
     uUnknownAuditReputationAlpha := uUnknownAuditReputationAlpha u;
     uUnknownAuditReputationBeta := uUnknownAuditReputationBeta u;
     uUnknownAuditSuspended := v;
     uLastContactSuccess := uLastContactSuccess u;
     uLastContactFailure := uLastContactFailure u;
     uAuditSuccessCount := uAuditSuccessCount u;
     uContained := uContained u; uOnlineScore := uOnlineScore u;
     uOfflineSuspended := uOfflineSuspended u;
     uOfflineUnderReview := uOfflineUnderReview u |}.

Definition with_LastContactSuccess (v : timeField) (u : updateNodeStats) :=
  {| uNodeID := uNodeID u; uVettedAt := uVettedAt u;
     uTotalAuditCount := uTotalAuditCount u;
     uAuditReputationAlpha := uAuditReputationAlpha u;
     uAuditReputationBeta := uAuditReputationBeta u;
     uDisqualified := uDisqualified u;
     uUnknownAuditReputationAlpha := uUnknownAuditReputationAlpha u;
     uUnknownAuditReputationBeta := uUnknownAuditReputationBeta u;
     uUnknownAuditSuspended := uUnknownAuditSuspended u;
     uLastContactSuccess := v;
     uLastContactFailure := uLastContactFailure u;
     uAuditSuccessCount := uAuditSuccessCount u;
     uContained := uContained u; uOnlineScore := uOnlineScore u;
     uOfflineSuspended := uOfflineSuspended u;
     uOfflineUnderReview := uOfflineUnderReview u |}.

Definition with_LastContactFailure (v : timeField) (u : updateNodeStats) :=
  {| uNodeID := uNodeID u; uVettedAt := uVettedAt u;
     uTotalAuditCount := uTotalAuditCount u;
     uAuditReputationAlpha := uAuditReputationAlpha u;
     uAuditReputationBeta := uAuditReputationBeta u;
     uDisqualified := uDisqualified u;
     uUnknownAuditReputationAlpha := uUnknownAuditReputationAlpha u;
     uUnknownAuditReputationBeta := uUnknownAuditReputationBeta u;
     uUnknownAuditSuspended := uUnknownAuditSuspended u;
     uLastContactSuccess := uLastContactSuccess u;
     uLastContactFailure := v;
     uAuditSuccessCount := uAuditSuccessCount u;
     uContained := uContained u; uOnlineScore := uOnlineScore u;
     uOfflineSuspended := uOfflineSuspended u;
     uOfflineUnderReview := uOfflineUnderReview u |}.

Definition with_AuditSuccessCount (v : option Z) (u : updateNodeStats) :=
  {| uNodeID := uNodeID u; uVettedAt := uVettedAt u;
     uTotalAuditCount := uTotalAuditCount u;
     uAuditReputationAlpha := uAuditReputationAlpha u;
     uAuditReputationBeta := uAuditReputationBeta u;
     uDisqualified := uDisqualified u;
     uUnknownAuditReputationAlpha := uUnknownAuditReputationAlpha u;
     uUnknownAuditReputationBeta := uUnknownAuditReputationBeta u;
     uUnknownAuditSuspended := uUnknownAuditSuspended u;
     uLastContactSuccess := uLastContactSuccess u;
     uLastContactFailure := uLastContactFailure u;
     uAuditSuccessCount := v;
     uContained := uContained u; uOnlineScore := uOnlineScore u;
     uOfflineSuspended := uOfflineSuspended u;
     uOfflineUnderReview := uOfflineUnderReview u |}.

Definition with_OfflineSuspended (v : timeField) (u : updateNodeStats) :=
  {| uNodeID := uNodeID u; uVettedAt := uVettedAt u;
     uTotalAuditCount := uTotalAuditCount u;
     uAuditReputationAlpha := uAuditReputationAlpha u;
     uAuditReputationBeta := uAuditReputationBeta u;
     uDisqualified := uDisqualified u;
     uUnknownAuditReputationAlpha := uUnknownAuditReputationAlpha u;
     uUnknownAuditReputationBeta := uUnknownAuditReputationBeta u;
     uUnknownAuditSuspended := uUnknownAuditSuspended u;
     uLastContactSuccess := uLastContactSuccess u;
     uLastContactFailure := uLastContactFailure u;
     uAuditSuccessCount := uAuditSuccessCount u;
     uContained := uContained u; uOnlineScore := uOnlineScore u;
     uOfflineSuspended := v;
     uOfflineUnderReview := uOfflineUnderReview u |}.

Definition with_OfflineUnderReview (v : timeField) (u : updateNodeStats) :=
  {| uNodeID := uNodeID u; uVettedAt := uVettedAt u;
     uTotalAuditCount := uTotalAuditCount u;
     uAuditReputationAlpha := uAuditReputationAlpha u;
     uAuditReputationBeta := uAuditReputationBeta u;
     uDisqualified := uDisqualified u;
     uUnknownAuditReputationAlpha := uUnknownAuditReputationAlpha u;
     uUnknownAuditReputationBeta := uUnknownAuditReputationBeta u;
     uUnknownAuditSuspended := uUnknownAuditSuspended u;
     uLastContactSuccess := uLastContactSuccess u;
     uLastContactFailure := uLastContactFailure u;
     uAuditSuccessCount := uAuditSuccessCount u;
     uContained := uContained u; uOnlineScore := uOnlineScore u;
     uOfflineSuspended := uOfflineSuspended u;
     uOfflineUnderReview := v |}.

(** ** Monitoring

    What the code sends to monkit: [mon.FloatVal(name).Observe(v)] and
    [mon.Meter(name).Mark(1)].  The zap log lines that go with each meter are
    not modelled. *)
Inductive monEvent : Type :=
  | FloatVal (name : string) (v : float)
  | Meter (name : string).

(** ** The belief update *)

(** Modelled from the spec: [updateReputation] is declared outside the files
    at hand.  A success gives [lambda * alpha + w] and [lambda * beta], a
    failure [lambda * alpha] and [lambda * beta + w]; the count goes up by
    one. *)
Definition updateReputation (isSuccess : bool) (alpha beta lambda w : float)
    (totalCount : Z) : float * float * Z :=
  if isSuccess
  then ((lambda * alpha + w)%float, (lambda * beta)%float, add64 totalCount 1)
  else ((lambda * alpha)%float, (lambda * beta + w)%float, add64 totalCount 1).

(** The [switch] over the outcome: the two pairs and the new count. *)
Definition applyOutcome (dbNode : Reputation) (updateReq : UpdateRequest)
  : float * float * float * float * Z :=
  let auditAlpha := AuditReputationAlpha dbNode in
  let auditBeta := AuditReputationBeta dbNode in
  let unknownAuditAlpha := UnknownAuditReputationAlpha dbNode in
  let unknownAuditBeta := UnknownAuditReputationBeta dbNode in
  let totalAuditCount := TotalAuditCount dbNode in
  match AuditOutcome updateReq with
  | AuditSuccess =>
      let '(auditAlpha, auditBeta, updatedTotalAuditCount) :=
        updateReputation true auditAlpha auditBeta
          (AuditLambda updateReq) (AuditWeight updateReq) totalAuditCount in
      let '(unknownAuditAlpha, unknownAuditBeta, _) :=
        updateReputation true unknownAuditAlpha unknownAuditBeta
          (AuditLambda updateReq) (AuditWeight updateReq) totalAuditCount in
      (auditAlpha, auditBeta, unknownAuditAlpha, unknownAuditBeta,
       updatedTotalAuditCount)
  | AuditFailure =>
      let '(auditAlpha, auditBeta, updatedTotalAuditCount) :=
        updateReputation false auditAlpha auditBeta
          (AuditLambda updateReq) (AuditWeight updateReq) totalAuditCount in
      (auditAlpha, auditBeta, unknownAuditAlpha, unknownAuditBeta,
       updatedTotalAuditCount)
  | AuditUnknown =>
      let '(unknownAuditAlpha, unknownAuditBeta, updatedTotalAuditCount) :=
        updateReputation false unknownAuditAlpha unknownAuditBeta
          (AuditLambda updateReq) (AuditWeight updateReq) totalAuditCount in
      (auditAlpha, auditBeta, unknownAuditAlpha, unknownAuditBeta,
       updatedTotalAuditCount)
  | AuditOffline =>
      (auditAlpha, auditBeta, unknownAuditAlpha, unknownAuditBeta,
       add64 totalAuditCount 1)
  end.

Definition isNil {A : Type} (p : option A) : bool :=
  match p with None => true | Some _ => false end.

(** The code fills [updateFields] block by block; each block below takes
    and returns the fields filled so far and what was sent to monkit. *)
Definition stats : Type := updateNodeStats * list monEvent.

(** [if vettedAt == nil && updatedTotalAuditCount >=
    updateReq.AuditsRequiredForVetting]. *)
Definition vettingStep (dbNode : Reputation) (updateReq : UpdateRequest)
    (updatedTotalAuditCount : Z) (now : Time.t) (st : stats) : stats :=
  if isNil (VettedAt dbNode)
     && (AuditsRequiredForVetting updateReq <=? updatedTotalAuditCount)
  then (with_VettedAt (timeValue now) (fst st), snd st)
  else st.

(** "disqualification case a: Success/fail audit reputation falls below
    audit DQ threshold". *)
Definition auditDQStep (updateReq : UpdateRequest) (auditRep : float)
    (now : Time.t) (st : stats) : stats :=
  if (auditRep <=? AuditDQ updateReq)%float
  then (with_Disqualified (timeValue now) (fst st),
        snd st ++ [Meter "bad_audit_dqs"])
  else st.

(** The block "if unknown audit rep goes below threshold, suspend node.
    Otherwise unsuspend node", with disqualification case b inside it.
    [wall] is what [time.Now()] reads inside [time.Since]. *)
Definition unknownAuditStep (dbNode : Reputation) (updateReq : UpdateRequest)
    (unknownAuditRep : float) (now wall : Time.t) (st : stats) : stats :=
  if (unknownAuditRep <=? AuditDQ updateReq)%float then
    let st :=
      if isNil (UnknownAuditSuspended dbNode)
      then (with_UnknownAuditSuspended (timeValue now) (fst st), snd st)
      else st in
    if negb (AuditType_eqb (AuditOutcome updateReq) AuditSuccess) then
      match UnknownAuditSuspended dbNode with
      | Some suspendedAt =>
          if negb (timeField_set (uUnknownAuditSuspended (fst st)))
             && (SuspensionGracePeriod updateReq <? Time.Sub wall suspendedAt)
             && SuspensionDQEnabled updateReq
          then (with_UnknownAuditSuspended timeNil
                  (with_Disqualified (timeValue now) (fst st)),
                snd st ++ [Meter "unknown_suspension_dqs"])
          else st
      | None => st
      end
    else st
  else if negb (isNil (UnknownAuditSuspended dbNode))
  then (with_UnknownAuditSuspended timeNil (fst st), snd st)
  else st.

(** [if isUp { LastContactSuccess = now } else { LastContactFailure = now }]. *)
Definition contactStep (updateReq : UpdateRequest) (now : Time.t) (st : stats)
  : stats :=
  if negb (AuditType_eqb (AuditOutcome updateReq) AuditOffline)
  then (with_LastContactSuccess (timeValue now) (fst st), snd st)
  else (with_LastContactFailure (timeValue now) (fst st), snd st).

Definition successCountStep (dbNode : Reputation) (updateReq : UpdateRequest)
    (st : stats) : stats :=
  if AuditType_eqb (AuditOutcome updateReq) AuditSuccess
  then (with_AuditSuccessCount (Some (add64 (AuditSuccessCount dbNode) 1))
          (fst st), snd st)
  else st.

(** "if suspension not enabled, skip penalization and unsuspend node if
    applicable". *)
Definition offlineDisabledStep (dbNode : Reputation) (st : stats) : stats :=
  let st :=
    if negb (isNil (OfflineSuspended dbNode))
    then (with_OfflineSuspended timeNil (fst st), snd st)
    else st in
  if negb (isNil (UnderReview dbNode))
  then (with_OfflineUnderReview timeNil (fst st), snd st)
  else st.

(** "only penalize node if online score is below threshold and if it has
    enough completed windows to fill a tracking period". *)
Definition penalizeOfflineNode (updateReq : UpdateRequest)
    (auditHistoryResponse : UpdateAuditHistoryResponse) : bool :=
  (NewScore auditHistoryResponse
     <? OfflineThreshold (AuditHistory updateReq))%float
  && TrackingPeriodFull auditHistoryResponse.

(** "Suspension and disqualification for offline nodes". *)
Definition offlineStep (dbNode : Reputation) (updateReq : UpdateRequest)
    (auditHistoryResponse : UpdateAuditHistoryResponse) (now : Time.t)
    (st : stats) : stats :=
  let penalize := penalizeOfflineNode updateReq auditHistoryResponse in
  match UnderReview dbNode with
  | Some underReview =>
      (* move node in and out of suspension as needed during review period *)
      let st :=
        if negb penalize && negb (isNil (OfflineSuspended dbNode))
        then (with_OfflineSuspended timeNil (fst st), snd st)
        else if penalize && isNil (OfflineSuspended dbNode)
        then (with_OfflineSuspended (timeValue now) (fst st), snd st)
        else st in
      let gracePeriodEnd :=
        Time.Add underReview (GracePeriod (AuditHistory updateReq)) in
      let trackingPeriodEnd :=
        Time.Add gracePeriodEnd (TrackingPeriod (AuditHistory updateReq)) in
      let trackingPeriodPassed := Time.After now trackingPeriodEnd in
      if trackingPeriodPassed then
        if penalize then
          if OfflineDQEnabled (AuditHistory updateReq)
          then (with_Disqualified (timeValue now) (fst st),
                snd st ++ [Meter "offline_dqs"])
          else st
        else (with_OfflineSuspended timeNil
                (with_OfflineUnderReview timeNil (fst st)), snd st)
      else st
  | None =>
      if penalize
      then (with_OfflineSuspended (timeValue now)
              (with_OfflineUnderReview (timeValue now) (fst st)), snd st)
      else st
  end.

(** The fields as the struct literal sets them, and the five observations
    made before it. *)
Definition initialStats (updateReq : UpdateRequest)
    (auditHistoryResponse : UpdateAuditHistoryResponse)
    (auditAlpha auditBeta unknownAuditAlpha unknownAuditBeta : float)
    (updatedTotalAuditCount : Z) : stats :=
  ({| uNodeID := NodeID_ updateReq;
      uVettedAt := timeUnset;
      uTotalAuditCount := Some updatedTotalAuditCount;
      uAuditReputationAlpha := Some auditAlpha;
      uAuditReputationBeta := Some auditBeta;
      uDisqualified := timeUnset;
      uUnknownAuditReputationAlpha := Some unknownAuditAlpha;
      uUnknownAuditReputationBeta := Some unknownAuditBeta;
      uUnknownAuditSuspended := timeUnset;
      uLastContactSuccess := timeUnset;
      uLastContactFailure := timeUnset;
      uAuditSuccessCount := None;
      uContained := Some false;
      uOnlineScore := Some (NewScore auditHistoryResponse);
      uOfflineSuspended := timeUnset;
      uOfflineUnderReview := timeUnset |},
   [ FloatVal "audit_reputation_alpha" auditAlpha;
     FloatVal "audit_reputation_beta" auditBeta;
     FloatVal "unknown_audit_reputation_alpha" unknownAuditAlpha;
     FloatVal "unknown_audit_reputation_beta" unknownAuditBeta;
     FloatVal "audit_online_score" (NewScore auditHistoryResponse) ]).

Definition populateUpdateNodeStats (dbNode : Reputation)
    (updateReq : UpdateRequest)
    (auditHistoryResponse : UpdateAuditHistoryResponse) (now wall : Time.t)
  : stats :=
  let '(auditAlpha, auditBeta, unknownAuditAlpha, unknownAuditBeta,
        updatedTotalAuditCount) := applyOutcome dbNode updateReq in
  let st :=
    initialStats updateReq auditHistoryResponse auditAlpha auditBeta
      unknownAuditAlpha unknownAuditBeta updatedTotalAuditCount in
  let st := vettingStep dbNode updateReq updatedTotalAuditCount now st in
  let auditRep := (auditAlpha / (auditAlpha + auditBeta))%float in
  let st := auditDQStep updateReq auditRep now st in
  let unknownAuditRep :=
    (unknownAuditAlpha / (unknownAuditAlpha + unknownAuditBeta))%float in
  let st := unknownAuditStep dbNode updateReq unknownAuditRep now wall st in
  let st := contactStep updateReq now st in
  let st := successCountStep dbNode updateReq st in
  if negb (OfflineSuspensionEnabled (AuditHistory updateReq))
  then offlineDisabledStep dbNode st
  else offlineStep dbNode updateReq auditHistoryResponse now st.

(** ** The update of the row *)

(** [dbx.Reputation_Update_Fields]: for each column, unset or the value to
    write; a nullable column can be written to null. *)
Record Reputation_Update_Fields : Type := {
  fVettedAt : option (option Time.t);
  fTotalAuditCount : option Z;
  fAuditReputationAlpha : option float;
  fAuditReputationBeta : option float;
  fDisqualified : option (option Time.t);
  fUnknownAuditReputationAlpha : option float;
  fUnknownAuditReputationBeta : option float;
  fUnknownAuditSuspended : option (option Time.t);
  fAuditSuccessCount : option Z;
  fContained : option bool;
  fOnlineScore : option float;
  fOfflineSuspended : option (option Time.t);
  fUnderReview : option (option Time.t)
}.

(** [if f.set { column = dbx.Column(f.value) }]: the flag [isNil] is not
    looked at, and the value of a field set to null is the zero time. *)
Definition columnOfValue (f : timeField) : option (option Time.t) :=
  match f with
  | timeUnset => None
  | timeNil => Some (Some 0)
  | timeValue v => Some (Some v)
  end.

(** [if f.set { if f.isNil { column = Null() } else { column = value } }]. *)
Definition columnOrNull (f : timeField) : option (option Time.t) :=
  match f with
  | timeUnset => None
  | timeNil => Some None
  | timeValue v => Some (Some v)
  end.

Definition populateUpdateFields (dbNode : Reputation)
    (updateReq : UpdateRequest)
    (auditHistoryResponse : UpdateAuditHistoryResponse) (now wall : Time.t)
  : Reputation_Update_Fields * list monEvent :=
  let st :=
    populateUpdateNodeStats dbNode updateReq auditHistoryResponse now wall in
  let update := fst st in
  ({| fVettedAt := columnOfValue (uVettedAt update);
      fTotalAuditCount := uTotalAuditCount update;
      fAuditReputationAlpha := uAuditReputationAlpha update;
      fAuditReputationBeta := uAuditReputationBeta update;
      fDisqualified := columnOfValue (uDisqualified update);
      fUnknownAuditReputationAlpha := uUnknownAuditReputationAlpha update;
      fUnknownAuditReputationBeta := uUnknownAuditReputationBeta update;
      fUnknownAuditSuspended := columnOrNull (uUnknownAuditSuspended update);
      fAuditSuccessCount :=
        if AuditType_eqb (AuditOutcome updateReq) AuditSuccess
        then Some (add64 (AuditSuccessCount dbNode) 1)
        else uAuditSuccessCount update;
      fContained := uContained update;
      fOnlineScore := uOnlineScore update;
      fOfflineSuspended := columnOrNull (uOfflineSuspended update);
      fUnderReview := columnOrNull (uOfflineUnderReview update) |}, snd st).

Definition orKeep {A : Type} (f : option A) (old : A) : A :=
  match f with Some v => v | None => old end.

(** Modelled from the spec: the generated [Update_Reputation_By_Id] is
    declared outside the files at hand.  Every column whose field is set
    takes the field's value, every other column keeps its own. *)
Definition applyUpdateFields (f : Reputation_Update_Fields) (r : Reputation)
  : Reputation :=
  {| Id := Id r;
     AuditSuccessCount := orKeep (fAuditSuccessCount f) (AuditSuccessCount r);
     TotalAuditCount := orKeep (fTotalAuditCount f) (TotalAuditCount r);
     VettedAt := orKeep (fVettedAt f) (VettedAt r);
     Contained := orKeep (fContained f) (Contained r);
     Disqualified := orKeep (fDisqualified f) (Disqualified r);
     Suspended := Suspended r;
     UnknownAuditSuspended :=
       orKeep (fUnknownAuditSuspended f) (UnknownAuditSuspended r);
     OfflineSuspended := orKeep (fOfflineSuspended f) (OfflineSuspended r);
     UnderReview := orKeep (fUnderReview f) (UnderReview r);
     OnlineScore := orKeep (fOnlineScore f) (OnlineScore r);
     AuditHistoryColumn := AuditHistoryColumn r;
     AuditReputationAlpha :=
       orKeep (fAuditReputationAlpha f) (AuditReputationAlpha r);
     AuditReputationBeta :=
       orKeep (fAuditReputationBeta f) (AuditReputationBeta r);
     UnknownAuditReputationAlpha :=
       orKeep (fUnknownAuditReputationAlpha f) (UnknownAuditReputationAlpha r);
     UnknownAuditReputationBeta :=
       orKeep (fUnknownAuditReputationBeta f) (UnknownAuditReputationBeta r) |}.

(** ** The store and the transaction *)

Record DB : Type := {
  reputations : gmap N Reputation;
  audit_histories : gmap N AuditHistoryPB
}.

Definition with_reputations (m : gmap N Reputation) (db : DB) : DB :=
  {| reputations := m; audit_histories := audit_histories db |}.

Definition with_audit_histories (m : gmap N AuditHistoryPB) (db : DB) : DB :=
  {| reputations := reputations db; audit_histories := m |}.

(** Modelled from the spec: [WithTx] is declared outside the files at hand.
    The writes of the callback are committed when it returns no error and
    dropped when it returns one. *)
Definition WithTx {A : Type} (db : DB) (fn : DB -> DB * A * option Error)
  : DB * A * option Error :=
  let '(db', out, err) := fn db in
  match err with
  | Some e => (db, out, Some e)
  | None => (db', out, None)
  end.

(** [&internalpb.AuditHistory{}], which is also what unmarshalling no bytes
    gives. *)
Definition emptyHistory : AuditHistoryPB := {| Windows := []; Score := 0 |}.

Definition windowsPerTrackingPeriod (config : AuditHistoryConfig) : Z :=
  int_of_float64 (Duration.Seconds (TrackingPeriod config)
                  / Duration.Seconds (WindowSize config))%float.

Definition updateAuditHistoryWithTx (tx : DB) (nodeID : NodeID)
    (auditTime : Time.t) (online : bool) (config : AuditHistoryConfig)
  : DB * UpdateAuditHistoryResponse * option Error :=
  let res := {| NewScore := 1; TrackingPeriodFull := false |} in
  let '(history, newEntry) :=
    match audit_histories tx !! nodeID with
    | None => (emptyHistory, true)
    | Some h => (h, false)
    end in
  let '(history, err) := recordAuditHistory history auditTime online config in
  match err with
  | Some e => (tx, res, Some e)
  | None =>
      let tx := with_audit_histories (<[nodeID := history]> (audit_histories tx)) tx in
      if newEntry then (tx, res, None)
      else
        let res :=
          {| NewScore := Score history;
             TrackingPeriodFull :=
               windowsPerTrackingPeriod config <=? len (Windows history) - 1 |} in
        (tx, res, None)
  end.

Section Update.

(** The row that [INSERT INTO reputations (id, audit_history)] creates:
    the columns not named take the defaults of the schema, which is
    declared outside the files at hand. *)
Variable insertedRow : NodeID -> Reputation.

(** What the callback passed to [WithTx] leaves in the captured variables
    [dbNode] and [oldStatus], and what it sent to monkit. *)
Definition updateTx (updateReq : UpdateRequest) (now wall : Time.t) (tx : DB)
  : DB * (Reputation * ReputationStatus * list monEvent) * option Error :=
  let nodeID := NodeID_ updateReq in
  let '(tx, dbNode) :=
    match reputations tx !! nodeID with
    | None =>
        (with_reputations (<[nodeID := insertedRow nodeID]> (reputations tx)) tx,
         insertedRow nodeID)
    | Some dbNode => (tx, dbNode)
    end in
  (* do not update reputation if node is disqualified *)
  if negb (isNil (Disqualified dbNode)) then (tx, (dbNode, zeroStatus, []), None)
  else
    let oldStatus := statusOf dbNode in
    let isUp := negb (AuditType_eqb (AuditOutcome updateReq) AuditOffline) in
    let '(tx, auditHistoryResponse, err) :=
      updateAuditHistoryWithTx tx nodeID now isUp (AuditHistory updateReq) in
    match err with
    | Some e => (tx, (dbNode, oldStatus, []), Some e)
    | None =>
        let '(updateFields, mon) :=
          populateUpdateFields dbNode updateReq auditHistoryResponse now wall in
        let dbNode := applyUpdateFields updateFields dbNode in
        (with_reputations (<[nodeID := dbNode]> (reputations tx)) tx,
         (dbNode, oldStatus, mon), None)
    end.

Record UpdateResult : Type := {
  status : option ReputationStatus;
  changed : bool;
  err : option Error;
  monitored : list monEvent
}.

Definition Update (db : DB) (updateReq : UpdateRequest) (now wall : Time.t)
  : DB * UpdateResult :=
  let '(db, (dbNode, oldStatus, mon), err) :=
    WithTx db (updateTx updateReq now wall) in
  match err with
  | Some e =>
      (db, {| status := None; changed := false; err := Some e;
              monitored := mon |})
  | None =>
      let newStatus := statusOf dbNode in
      (db, {| status := Some (getNodeStatus dbNode);
              changed := negb (ReputationStatus_Equal oldStatus newStatus);
              err := None; monitored := mon |})
  end.

End Update.

(** ** Vocabulary of the specification *)

(** The start of the window an observation falls in. *)
Definition windowStartOf (auditTime : Time.t) (config : AuditHistoryConfig)
  : Time.t :=
  Time.Truncate auditTime (WindowSize config).

(** The cutoff of the tracking period: windows that start before it are
    too old for an observation made at [auditTime]. *)
Definition windowCutoff (auditTime : Time.t) (config : AuditHistoryConfig)
  : Time.t :=
  windowStartOf auditTime config + neg64 (TrackingPeriod config).

(** A window was dropped: the leading windows older than the cutoff go, so
    one goes when the first window of the history is older than the
    cutoff. *)
Definition windowsDropped (a : AuditHistoryPB) (auditTime : Time.t)
    (config : AuditHistoryConfig) : bool :=
  match Windows a with
  | [] => false
  | w :: _ => WindowStart w <? windowCutoff auditTime config
  end.

(** A window was added: no window is left, which is when every window of
    the history is older than the cutoff, or the last window starts
    strictly before the window of the observation. *)
Definition windowAdded (a : AuditHistoryPB) (auditTime : Time.t)
    (config : AuditHistoryConfig) : bool :=
  forallb (fun w => WindowStart w <? windowCutoff auditTime config)
    (Windows a)
  || match last (Windows a) with
     | None => true
     | Some w => WindowStart w <? windowStartOf auditTime config
     end.

(** [onlineCount / totalCount] of a window, in [float64]. *)
Definition onlineRatio (w : AuditWindow) : float :=
  (float64_of_Z (OnlineCount w) / float64_of_Z (TotalCount w))%float.

(** The arithmetic mean of [onlineCount / totalCount] over the windows of a
    list: the ratios added up from the first window on, divided by the
    number of windows, in [float64] as the score is. *)
Definition meanOnlineRatio (ws : list AuditWindow) : float :=
  (fold_left (fun total w => total + onlineRatio w) ws 0
   / float64_of_Z (len ws))%float.

(** All the windows but the last. *)
Definition completedWindows (ws : list AuditWindow) : list AuditWindow :=
  removelast ws.

(** The row and the history an update of node [nodeID] starts from. *)
Definition rowBefore (insertedRow : NodeID -> Reputation) (db : DB)
    (nodeID : NodeID) : Reputation :=
  match reputations db !! nodeID with
  | Some r => r
  | None => insertedRow nodeID
  end.

Definition historyBefore (db : DB) (nodeID : NodeID) : AuditHistoryPB :=
  match audit_histories db !! nodeID with
  | Some h => h
  | None => emptyHistory
  end.


(** [isUp]: the node answered, whatever the answer was. *)
Definition isUpOf (updateReq : UpdateRequest) : bool :=
  negb (AuditType_eqb (AuditOutcome updateReq) AuditOffline).

(** The row a processed update writes. *)
Definition updatedRow (dbNode : Reputation) (updateReq : UpdateRequest)
    (auditHistoryResponse : UpdateAuditHistoryResponse) (now wall : Time.t)
  : Reputation :=
  applyUpdateFields
    (fst (populateUpdateFields dbNode updateReq auditHistoryResponse now wall))
    dbNode.

(** One audit event: the request, the time passed as [now] and the clock. *)
Record AuditEvent : Type := {
  evRequest : UpdateRequest;
  evNow : Time.t;
  evWall : Time.t
}.

(** The store after a sequence of updates, one after the other. *)
Fixpoint runUpdates (insertedRow : NodeID -> Reputation) (db : DB)
    (events : list AuditEvent) : DB :=
  match events with
  | [] => db
  | e :: rest =>
      runUpdates insertedRow
        (fst (Update insertedRow db (evRequest e) (evNow e) (evWall e))) rest
  end.

(** Disqualification case b took place: its meter was marked. *)
Definition gracePeriodDQ (mon : list monEvent) : Prop :=
  In (Meter "unknown_suspension_dqs") mon.

(** ** The other entry points of the store *)

(** The errors of the queries: [sql.ErrNoRows] as the store reports it, and
    [overlay.ErrNodeNotFound]. *)
Inductive QueryError : Type :=
  | ErrNoRows
  | ErrNodeNotFound.

(** [dbx.Reputation_Update_Fields{}]: no column is written. *)
Definition noFields : Reputation_Update_Fields :=
  {| fVettedAt := None; fTotalAuditCount := None;
     fAuditReputationAlpha := None; fAuditReputationBeta := None;
     fDisqualified := None; fUnknownAuditReputationAlpha := None;
     fUnknownAuditReputationBeta := None; fUnknownAuditSuspended := None;
     fAuditSuccessCount := None; fContained := None; fOnlineScore := None;
     fOfflineSuspended := None; fUnderReview := None |}.

(** [Update_Reputation_By_Id] on the table: the row with the id takes the
    fields; without such a row nothing is written and no row comes back. *)
Definition Update_Reputation_By_Id (tx : DB) (id : NodeID)
    (f : Reputation_Update_Fields) : DB * option Reputation :=
  match reputations tx !! id with
  | Some r =>
      (with_reputations (<[id := applyUpdateFields f r]> (reputations tx)) tx,
       Some (applyUpdateFields f r))
  | None => (tx, None)
  end.

(** [SetNodeStatus]: the five fields of the status are written as they are,
    a nil pointer as null.  The statement runs outside a transaction and
    the row it returns is dropped. *)
Definition SetNodeStatus (db : DB) (id : NodeID) (status : ReputationStatus)
  : DB :=
  let updateFields :=
    {| fVettedAt := Some (rsVettedAt status);
       fTotalAuditCount := None;
       fAuditReputationAlpha := None; fAuditReputationBeta := None;
       fDisqualified := Some (rsDisqualified status);
       fUnknownAuditReputationAlpha := None;
       fUnknownAuditReputationBeta := None;
       fUnknownAuditSuspended := Some (rsUnknownAuditSuspended status);
       fAuditSuccessCount := None;
       fContained := Some (rsContained status);
       fOnlineScore := None;
       fOfflineSuspended := Some (rsOfflineSuspended status);
       fUnderReview := None |} in
  fst (Update_Reputation_By_Id db id updateFields).

(** [reputation.AuditWindow] and [reputation.AuditHistory], the types the
    queries return. *)
Record ReputationAuditWindow : Type := {
  rwWindowStart : Time.t;
  rwTotalCount : Z;
  rwOnlineCount : Z
}.

Record ReputationAuditHistory : Type := {
  rhScore : float;
  rhWindows : list ReputationAuditWindow
}.

(** [convertAuditHistoryFromDBX]: one window of the result for each window
    of the message, in the same place. *)
Definition convertAuditHistoryFromDBX (historyPB : AuditHistoryPB)
  : ReputationAuditHistory :=
  {| rhScore := Score historyPB;
     rhWindows :=
       map (fun window =>
              {| rwWindowStart := WindowStart window;
                 rwTotalCount := TotalCount window;
                 rwOnlineCount := OnlineCount window |})
           (Windows historyPB) |}.

(** [auditHistoryFromPB], the method with the same body. *)
Definition auditHistoryFromPB (historyPB : AuditHistoryPB)
  : ReputationAuditHistory :=
  {| rhScore := Score historyPB;
     rhWindows :=
       map (fun window =>
              {| rwWindowStart := WindowStart window;
                 rwTotalCount := TotalCount window;
                 rwOnlineCount := OnlineCount window |})
           (Windows historyPB) |}.

(** [reputation.Info]. *)
Record Info : Type := {
  iAuditSuccessCount : Z;
  iTotalAuditCount : Z;
  iVettedAt : option Time.t;
  iContained : bool;
  iDisqualified : option Time.t;
  iSuspended : option Time.t;
  iUnknownAuditSuspended : option Time.t;
  iOfflineSuspended : option Time.t;
  iUnderReview : option Time.t;
  iOnlineScore : float;
  iAuditHistory : ReputationAuditHistory;
  iAuditReputationAlpha : float;
  iAuditReputationBeta : float;
  iUnknownAuditReputationAlpha : float;
  iUnknownAuditReputationBeta : float
}.

(** [Get]: the row of the node, with the history held in its column
    [audit_history]. *)
Definition Get (db : DB) (nodeID : NodeID) : Info + QueryError :=
  match reputations db !! nodeID with
  | None => inr ErrNoRows
  | Some res =>
      let history := convertAuditHistoryFromDBX (AuditHistoryColumn res) in
      inl {| iAuditSuccessCount := AuditSuccessCount res;
             iTotalAuditCount := TotalAuditCount res;
             iVettedAt := VettedAt res;
             iContained := Contained res;
             iDisqualified := Disqualified res;
             iSuspended := Suspended res;
             iUnknownAuditSuspended := UnknownAuditSuspended res;
             iOfflineSuspended := OfflineSuspended res;
             iUnderReview := UnderReview res;
             iOnlineScore := OnlineScore res;
             iAuditHistory := history;
             iAuditReputationAlpha := AuditReputationAlpha res;
             iAuditReputationBeta := AuditReputationBeta res;
             iUnknownAuditReputationAlpha := UnknownAuditReputationAlpha res;
             iUnknownAuditReputationBeta := UnknownAuditReputationBeta res |}
  end.

(** [GetAuditHistory]: the record of the table [audit_histories]. *)
Definition GetAuditHistory (db : DB) (nodeID : NodeID)
  : ReputationAuditHistory + QueryError :=
  match audit_histories db !! nodeID with
  | None => inr ErrNodeNotFound
  | Some dbAuditHistory => inl (auditHistoryFromPB dbAuditHistory)
  end.

(** [UpdateAuditHistory]: the audit-history step in a transaction of its
    own. *)
Definition UpdateAuditHistory (db : DB) (nodeID : NodeID)
    (auditTime : Time.t) (online : bool) (config : AuditHistoryConfig)
  : DB * UpdateAuditHistoryResponse * option Error :=
  WithTx db
    (fun tx => updateAuditHistoryWithTx tx nodeID auditTime online config).

Section Administration.

(** The row an [INSERT INTO reputations (id, audit_history)] creates, as in
    [Update]. *)
Variable insertedRow : NodeID -> Reputation.

(** The first statements of [DisqualifyNode], [SuspendNodeUnknownAudit] and
    [UnsuspendNodeUnknownAudit]: the row is created when it is missing. *)
Definition ensureRow (tx : DB) (nodeID : NodeID) : DB :=
  match reputations tx !! nodeID with
  | None =>
      with_reputations (<[nodeID := insertedRow nodeID]> (reputations tx)) tx
  | Some _ => tx
  end.

(** The three functions end alike: the fields are written and the status of
    the row that comes back is returned.  No statement of the in-memory
    store fails, so the transaction commits. *)
Definition writeStatusField (db : DB) (nodeID : NodeID)
    (updateFields : Reputation_Update_Fields)
  : DB * option ReputationStatus :=
  let '(db, dbNode, _) :=
    WithTx db (fun tx =>
      let tx := ensureRow tx nodeID in
      let '(tx, dbNode) := Update_Reputation_By_Id tx nodeID updateFields in
      (tx, dbNode, None)) in
  (db, statusOf <$> dbNode).

(** [DisqualifyNode]; [wall] is [time.Now().UTC()]. *)
Definition DisqualifyNode (db : DB) (nodeID : NodeID) (wall : Time.t)
  : DB * option ReputationStatus :=
  writeStatusField db nodeID
    {| fVettedAt := None; fTotalAuditCount := None;
       fAuditReputationAlpha := None; fAuditReputationBeta := None;
       fDisqualified := Some (Some wall);
       fUnknownAuditReputationAlpha := None;
       fUnknownAuditReputationBeta := None; fUnknownAuditSuspended := None;
       fAuditSuccessCount := None; fContained := None; fOnlineScore := None;
       fOfflineSuspended := None; fUnderReview := None |}.

(** [SuspendNodeUnknownAudit]. *)
Definition SuspendNodeUnknownAudit (db : DB) (nodeID : NodeID)
    (suspendedAt : Time.t) : DB * option ReputationStatus :=
  writeStatusField db nodeID
    {| fVettedAt := None; fTotalAuditCount := None;
       fAuditReputationAlpha := None; fAuditReputationBeta := None;
       fDisqualified := None;
       fUnknownAuditReputationAlpha := None;
       fUnknownAuditReputationBeta := None;
       fUnknownAuditSuspended := Some (Some suspendedAt);
       fAuditSuccessCount := None; fContained := None; fOnlineScore := None;
       fOfflineSuspended := None; fUnderReview := None |}.

(** [UnsuspendNodeUnknownAudit]. *)
Definition UnsuspendNodeUnknownAudit (db : DB) (nodeID : NodeID)
  : DB * option ReputationStatus :=
  writeStatusField db nodeID
    {| fVettedAt := None; fTotalAuditCount := None;
       fAuditReputationAlpha := None; fAuditReputationBeta := None;
       fDisqualified := None;
       fUnknownAuditReputationAlpha := None;
       fUnknownAuditReputationBeta := None;
       fUnknownAuditSuspended := Some None;
       fAuditSuccessCount := None; fContained := None; fOnlineScore := None;
       fOfflineSuspended := None; fUnderReview := None |}.

End Administration.

(** ** Well-formed histories *)

(** The windows are in order of time, each start once. *)
Fixpoint windowsAscending (ws : list AuditWindow) : Prop :=
  match ws with
  | [] => True
  | w :: rest =>
      match rest with
      | [] => True
      | w' :: _ => WindowStart w < WindowStart w'
      end /\ windowsAscending rest
  end.

(** The counts of a window: no more audits online than audits, and room for
    one more. *)
Definition windowCountsOK (w : AuditWindow) : Prop :=
  0 <= OnlineCount w <= TotalCount w /\ TotalCount w < 2 ^ 31 - 1.

(** Every history of the store has its windows in order. *)
Definition historiesAscending (db : DB) : Prop :=
  forall nodeID h,
    audit_histories db !! nodeID = Some h -> windowsAscending (Windows h).

(** ** The meters of disqualification *)

(** One of the three meters that go with a disqualification was marked. *)
Definition dqMarked (mon : list monEvent) : Prop :=
  In (Meter "bad_audit_dqs") mon
  \/ In (Meter "unknown_suspension_dqs") mon
  \/ In (Meter "offline_dqs") mon.

(** The fields carry a disqualification at [now] and a meter was marked, or
    they carry none and no meter was. *)
Definition dqAccounted (now : Time.t) (st : stats) : Prop :=
  (uDisqualified (fst st) = timeValue now /\ dqMarked (snd st))
  \/ (uDisqualified (fst st) = timeUnset /\ ~ dqMarked (snd st)).

(** ** Walking the pieces of a storage node

    [pieces.FileWalker].  The blob store and the database of V0 pieces are
    interfaces; what they hold for a satellite is taken as the list of
    blobs, and of V0 pieces, that a walk visits, in order, with the error
    the store itself ends the walk with, if any (a directory it cannot
    read, a context it finds done), and what the file system answers for a
    piece ([Size], [ModTime]) as a value of the piece.
    [errFileWalker.Wrap] keeps a nil error nil and tags any other with the
    class; the tag is not modelled. *)

Inductive WalkError : Type :=
  | ErrNotExist
  | ErrIO
  | ErrCanceled.

(** [os.IsNotExist]. *)
Definition IsNotExist (e : WalkError) : bool :=
  match e with ErrNotExist => true | _ => false end.

(** [StoredPieceAccess]: [PieceID()], [Size(ctx)] with the total and the
    content size, [ModTime(ctx)]. *)
Record StoredPieceAccess : Type := {
  PieceID : N;
  Size : (Z * Z) + WalkError;
  ModTime : Time.t + WalkError
}.

(** [blobstore.BlobInfo], with what [newStoredPieceAccess] makes of it:
    nothing for a stray file. *)
Record BlobInfo : Type := {
  StorageFormatVersion : Z;
  newStoredPieceAccess : option StoredPieceAccess
}.

(** [filestore.FormatV1]. *)
Definition FormatV1 : Z := 1.

Record FileWalker : Type := {
  blobs : NodeID -> list BlobInfo * option WalkError;
  v0PieceInfo : option (NodeID -> list StoredPieceAccess * option WalkError)
}.

(** The calls of a walk: the function is called on one item after the
    other, and the first error it returns ends the walk and is returned.
    The function updates the variables it captured; here it takes and
    returns them. *)
Fixpoint walk {A S : Type} (fn : S -> A -> S * option WalkError)
    (items : list A) (s : S) : S * option WalkError :=
  match items with
  | [] => (s, None)
  | item :: rest =>
      match fn s item with
      | (s, Some e) => (s, Some e)
      | (s, None) => walk fn rest s
      end
  end.

(** [WalkNamespace] and [WalkSatelliteV0Pieces]: the calls on what the
    store visits, then the error of the store itself. *)
Definition walkStore {A S : Type} (fn : S -> A -> S * option WalkError)
    (store : list A * option WalkError) (s : S) : S * option WalkError :=
  match walk fn (fst store) s with
  | (s, Some e) => (s, Some e)
  | (s, None) => (s, snd store)
  end.

Definition WalkSatellitePieces {S : Type} (fw : FileWalker)
    (satellite : NodeID) (fn : S -> StoredPieceAccess -> S * option WalkError)
    (s : S) : S * option WalkError :=
  (* iterate over all in V1 storage, skipping v0 pieces *)
  let '(s, err) :=
    walkStore (fun s blobInfo =>
                 if StorageFormatVersion blobInfo <? FormatV1 then (s, None)
                 else match newStoredPieceAccess blobInfo with
                      | None => (s, None)
                      | Some pieceAccess => fn s pieceAccess
                      end)
              (blobs fw satellite) s in
  match err, v0PieceInfo fw with
  | None, Some v0 =>
      (* iterate over all in V0 storage *)
      walkStore fn (v0 satellite) s
  | _, _ => (s, err)
  end.

Definition WalkAndComputeSpaceUsedBySatellite (fw : FileWalker)
    (satelliteID : NodeID) : Z * Z * option WalkError :=
  WalkSatellitePieces fw satelliteID
    (fun totals access =>
       match Size access with
       | inr e =>
           if IsNotExist e then (totals, None) else (totals, Some e)
       | inl (pieceTotal, pieceContentSize) =>
           ((add64 (fst totals) pieceTotal,
             add64 (snd totals) pieceContentSize), None)
       end)
    (0, 0).

(** The results of [WalkSatellitePiecesToTrash] but the error. *)
Record trashResult : Type := {
  pieceIDs : list N;
  piecesCount : Z;
  piecesSkipped : Z
}.

(** The function [WalkSatellitePiecesToTrash] passes to the walk.  [filter]
    is [filter.Contains]; [ctxDone n] says whether the context is done when
    it is looked at with [n] pieces collected. *)
Definition trashStep (createdBefore : Time.t) (filter : N -> bool)
    (ctxDone : nat -> bool) (r : trashResult) (access : StoredPieceAccess)
  : trashResult * option WalkError :=
  let r := {| pieceIDs := pieceIDs r;
              piecesCount := add64 (piecesCount r) 1;
              piecesSkipped := piecesSkipped r |} in
  let pieceID := PieceID access in
  if filter pieceID then (r, None)
  else
    match ModTime access with
    | inr e =>
        if IsNotExist e then (r, None)
        else ({| pieceIDs := pieceIDs r; piecesCount := piecesCount r;
                 piecesSkipped := add64 (piecesSkipped r) 1 |}, None)
    | inl mTime =>
        if negb (Time.Before mTime createdBefore) then (r, None)
        else
          let r := {| pieceIDs := pieceIDs r ++ [pieceID];
                      piecesCount := piecesCount r;
                      piecesSkipped := piecesSkipped r |} in
          if ctxDone (length (pieceIDs r)) then (r, Some ErrCanceled)
          else (r, None)
    end.

Definition WalkSatellitePiecesToTrash (fw : FileWalker)
    (satelliteID : NodeID) (createdBefore : Time.t)
    (filter : option (N -> bool)) (ctxDone : nat -> bool)
  : trashResult * option WalkError :=
  match filter with
  | None => ({| pieceIDs := []; piecesCount := 0; piecesSkipped := 0 |}, None)
  | Some filter =>
      WalkSatellitePieces fw satelliteID
        (trashStep createdBefore filter ctxDone)
        {| pieceIDs := []; piecesCount := 0; piecesSkipped := 0 |}
  end.

(** The pieces a walk can reach: those of the blobs of format V1 or later
    that are pieces, then, when the blob store did not fail, the V0
    pieces. *)
Definition blobPieces (fw : FileWalker) (satellite : NodeID)
  : list StoredPieceAccess :=
  omap (fun blobInfo =>
          if StorageFormatVersion blobInfo <? FormatV1 then None
          else newStoredPieceAccess blobInfo)
       (fst (blobs fw satellite)).

Definition v0Pieces (fw : FileWalker) (satellite : NodeID)
  : list StoredPieceAccess :=
  match snd (blobs fw satellite), v0PieceInfo fw with
  | None, Some v0 => fst (v0 satellite)
  | _, _ => []
  end.

(** The error of the stores themselves: that of the blob store, or else
    that of the database of V0 pieces. *)
Definition storeError (fw : FileWalker) (satellite : NodeID)
  : option WalkError :=
  match snd (blobs fw satellite), v0PieceInfo fw with
  | None, Some v0 => snd (v0 satellite)
  | err, _ => err
  end.

Definition allPieces (fw : FileWalker) (satellite : NodeID)
  : list StoredPieceAccess :=
  blobPieces fw satellite ++ v0Pieces fw satellite.

(** A piece whose size cannot be read, for another reason than its being
    gone. *)
Definition sizeFails (access : StoredPieceAccess) : bool :=
  match Size access with
  | inr e => negb (IsNotExist e)
  | inl _ => false
  end.

(** The sizes of the pieces that are still there. *)
Definition sizesOf (pieces : list StoredPieceAccess) : list (Z * Z) :=
  omap (fun access =>
          match Size access with inl sz => Some sz | inr _ => None end)
       pieces.

(** A piece to trash: the filter does not contain it and its modification
    time, which can be read, is before [createdBefore]. *)
Definition isTrash (createdBefore : Time.t) (contains : N -> bool)
    (access : StoredPieceAccess) : bool :=
  negb (contains (PieceID access))
  && match ModTime access with
     | inl mTime => Time.Before mTime createdBefore
     | inr _ => false
     end.

(** A piece the filter does not contain and whose modification time cannot
    be read, for another reason than its being gone. *)
Definition mtimeUnreadable (contains : N -> bool)
    (access : StoredPieceAccess) : bool :=
  negb (contains (PieceID access))
  && match ModTime access with
     | inl _ => false
     | inr e => negb (IsNotExist e)
     end.

(** ** Sample data

    A neutral row, a configuration of one-hour windows over four hours, and
    a request, used where a statement is tried on a concrete input. *)

Definition exampleRow (nodeID : NodeID) : Reputation :=
  {| Id := nodeID; AuditSuccessCount := 0; TotalAuditCount := 0;
     VettedAt := None; Contained := false; Disqualified := None;
     Suspended := None; UnknownAuditSuspended := None;
     OfflineSuspended := None; UnderReview := None;
     OnlineScore := 1; AuditHistoryColumn := emptyHistory;
     AuditReputationAlpha := 1; AuditReputationBeta := 0;
     UnknownAuditReputationAlpha := 1; UnknownAuditReputationBeta := 0 |}.

(** The neutral row of node 1 with some of its timestamps set. *)
Definition exampleRowWith
    (disqualified unknownAuditSuspended offlineSuspended underReview
       : option Time.t) : Reputation :=
  {| Id := 1%N; AuditSuccessCount := 0; TotalAuditCount := 0;
     VettedAt := None; Contained := false; Disqualified := disqualified;
     Suspended := None; UnknownAuditSuspended := unknownAuditSuspended;
     OfflineSuspended := offlineSuspended; UnderReview := underReview;
     OnlineScore := 1; AuditHistoryColumn := emptyHistory;
     AuditReputationAlpha := 1; AuditReputationBeta := 0;
     UnknownAuditReputationAlpha := 1; UnknownAuditReputationBeta := 0 |}.

Definition hour : Z := 3600 * Duration.Second.

Definition exampleConfig : AuditHistoryConfig :=
  {| WindowSize := hour; TrackingPeriod := 4 * hour; GracePeriod := hour;
     OfflineThreshold := 0.5; OfflineDQEnabled := true;
     OfflineSuspensionEnabled := true |}.

Definition exampleRequest (outcome : AuditType) : UpdateRequest :=
  {| NodeID_ := 1%N; AuditOutcome := outcome;
     AuditLambda := 1; AuditWeight := 1; AuditDQ := 0.5;
     SuspensionGracePeriod := hour; SuspensionDQEnabled := true;
     AuditsRequiredForVetting := 1; AuditHistory := exampleConfig |}.

Definition emptyDB : DB := {| reputations := ∅; audit_histories := ∅ |}.

Definition window (start online total : Z) : AuditWindow :=
  {| WindowStart := start; OnlineCount := online; TotalCount := total |}.

(** Windows of a tenth of a second over three tenths: the window size
    divides the tracking period three times. *)
Definition tenthsConfig : AuditHistoryConfig :=
  {| WindowSize := 100000000; TrackingPeriod := 300000000;
     GracePeriod := hour; OfflineThreshold := 0.5; OfflineDQEnabled := true;
     OfflineSuspensionEnabled := true |}.

(** One-hour windows and no tracking period at all. *)
Definition noTrackingConfig : AuditHistoryConfig :=
  {| WindowSize := hour; TrackingPeriod := 0; GracePeriod := hour;
     OfflineThreshold := 0.5; OfflineDQEnabled := true;
     OfflineSuspensionEnabled := true |}.

(** A node that was offline in each of the last four hourly windows. *)
Definition offlineDB : DB :=
  {| reputations := ∅;
     audit_histories :=
       {[ 1%N := {| Windows := [window (6 * hour) 0 1; window (7 * hour) 0 1;
                                window (8 * hour) 0 1; window (9 * hour) 0 1];
                    Score := 1 |} ]} |}.

(** A store that holds the neutral row of node 1 and no history. *)
Definition knownDB : DB :=
  with_reputations {[ 1%N := exampleRowWith None None None None ]} emptyDB.

(** The request of the examples with offline suspension switched off. *)
Definition exampleRequestNoOffline (outcome : AuditType) : UpdateRequest :=
  {| NodeID_ := 1%N; AuditOutcome := outcome;
     AuditLambda := 1; AuditWeight := 1; AuditDQ := 0.5;
     SuspensionGracePeriod := hour; SuspensionDQEnabled := true;
     AuditsRequiredForVetting := 1;
     AuditHistory :=
       {| WindowSize := hour; TrackingPeriod := 4 * hour; GracePeriod := hour;
          OfflineThreshold := 0.5; OfflineDQEnabled := true;
          OfflineSuspensionEnabled := false |} |}.


(** A history of three windows, with 5 of 10, 10 of 10 and 1 of 4 audits
    online, and a cached score. *)
Definition mixedHistory : AuditHistoryPB :=
  {| Windows := [window (6 * hour) 5 10; window (7 * hour) 10 10;
                 window (8 * hour) 1 4];
     Score := 0.5 |}.

(** The history of node 1 in [offlineDB]. *)
Definition offlineHistory : AuditHistoryPB :=
  {| Windows := [window (6 * hour) 0 1; window (7 * hour) 0 1;
                 window (8 * hour) 0 1; window (9 * hour) 0 1];
     Score := 1 |}.

(** A storage node with, for satellite 1: a blob of format V0, a stray
    file, an old piece, a piece that is gone, and one V0 piece whose
    modification time cannot be read. *)
Definition examplePiece (id : N) (size : (Z * Z) + WalkError)
    (mtime : Time.t + WalkError) : StoredPieceAccess :=
  {| PieceID := id; Size := size; ModTime := mtime |}.

Definition exampleWalker : FileWalker :=
  {| blobs := fun _ =>
      ([ {| StorageFormatVersion := 0;
            newStoredPieceAccess := Some (examplePiece 7 (inl (9, 9)) (inl 1)) |};
         {| StorageFormatVersion := 1; newStoredPieceAccess := None |};
         {| StorageFormatVersion := 1;
            newStoredPieceAccess :=
              Some (examplePiece 1 (inl (10, 8)) (inl 5)) |};
         {| StorageFormatVersion := 1;
            newStoredPieceAccess :=
              Some (examplePiece 2 (inr ErrNotExist) (inr ErrNotExist)) |} ],
       None);
     v0PieceInfo :=
       Some (fun _ => ([examplePiece 3 (inl (4, 3)) (inr ErrIO)], None)) |}.

(** * Properties *)

(** ** The audit history *)

Section AuditHistoryFacts.

Implicit Types (ws : list AuditWindow) (w : AuditWindow).

Lemma len_app ws w : len (ws ++ [w]) = len ws + 1.
Proof. unfold len. rewrite length_app. simpl. lia. Qed.

Lemma len_nonneg {A : Type} (l : list A) : 0 <= len l.
Proof. unfold len. lia. Qed.

Lemma addAuditToLatest_snoc online ws w :
  addAuditToLatest online (ws ++ [w]) = ws ++ [addAudit online w].
Proof.
  induction ws as [|x ws IH]; [reflexivity|].
  simpl. rewrite IH. destruct ws; reflexivity.
Qed.

Lemma last_snoc_inv ws w :
  last ws = Some w -> exists front, ws = front ++ [w].
Proof.
  intros H. destruct ws as [|x ws] using rev_ind; [discriminate|].
  rewrite last_snoc in H. injection H as ->. eauto.
Qed.

Lemma removelast_snoc ws w : removelast (ws ++ [w]) = ws.
Proof. apply removelast_last. Qed.

(** The loop stops one short of the end: it sums the completed windows. *)
Lemma sumWindowScores_snoc ws w i total :
  sumWindowScores (ws ++ [w]) i (i + len ws + 1) total
  = fold_left (fun total w => total + windowScore w)%float ws total.
Proof.
  revert i total. induction ws as [|x ws IH]; intros i total.
  - simpl. replace (i + len [] + 1) with (i + 1) by (unfold len; simpl; lia).
    rewrite Z.eqb_refl. reflexivity.
  - simpl. destruct (Z.eqb_spec (i + 1) (i + len (x :: ws) + 1)) as [E|_].
    + unfold len in E. simpl length in E. lia.
    + replace (i + len (x :: ws) + 1) with ((i + 1) + len ws + 1)
        by (unfold len; simpl length; lia).
      apply IH.
Qed.

Lemma dropOldWindows_suffix earliest ws :
  exists gone, ws = gone ++ fst (dropOldWindows earliest ws)
    /\ (snd (dropOldWindows earliest ws) = false -> gone = []).
Proof.
  induction ws as [|x ws [gone [E F]]]; [exists []; auto|].
  simpl. destruct (Time.Before (WindowStart x) earliest).
  - exists (x :: gone). simpl. split; [congruence | discriminate].
  - exists []. auto.
Qed.

(** A window that stays is not older than the cut. *)
Lemma dropOldWindows_all_gone earliest ws w :
  last ws = Some w ->
  fst (dropOldWindows earliest ws) = [] ->
  WindowStart w < earliest.
Proof.
  induction ws as [|x ws IH]; [discriminate|].
  simpl. destruct (Time.Before (WindowStart x) earliest) eqn:B;
    [|discriminate].
  simpl. destruct ws as [|y ws].
  - intros [= ->] _. unfold Time.Before in B. lia.
  - intros L E. apply IH; assumption.
Qed.

Lemma dropOldWindows_last earliest ws w :
  last ws = Some w ->
  fst (dropOldWindows earliest ws) <> [] ->
  last (fst (dropOldWindows earliest ws)) = Some w.
Proof.
  induction ws as [|x ws IH]; [discriminate|].
  simpl. destruct (Time.Before (WindowStart x) earliest) eqn:B.
  - simpl. destruct ws as [|y ws]; [intros _ H; simpl in H; congruence|].
    intros L N. apply IH; assumption.
  - simpl. auto.
Qed.

(** The flag of the deleting loop is raised exactly when the first window
    is older than the cut. *)
Lemma dropOldWindows_flag earliest ws :
  snd (dropOldWindows earliest ws)
  = match ws with
    | [] => false
    | w :: _ => WindowStart w <? earliest
    end.
Proof.
  destruct ws as [|x ws]; [reflexivity|].
  simpl. unfold Time.Before. destruct (WindowStart x <? earliest); reflexivity.
Qed.

(** After the deleting loop a window is appended exactly when every window
    was older than the cut, or the last one starts before [start]. *)
Lemma needsNewWindow_after_drop earliest start ws :
  needsNewWindow (fst (dropOldWindows earliest ws)) start
  = forallb (fun w => WindowStart w <? earliest) ws
    || match last ws with
       | None => true
       | Some w => WindowStart w <? start
       end.
Proof.
  induction ws as [|x ws IH]; [reflexivity|].
  simpl dropOldWindows. simpl forallb. unfold Time.Before.
  destruct (WindowStart x <? earliest) eqn:B.
  - cbn [fst andb]. rewrite IH.
    destruct ws as [|y ws]; [reflexivity|]. reflexivity.
  - cbn [fst andb orb]. reflexivity.
Qed.

Lemma prepareWindows_flag a auditTime config :
  snd (prepareWindows a auditTime config)
  = windowsDropped a auditTime config || windowAdded a auditTime config.
Proof.
  unfold windowsDropped, windowAdded, windowCutoff.
  rewrite <- dropOldWindows_flag, <- needsNewWindow_after_drop.
  unfold prepareWindows, windowStartOf, Time.Add.
  destruct (dropOldWindows _ (Windows a)) as [ws dropped]. simpl.
  destruct (needsNewWindow ws _); simpl.
  - symmetry. apply orb_true_r.
  - symmetry. apply orb_false_r.
Qed.

Lemma prepareWindows_nonempty a auditTime config :
  exists latest, last (fst (prepareWindows a auditTime config)) = Some latest.
Proof.
  unfold prepareWindows.
  destruct (dropOldWindows _ (Windows a)) as [ws dropped].
  unfold needsNewWindow. destruct (last ws) as [w|] eqn:L.
  - destruct (Time.Before _ _); simpl.
    + rewrite last_snoc. eauto.
    + eauto.
  - simpl. rewrite last_snoc. eauto.
Qed.

End AuditHistoryFacts.

(** [recordAuditHistory] in one equation: the windows after the deleting
    loop and the append end in a window [latest]; either that window is
    after the observation's, or it takes the audit and the score is set. *)
Lemma recordAuditHistory_unfold a auditTime online config :
  exists front latest,
    fst (prepareWindows a auditTime config) = front ++ [latest]
    /\ recordAuditHistory a auditTime online config
       = if Time.After (WindowStart latest) (windowStartOf auditTime config)
         then ({| Windows := front ++ [latest]; Score := Score a |},
               Some ErrWindowPassed)
         else ({| Windows := front ++ [addAudit online latest];
                  Score :=
                    if negb (snd (prepareWindows a auditTime config))
                    then Score a
                    else if len front =? 0 then 1%float
                    else meanOnlineRatio front |}, None).
Proof.
  destruct (prepareWindows_nonempty a auditTime config) as [latest L].
  destruct (last_snoc_inv _ _ L) as [front E].
  exists front, latest. split; [exact E|].
  unfold recordAuditHistory, windowStartOf.
  destruct (prepareWindows a auditTime config) as [ws wm]. simpl in *.
  subst ws. rewrite last_snoc.
  destruct (Time.After _ _); [reflexivity|].
  rewrite addAuditToLatest_snoc.
  destruct wm; simpl; [|reflexivity].
  rewrite len_app.
  destruct (Z.leb_spec (len front + 1) 1) as [Hle|Hgt];
    destruct (Z.eqb_spec (len front) 0) as [Hz|Hnz];
    try reflexivity; try (pose proof (len_nonneg front); lia).
  f_equal. f_equal. unfold meanOnlineRatio.
  replace (len front + 1 - 1) with (len front) by lia.
  f_equal.
  pose proof (sumWindowScores_snoc front (addAudit online latest) 0 0%float)
    as S.
  simpl in S. exact S.
Qed.

(** C4.  On a call of the record-observation step that succeeds: when no
    window was added or dropped the score is the cached one; when one was
    and a single window remains the score is 1; when one was and several
    remain the score is the mean of [onlineCount / totalCount] over all the
    windows but the last.  Whether a window was dropped or added is read
    off the history as it was before the call: one is dropped when the
    first window is older than the cutoff, one is added when no window is
    left or the last one starts before the window of the observation. *)
Theorem recordAuditHistory_score a auditTime online config a' :
  recordAuditHistory a auditTime online config = (a', None) ->
  let modified :=
    windowsDropped a auditTime config || windowAdded a auditTime config in
  (modified = false -> Score a' = Score a)
  /\ (modified = true -> len (Windows a') = 1 -> Score a' = 1%float)
  /\ (modified = true -> 1 < len (Windows a') ->
      Score a' = meanOnlineRatio (completedWindows (Windows a'))).
Proof.
  intros H modified.
  destruct (recordAuditHistory_unfold a auditTime online config)
    as (front & latest & E & R).
  rewrite H in R. unfold modified. rewrite <- prepareWindows_flag.
  destruct (Time.After _ _); [discriminate|].
  injection R as ->. simpl. unfold completedWindows.
  rewrite removelast_snoc, len_app.
  destruct (snd (prepareWindows a auditTime config)); simpl.
  - split; [discriminate|]. split; intros _ Hl.
    + assert (Hz : len front = 0) by lia.
      apply Z.eqb_eq in Hz. rewrite Hz. reflexivity.
    + destruct (Z.eqb_spec (len front) 0); [lia | reflexivity].
  - split; [reflexivity|]. split; discriminate.
Qed.

(** The example of the specification: with windows of 5/10 and 10/10
    audits online and a third one in progress, the score is 0.75, whatever
    the third holds. *)
Example score_excludes_last_window :
  forall online total,
    meanOnlineRatio
      (completedWindows [window 0 5 10; window hour 10 10;
                         window (2 * hour) online total])
    = 0.75%float.
Proof. intros online total. reflexivity. Qed.

(** An observation in the twelfth hour on a history of three windows:
    the window of the seventh hour is dropped, one is added, and the score
    is the mean of 10/10 and 1/4, whatever the cached score and the new
    window hold. *)
Lemma recordAuditHistory_score_witness :
  let a' := fst (recordAuditHistory mixedHistory (11 * hour + 5) true
                   exampleConfig) in
  recordAuditHistory mixedHistory (11 * hour + 5) true exampleConfig
  = (a', None)
  /\ Windows a' = [window (7 * hour) 10 10; window (8 * hour) 1 4;
                   window (11 * hour) 1 1]
  /\ Score a' = 0.625%float.
Proof.
  intros a'.
  assert (H : recordAuditHistory mixedHistory (11 * hour + 5) true
                exampleConfig = (a', None)) by reflexivity.
  split; [exact H|]. split; [reflexivity|].
  rewrite (proj2 (proj2 (recordAuditHistory_score _ _ _ _ _ H))
             eq_refl eq_refl).
  reflexivity.
Defined.

(** ** The audit-history step inside the transaction *)

(** The step reads and writes the table [audit_histories] only. *)
Lemma updateAuditHistoryWithTx_unfold tx nodeID auditTime online config :
  updateAuditHistoryWithTx tx nodeID auditTime online config
  = match recordAuditHistory (historyBefore tx nodeID) auditTime online config
    with
    | (_, Some e) =>
        (tx, {| NewScore := 1; TrackingPeriodFull := false |}, Some e)
    | (history, None) =>
        (with_audit_histories (<[nodeID := history]> (audit_histories tx)) tx,
         match audit_histories tx !! nodeID with
         | None => {| NewScore := 1; TrackingPeriodFull := false |}
         | Some _ =>
             {| NewScore := Score history;
                TrackingPeriodFull :=
                  windowsPerTrackingPeriod config
                  <=? len (Windows history) - 1 |}
         end, None)
    end.
Proof.
  unfold updateAuditHistoryWithTx, historyBefore.
  destruct (audit_histories tx !! nodeID) as [h|];
    destruct (recordAuditHistory _ auditTime online config) as [h' [e|]];
    reflexivity.
Qed.

Lemma updateAuditHistoryWithTx_reputations m tx nodeID auditTime online config :
  updateAuditHistoryWithTx (with_reputations m tx) nodeID auditTime online
    config
  = let '(tx', res, e) :=
      updateAuditHistoryWithTx tx nodeID auditTime online config in
    (with_reputations m tx', res, e).
Proof.
  rewrite !updateAuditHistoryWithTx_unfold.
  unfold historyBefore. simpl.
  destruct (recordAuditHistory _ auditTime online config) as [h' [e|]];
    reflexivity.
Qed.

(** ** The three ways [Update] ends *)

Section UpdateFacts.

Variable insertedRow : NodeID -> Reputation.

(** The node is disqualified: nothing but the row itself is written back,
    and [oldStatus] is still the zero value when it is compared. *)
Lemma Update_disqualified db updateReq now wall :
  let nodeID := NodeID_ updateReq in
  let dbNode := rowBefore insertedRow db nodeID in
  Disqualified dbNode <> None ->
  Update insertedRow db updateReq now wall
  = (with_reputations (<[nodeID := dbNode]> (reputations db)) db,
     {| status := Some (getNodeStatus dbNode);
        changed := negb (ReputationStatus_Equal zeroStatus (statusOf dbNode));
        err := None; monitored := [] |}).
Proof.
  intros nodeID dbNode D.
  unfold Update, WithTx, updateTx, dbNode, rowBefore in *. fold nodeID in D |- *.
  destruct (reputations db !! nodeID) as [r|] eqn:G.
  - destruct (Disqualified r); [|congruence]. simpl.
    rewrite (insert_id _ _ _ G). destruct db; reflexivity.
  - destruct (Disqualified (insertedRow nodeID)); [|congruence]. reflexivity.
Qed.

(** The observation is refused: the transaction is rolled back. *)
Lemma Update_refused db updateReq now wall e :
  let nodeID := NodeID_ updateReq in
  Disqualified (rowBefore insertedRow db nodeID) = None ->
  snd (recordAuditHistory (historyBefore db nodeID) now (isUpOf updateReq)
         (AuditHistory updateReq)) = Some e ->
  Update insertedRow db updateReq now wall
  = (db, {| status := None; changed := false; err := Some e;
            monitored := [] |}).
Proof.
  intros nodeID D R.
  unfold Update, WithTx, updateTx, rowBefore, isUpOf in *.
  fold nodeID in D, R |- *.
  destruct (reputations db !! nodeID) as [r|] eqn:G.
  - rewrite D. cbn [negb isNil].
    rewrite updateAuditHistoryWithTx_unfold.
    destruct (recordAuditHistory _ _ _ _) as [h' o]. simpl in R. subst o.
    reflexivity.
  - rewrite D. cbn [negb isNil].
    rewrite updateAuditHistoryWithTx_reputations.
    rewrite updateAuditHistoryWithTx_unfold.
    destruct (recordAuditHistory _ _ _ _) as [h' o]. simpl in R. subst o.
    reflexivity.
Qed.

(** The observation is recorded: both rows are written. *)
Lemma Update_processed db updateReq now wall history :
  let nodeID := NodeID_ updateReq in
  let dbNode := rowBefore insertedRow db nodeID in
  Disqualified dbNode = None ->
  recordAuditHistory (historyBefore db nodeID) now (isUpOf updateReq)
    (AuditHistory updateReq) = (history, None) ->
  let response :=
    snd (fst (updateAuditHistoryWithTx db nodeID now (isUpOf updateReq)
                (AuditHistory updateReq))) in
  let row := updatedRow dbNode updateReq response now wall in
  Update insertedRow db updateReq now wall
  = ({| reputations := <[nodeID := row]> (reputations db);
        audit_histories := <[nodeID := history]> (audit_histories db) |},
     {| status := Some (getNodeStatus row);
        changed := negb (ReputationStatus_Equal (statusOf dbNode)
                           (statusOf row));
        err := None;
        monitored :=
          snd (populateUpdateFields dbNode updateReq response now wall) |}).
Proof.
  intros nodeID dbNode D R response row.
  assert (Hresp : forall m,
    updateAuditHistoryWithTx (with_reputations m db) nodeID now
      (isUpOf updateReq) (AuditHistory updateReq)
    = (with_reputations m
         (with_audit_histories (<[nodeID := history]> (audit_histories db)) db),
       response, None)).
  { intros m. unfold response.
    rewrite updateAuditHistoryWithTx_reputations.
    rewrite updateAuditHistoryWithTx_unfold, R. reflexivity. }
  assert (Hdb : with_reputations (reputations db) db = db)
    by (destruct db; reflexivity).
  clearbody response.
  unfold Update, WithTx, updateTx, row, updatedRow, dbNode, rowBefore in *.
  fold nodeID in D |- *. fold (isUpOf updateReq).
  destruct (reputations db !! nodeID) as [r|] eqn:G.
  - rewrite D. cbn [negb isNil].
    rewrite <- Hdb at 1. rewrite Hresp.
    destruct (populateUpdateFields r updateReq response now wall) as [f mon].
    reflexivity.
  - rewrite D. cbn [negb isNil]. rewrite Hresp.
    destruct (populateUpdateFields _ updateReq response now wall) as [f mon].
    simpl. rewrite insert_insert_eq. reflexivity.
Qed.

End UpdateFacts.

(** ** Refused observations *)

Lemma neg64_small d : 0 <= d <= maxInt64 -> neg64 d = - d.
Proof.
  unfold neg64, wrap, maxInt64. intros H.
  rewrite Z.mod_small; lia.
Qed.

Lemma last_app_nonempty {A : Type} (l1 l2 : list A) x :
  last l2 = Some x -> last (l1 ++ l2) = Some x.
Proof.
  intros H.
  destruct l2 as [|y l2] using rev_ind; [discriminate|].
  rewrite last_snoc in H. injection H as ->.
  rewrite app_assoc. apply last_snoc.
Qed.

Lemma dropOldWindows_last_inv earliest (ws : list AuditWindow) w :
  last (fst (dropOldWindows earliest ws)) = Some w -> last ws = Some w.
Proof.
  intros H. destruct (dropOldWindows_suffix earliest ws) as (gone & E & _).
  rewrite E. apply last_app_nonempty. exact H.
Qed.

(** The record step never indexes an empty slice. *)
Lemma recordAuditHistory_error a auditTime online config e :
  snd (recordAuditHistory a auditTime online config) = Some e ->
  e = ErrWindowPassed.
Proof.
  destruct (recordAuditHistory_unfold a auditTime online config)
    as (front & latest & _ & R).
  rewrite R. destruct (Time.After _ _); simpl; congruence.
Qed.

(** With a tracking period that is not negative, the step is refused
    exactly when the last window of the history as it was loaded starts
    after the window of the observation. *)
Lemma recordAuditHistory_refused_iff a auditTime online config :
  0 <= TrackingPeriod config <= maxInt64 ->
  snd (recordAuditHistory a auditTime online config) = Some ErrWindowPassed
  <-> exists w, last (Windows a) = Some w
                /\ windowStartOf auditTime config < WindowStart w.
Proof.
  intros Htp.
  destruct (recordAuditHistory_unfold a auditTime online config)
    as (front & latest & E & R).
  rewrite R. clear R.
  assert (HA : forall x, Time.After x (windowStartOf auditTime config) = true
                         <-> windowStartOf auditTime config < x).
  { intros x. unfold Time.After. apply Z.ltb_lt. }
  unfold prepareWindows in E. fold (windowStartOf auditTime config) in E.
  rewrite (neg64_small _ Htp) in E.
  set (start := windowStartOf auditTime config) in *.
  set (earliest := Time.Add start (- TrackingPeriod config)) in *.
  destruct (dropOldWindows earliest (Windows a)) as [kept dropped] eqn:Dr.
  assert (Hkept : kept = fst (dropOldWindows earliest (Windows a)))
    by (rewrite Dr; reflexivity).
  unfold needsNewWindow in E.
  destruct (last kept) as [w|] eqn:L.
  - pose proof L as L0. rewrite Hkept in L0.
    apply dropOldWindows_last_inv in L0.
    destruct (Time.Before (WindowStart w) start) eqn:B; simpl in E.
    + apply app_inj_tail in E as [_ <-]. simpl.
      destruct (Time.After start start) eqn:A.
      * apply HA in A. lia.
      * simpl. split; [discriminate|].
        intros (w' & L' & Hlt). rewrite L0 in L'. injection L' as <-.
        unfold Time.Before in B. apply Z.ltb_lt in B. lia.
    + rewrite E in L. rewrite last_snoc in L. injection L as ->.
      destruct (Time.After (WindowStart w) start) eqn:A; simpl.
      * split; [|reflexivity]. intros _. exists w. split; [exact L0|].
        apply HA. exact A.
      * split; [discriminate|].
        intros (w' & L' & Hlt). rewrite L0 in L'. injection L' as <-.
        apply HA in Hlt. congruence.
  - simpl in E. apply app_inj_tail in E as [_ <-]. simpl.
    destruct (Time.After start start) eqn:A.
    + apply HA in A. lia.
    + simpl. split; [discriminate|].
      intros (w' & L' & Hlt).
      assert (Hnil : fst (dropOldWindows earliest (Windows a)) = []).
      { rewrite <- Hkept. destruct kept using rev_ind; [reflexivity|].
        rewrite last_snoc in L. discriminate. }
      pose proof (dropOldWindows_all_gone earliest _ _ L' Hnil) as Hold.
      unfold earliest, Time.Add in Hold. lia.
Qed.

(** C5.  With a tracking period that is not negative, recording an
    observation fails, with the error "window already passed", exactly when
    the last window of the node's history starts strictly after the window
    of the observation; and an [Update] that returns an error returns that
    error and leaves both tables as they were. *)
Theorem stale_observation_aborts insertedRow db updateReq now wall :
  0 <= TrackingPeriod (AuditHistory updateReq) <= maxInt64 ->
  (forall a online,
      snd (recordAuditHistory a now online (AuditHistory updateReq))
      = Some ErrWindowPassed
      <-> exists w, last (Windows a) = Some w
                    /\ Time.After (WindowStart w)
                         (windowStartOf now (AuditHistory updateReq)) = true)
  /\ (err (snd (Update insertedRow db updateReq now wall))
      = Some ErrWindowPassed
      <-> Disqualified (rowBefore insertedRow db (NodeID_ updateReq)) = None
          /\ exists w,
               last (Windows (historyBefore db (NodeID_ updateReq))) = Some w
               /\ Time.After (WindowStart w)
                    (windowStartOf now (AuditHistory updateReq)) = true)
  /\ (forall e,
        err (snd (Update insertedRow db updateReq now wall)) = Some e ->
        e = ErrWindowPassed
        /\ fst (Update insertedRow db updateReq now wall) = db).
Proof.
  intros Htp.
  assert (Hrec : forall a online,
      snd (recordAuditHistory a now online (AuditHistory updateReq))
      = Some ErrWindowPassed
      <-> exists w, last (Windows a) = Some w
                    /\ Time.After (WindowStart w)
                         (windowStartOf now (AuditHistory updateReq)) = true).
  { intros a online. rewrite (recordAuditHistory_refused_iff _ _ _ _ Htp).
    unfold Time.After. split; intros (w & L & H); exists w; split; auto;
      apply Z.ltb_lt; exact H. }
  split; [exact Hrec|].
  set (nodeID := NodeID_ updateReq).
  destruct (Disqualified (rowBefore insertedRow db nodeID)) as [t|] eqn:D.
  - assert (D' : Disqualified (rowBefore insertedRow db nodeID) <> None)
      by congruence.
    rewrite (Update_disqualified insertedRow db updateReq now wall D').
    simpl. split.
    + split; [discriminate | intros [? _]; discriminate].
    + discriminate.
  - destruct (recordAuditHistory (historyBefore db nodeID) now
                (isUpOf updateReq) (AuditHistory updateReq))
      as [history [e|]] eqn:R.
    + assert (R' : snd (recordAuditHistory (historyBefore db nodeID) now
                          (isUpOf updateReq) (AuditHistory updateReq))
                   = Some e) by (rewrite R; reflexivity).
      pose proof (recordAuditHistory_error _ _ _ _ _ R') as ->.
      rewrite (Update_refused insertedRow db updateReq now wall _ D R').
      simpl. split.
      * split; [|reflexivity]. intros _. split; [reflexivity|].
        apply (proj1 (Hrec _ _) R').
      * intros e [= <-]. auto.
    + rewrite (Update_processed insertedRow db updateReq now wall _ D R).
      simpl. split.
      * split; [discriminate|]. intros [_ H].
        apply (proj2 (Hrec _ (isUpOf updateReq))) in H.
        rewrite R in H. discriminate.
      * discriminate.
Qed.

(** A history whose last window is later than the observation. *)
Lemma stale_observation_aborts_witness :
  let a := {| Windows := [window (2 * hour) 1 1]; Score := 1 |} in
  0 <= TrackingPeriod exampleConfig <= maxInt64
  /\ snd (recordAuditHistory a (hour + 5) true exampleConfig)
     = Some ErrWindowPassed.
Proof.
  intros a.
  assert (Htp : 0 <= TrackingPeriod (AuditHistory (exampleRequest AuditSuccess))
                <= maxInt64) by (vm_compute; split; discriminate).
  split; [exact Htp|].
  apply (proj1 (stale_observation_aborts exampleRow emptyDB
                  (exampleRequest AuditSuccess) (hour + 5) (hour + 5) Htp)).
  exists (window (2 * hour) 1 1).
  split; reflexivity.
Defined.

(** ** Disqualified nodes *)

Lemma zeroStatus_differs dbNode :
  Disqualified dbNode <> None ->
  ReputationStatus_Equal zeroStatus (statusOf dbNode) = false.
Proof.
  intros D. unfold ReputationStatus_Equal. simpl.
  rewrite (bool_decide_eq_false_2 (None = Disqualified dbNode))
    by congruence.
  rewrite andb_false_r. reflexivity.
Qed.

(** C1.  An [Update] for a node whose row has [disqualified] set writes
    nothing: both tables are as they were, whatever the outcome and the
    time.  The flag [changed] it returns is [true]: the callback returns
    before [oldStatus] is assigned, so the status of the row is compared
    with the zero status. *)
Theorem Update_disqualified_frozen insertedRow db updateReq now wall dbNode :
  reputations db !! NodeID_ updateReq = Some dbNode ->
  Disqualified dbNode <> None ->
  Update insertedRow db updateReq now wall
  = (db, {| status := Some (getNodeStatus dbNode); changed := true;
            err := None; monitored := [] |}).
Proof.
  intros G D.
  pose proof (Update_disqualified insertedRow db updateReq now wall) as U.
  unfold rowBefore in U. rewrite G in U. cbv zeta in U.
  rewrite (U D), (zeroStatus_differs _ D), (insert_id _ _ _ G).
  destruct db; reflexivity.
Qed.

(** A row disqualified at time 5, and an audit that succeeds later. *)
Lemma Update_disqualified_frozen_witness :
  let dbNode := exampleRowWith (Some 5) None None None in
  let db := with_reputations {[ 1%N := dbNode ]} emptyDB in
  fst (Update exampleRow db (exampleRequest AuditSuccess) hour hour) = db
  /\ changed (snd (Update exampleRow db (exampleRequest AuditSuccess)
                     hour hour)) = true.
Proof.
  intros dbNode db.
  assert (G : reputations db !! NodeID_ (exampleRequest AuditSuccess)
              = Some dbNode) by reflexivity.
  assert (D : Disqualified dbNode <> None) by discriminate.
  rewrite (Update_disqualified_frozen exampleRow db
             (exampleRequest AuditSuccess) hour hour dbNode G D).
  split; reflexivity.
Defined.

(** ** The tracking period *)

(** C9, as the code has it.  After a record-observation step that succeeds,
    the flag [TrackingPeriodFull] of the response is [false] when the step
    created the node's history record; when the record was there, and the
    [float64] quotient the code truncates is the whole quotient of the two
    durations, the flag is [true] exactly when the number of windows minus
    one is at least [TrackingPeriod / WindowSize] rounded down. *)
Theorem trackingPeriodFull_spec tx nodeID auditTime online config tx' res :
  updateAuditHistoryWithTx tx nodeID auditTime online config
  = (tx', res, None) ->
  exists history,
    audit_histories tx' !! nodeID = Some history
    /\ history = fst (recordAuditHistory (historyBefore tx nodeID) auditTime
                        online config)
    /\ (audit_histories tx !! nodeID = None ->
        TrackingPeriodFull res = false)
    /\ (audit_histories tx !! nodeID <> None ->
        windowsPerTrackingPeriod config
        = TrackingPeriod config / WindowSize config ->
        (TrackingPeriodFull res = true
         <-> TrackingPeriod config / WindowSize config
             <= len (Windows history) - 1)).
Proof.
  rewrite updateAuditHistoryWithTx_unfold.
  destruct (recordAuditHistory _ auditTime online config) as [h [e|]];
    [discriminate|].
  intros [= <- <-]. exists h. simpl.
  split; [apply lookup_insert_eq|]. split; [reflexivity|].
  destruct (audit_histories tx !! nodeID); simpl.
  - split; [discriminate|]. intros _ <-. apply Z.leb_le.
  - split; [reflexivity | congruence].
Qed.

(** A node seen in the last four hours, seen again in the fifth: five
    windows fill a tracking period of four one-hour windows. *)
Lemma trackingPeriodFull_spec_witness :
  windowsPerTrackingPeriod exampleConfig
  = TrackingPeriod exampleConfig / WindowSize exampleConfig
  /\ TrackingPeriodFull
       (snd (fst (updateAuditHistoryWithTx offlineDB 1%N (10 * hour) true
                    exampleConfig))) = true.
Proof.
  assert (Hq : windowsPerTrackingPeriod exampleConfig
               = TrackingPeriod exampleConfig / WindowSize exampleConfig)
    by reflexivity.
  split; [exact Hq|].
  destruct (trackingPeriodFull_spec offlineDB 1%N (10 * hour) true
              exampleConfig _ _ eq_refl) as (history & _ & E & _ & Hfull).
  apply Hfull; [discriminate | exact Hq |].
  rewrite E. vm_compute. discriminate.
Defined.

(** C9, as stated, fails on the branch that creates the record: with no
    tracking period, the first audit of a node leaves one window, and zero
    completed windows are at least [floor (0 / 1h)], yet the flag is the
    initial [false]. *)
Lemma trackingPeriodFull_false_on_create :
  exists tx' res history,
    updateAuditHistoryWithTx emptyDB 1%N hour true noTrackingConfig
    = (tx', res, None)
    /\ audit_histories tx' !! 1%N = Some history
    /\ TrackingPeriod noTrackingConfig / WindowSize noTrackingConfig
       <= len (Windows history) - 1
    /\ TrackingPeriodFull res = false.
Proof.
  eexists _, _, _. split; [reflexivity|].
  split; [reflexivity|].
  split; [vm_compute; discriminate | reflexivity].
Qed.

(** The quotient is taken in [float64]: 0.3 / 0.1 is 2.9999999999999996 and
    truncates to 2, although 100ms divides 300ms three times. *)
Example windowsPerTrackingPeriod_tenths :
  windowsPerTrackingPeriod tenthsConfig = 2
  /\ TrackingPeriod tenthsConfig / WindowSize tenthsConfig = 3.
Proof. split; reflexivity. Qed.

(** ** The fields of a processed update *)

(** Each block writes a few fields of [updateFields] and leaves the others:
    a projection that does not see the fields a block writes has the same
    value after it. *)
Section Frames.

Context {A : Type} (f : updateNodeStats -> A).

Ltac frame_cases := simpl; repeat case_match; simpl; congruence.

Lemma vettingStep_frame dbNode updateReq n now st :
  (forall v u, f (with_VettedAt v u) = f u) ->
  f (fst (vettingStep dbNode updateReq n now st)) = f (fst st).
Proof. intros H. unfold vettingStep. frame_cases. Qed.

Lemma auditDQStep_frame updateReq rep now st :
  (forall v u, f (with_Disqualified v u) = f u) ->
  f (fst (auditDQStep updateReq rep now st)) = f (fst st).
Proof. intros H. unfold auditDQStep. frame_cases. Qed.

Lemma unknownAuditStep_frame dbNode updateReq rep now wall st :
  (forall v u, f (with_Disqualified v u) = f u) ->
  (forall v u, f (with_UnknownAuditSuspended v u) = f u) ->
  f (fst (unknownAuditStep dbNode updateReq rep now wall st)) = f (fst st).
Proof. intros H1 H2. unfold unknownAuditStep. frame_cases. Qed.

Lemma contactStep_frame updateReq now st :
  (forall v u, f (with_LastContactSuccess v u) = f u) ->
  (forall v u, f (with_LastContactFailure v u) = f u) ->
  f (fst (contactStep updateReq now st)) = f (fst st).
Proof. intros H1 H2. unfold contactStep. frame_cases. Qed.

Lemma successCountStep_frame dbNode updateReq st :
  (forall v u, f (with_AuditSuccessCount v u) = f u) ->
  f (fst (successCountStep dbNode updateReq st)) = f (fst st).
Proof. intros H. unfold successCountStep. frame_cases. Qed.

Lemma offlineDisabledStep_frame dbNode st :
  (forall v u, f (with_OfflineSuspended v u) = f u) ->
  (forall v u, f (with_OfflineUnderReview v u) = f u) ->
  f (fst (offlineDisabledStep dbNode st)) = f (fst st).
Proof. intros H1 H2. unfold offlineDisabledStep. frame_cases. Qed.

Lemma offlineStep_frame dbNode updateReq response now st :
  (forall v u, f (with_Disqualified v u) = f u) ->
  (forall v u, f (with_OfflineSuspended v u) = f u) ->
  (forall v u, f (with_OfflineUnderReview v u) = f u) ->
  f (fst (offlineStep dbNode updateReq response now st)) = f (fst st).
Proof. intros H1 H2 H3. unfold offlineStep. frame_cases. Qed.

End Frames.

(** Carry a projection back over the blocks that do not write it. *)
Ltac frame f :=
  rewrite ?(offlineStep_frame f), ?(offlineDisabledStep_frame f),
    ?(successCountStep_frame f), ?(contactStep_frame f),
    ?(unknownAuditStep_frame f), ?(auditDQStep_frame f),
    ?(vettingStep_frame f) by (intros; reflexivity).

(** The blocks of [populateUpdateNodeStats] in the order they run. *)
Lemma populateUpdateNodeStats_blocks dbNode updateReq response now wall :
  exists a b ua ub n,
    applyOutcome dbNode updateReq = (a, b, ua, ub, n)
    /\ populateUpdateNodeStats dbNode updateReq response now wall
       = let st :=
           successCountStep dbNode updateReq
             (contactStep updateReq now
                (unknownAuditStep dbNode updateReq (ua / (ua + ub))%float
                   now wall
                   (auditDQStep updateReq (a / (a + b))%float now
                      (vettingStep dbNode updateReq n now
                         (initialStats updateReq response a b ua ub n))))) in
         if negb (OfflineSuspensionEnabled (AuditHistory updateReq))
         then offlineDisabledStep dbNode st
         else offlineStep dbNode updateReq response now st.
Proof.
  unfold populateUpdateNodeStats.
  destruct (applyOutcome dbNode updateReq) as [[[[a b] ua] ub] n].
  exists a, b, ua, ub, n. split; reflexivity.
Qed.

(** The belief parameters and the count of the row are those of the
    [switch]. *)
Lemma updatedRow_belief dbNode updateReq response now wall :
  let row := updatedRow dbNode updateReq response now wall in
  applyOutcome dbNode updateReq
  = (AuditReputationAlpha row, AuditReputationBeta row,
     UnknownAuditReputationAlpha row, UnknownAuditReputationBeta row,
     TotalAuditCount row).
Proof.
  destruct (populateUpdateNodeStats_blocks dbNode updateReq response now wall)
    as (a & b & ua & ub & n & E & P).
  intros row. rewrite E. unfold row, updatedRow, populateUpdateFields.
  cbn [fst applyUpdateFields fTotalAuditCount fAuditReputationAlpha
         fAuditReputationBeta fUnknownAuditReputationAlpha
         fUnknownAuditReputationBeta AuditReputationAlpha AuditReputationBeta
         UnknownAuditReputationAlpha UnknownAuditReputationBeta
         TotalAuditCount].
  rewrite P. cbv zeta.
  destruct (negb (OfflineSuspensionEnabled (AuditHistory updateReq)));
    frame uAuditReputationAlpha; frame uAuditReputationBeta;
    frame uUnknownAuditReputationAlpha; frame uUnknownAuditReputationBeta;
    frame uTotalAuditCount; reflexivity.
Qed.

Lemma applyOutcome_count dbNode updateReq :
  snd (applyOutcome dbNode updateReq) = add64 (TotalAuditCount dbNode) 1.
Proof.
  unfold applyOutcome, updateReputation.
  destruct (AuditOutcome updateReq); reflexivity.
Qed.

Lemma add64_succ n : minInt64 <= n < maxInt64 -> add64 n 1 = n + 1.
Proof.
  unfold add64, wrap, minInt64, maxInt64. intros H.
  rewrite Z.mod_small; lia.
Qed.

(** A processed update: the node is not disqualified and no error comes
    back.  Then the observation was recorded and the row written is
    [updatedRow] of the row before, for the response of the audit-history
    step. *)
Lemma Update_ok_inv insertedRow db updateReq now wall :
  let nodeID := NodeID_ updateReq in
  let dbNode := rowBefore insertedRow db nodeID in
  Disqualified dbNode = None ->
  err (snd (Update insertedRow db updateReq now wall)) = None ->
  exists history response,
    recordAuditHistory (historyBefore db nodeID) now (isUpOf updateReq)
      (AuditHistory updateReq) = (history, None)
    /\ response
       = snd (fst (updateAuditHistoryWithTx db nodeID now (isUpOf updateReq)
                     (AuditHistory updateReq)))
    /\ Update insertedRow db updateReq now wall
       = ({| reputations :=
               <[nodeID := updatedRow dbNode updateReq response now wall]>
                 (reputations db);
             audit_histories := <[nodeID := history]> (audit_histories db) |},
          {| status :=
               Some (getNodeStatus
                       (updatedRow dbNode updateReq response now wall));
             changed :=
               negb (ReputationStatus_Equal (statusOf dbNode)
                       (statusOf
                          (updatedRow dbNode updateReq response now wall)));
             err := None;
             monitored :=
               snd (populateUpdateFields dbNode updateReq response now
                      wall) |}).
Proof.
  intros nodeID dbNode D Hok.
  destruct (recordAuditHistory (historyBefore db nodeID) now
              (isUpOf updateReq) (AuditHistory updateReq))
    as [history [e|]] eqn:R.
  - assert (R' : snd (recordAuditHistory (historyBefore db nodeID) now
                        (isUpOf updateReq) (AuditHistory updateReq))
                 = Some e) by (rewrite R; reflexivity).
    rewrite (Update_refused insertedRow db updateReq now wall _ D R') in Hok.
    discriminate.
  - exists history. eexists. split; [reflexivity|]. split; [reflexivity|].
    apply (Update_processed insertedRow db updateReq now wall _ D R).
Qed.

(** C3.  A processed update advances the belief parameters by the outcome:
    a success applies the belief update with [isSuccess = true] to both
    pairs, a failure applies it with [false] to the normal pair only, an
    unknown outcome applies it with [false] to the unknown pair only, an
    offline outcome changes none of the four; and in every case the total
    audit count, when it is below the largest [int64], goes up by one. *)
Theorem belief_update_by_outcome insertedRow db updateReq now wall :
  let nodeID := NodeID_ updateReq in
  let dbNode := rowBefore insertedRow db nodeID in
  let lambda := AuditLambda updateReq in
  let w := AuditWeight updateReq in
  let n := TotalAuditCount dbNode in
  Disqualified dbNode = None ->
  err (snd (Update insertedRow db updateReq now wall)) = None ->
  minInt64 <= n < maxInt64 ->
  exists row,
    reputations (fst (Update insertedRow db updateReq now wall)) !! nodeID
    = Some row
    /\ TotalAuditCount row = n + 1
    /\ match AuditOutcome updateReq with
       | AuditSuccess =>
           (AuditReputationAlpha row, AuditReputationBeta row,
            TotalAuditCount row)
           = updateReputation true (AuditReputationAlpha dbNode)
               (AuditReputationBeta dbNode) lambda w n
           /\ (UnknownAuditReputationAlpha row,
               UnknownAuditReputationBeta row, TotalAuditCount row)
              = updateReputation true (UnknownAuditReputationAlpha dbNode)
                  (UnknownAuditReputationBeta dbNode) lambda w n
       | AuditFailure =>
           (AuditReputationAlpha row, AuditReputationBeta row,
            TotalAuditCount row)
           = updateReputation false (AuditReputationAlpha dbNode)
               (AuditReputationBeta dbNode) lambda w n
           /\ UnknownAuditReputationAlpha row
              = UnknownAuditReputationAlpha dbNode
           /\ UnknownAuditReputationBeta row
              = UnknownAuditReputationBeta dbNode
       | AuditUnknown =>
           AuditReputationAlpha row = AuditReputationAlpha dbNode
           /\ AuditReputationBeta row = AuditReputationBeta dbNode
           /\ (UnknownAuditReputationAlpha row,
               UnknownAuditReputationBeta row, TotalAuditCount row)
              = updateReputation false (UnknownAuditReputationAlpha dbNode)
                  (UnknownAuditReputationBeta dbNode) lambda w n
       | AuditOffline =>
           AuditReputationAlpha row = AuditReputationAlpha dbNode
           /\ AuditReputationBeta row = AuditReputationBeta dbNode
           /\ UnknownAuditReputationAlpha row
              = UnknownAuditReputationAlpha dbNode
           /\ UnknownAuditReputationBeta row
              = UnknownAuditReputationBeta dbNode
       end.
Proof.
  intros nodeID dbNode lambda w n D Hok Hn.
  destruct (Update_ok_inv insertedRow db updateReq now wall D Hok)
    as (history & response & _ & _ & U).
  rewrite U. cbn [fst reputations]. clear U.
  pose proof (updatedRow_belief dbNode updateReq response now wall) as B.
  cbv zeta in B.
  set (row := updatedRow dbNode updateReq response now wall) in *.
  exists row. split; [apply lookup_insert_eq|]. clearbody row.
  pose proof (applyOutcome_count dbNode updateReq) as C.
  rewrite B in C. cbn [snd] in C.
  split; [rewrite C; apply add64_succ, Hn|].
  subst lambda w n.
  unfold applyOutcome, updateReputation in B. unfold updateReputation.
  destruct (AuditOutcome updateReq); injection B as B1 B2 B3 B4 B5;
    repeat split; congruence.
Qed.

(** A first successful audit of a node that has no row yet. *)
Lemma belief_update_by_outcome_witness :
  exists row,
    reputations
      (fst (Update exampleRow emptyDB (exampleRequest AuditSuccess)
              hour hour)) !! 1%N = Some row
    /\ TotalAuditCount row = 1
    /\ AuditReputationAlpha row = 2%float.
Proof.
  destruct (belief_update_by_outcome exampleRow emptyDB
              (exampleRequest AuditSuccess) hour hour eq_refl eq_refl)
    as (row & G & C & B & _).
  - vm_compute. split; [discriminate | reflexivity].
  - exists row. split; [exact G|]. split; [exact C|].
    cbn in B. injection B as -> _ _. reflexivity.
Defined.

(** ** Vetting *)

Lemma updatedRow_VettedAt dbNode updateReq response now wall :
  let row := updatedRow dbNode updateReq response now wall in
  VettedAt row
  = match VettedAt dbNode with
    | Some t => Some t
    | None =>
        if AuditsRequiredForVetting updateReq <=? TotalAuditCount row
        then Some now else None
    end.
Proof.
  intros row.
  pose proof (updatedRow_belief dbNode updateReq response now wall) as B.
  cbv zeta in B. fold row in B.
  destruct (populateUpdateNodeStats_blocks dbNode updateReq response now wall)
    as (a & b & ua & ub & n & E & P).
  rewrite E in B. apply (f_equal snd) in B. cbn [snd] in B. rewrite <- B.
  clear B. unfold row, updatedRow, populateUpdateFields.
  cbn [fst applyUpdateFields fVettedAt VettedAt].
  rewrite P. cbv zeta.
  destruct (negb (OfflineSuspensionEnabled (AuditHistory updateReq)));
    frame uVettedAt; unfold vettingStep;
    destruct (VettedAt dbNode); cbn [isNil andb];
    try destruct (AuditsRequiredForVetting updateReq <=? n); reflexivity.
Qed.

Section Vetting.

Variable insertedRow : NodeID -> Reputation.

(** No [Update], for this node or for another, touches a [vettedAt] that
    is set. *)
Lemma Update_keeps_VettedAt db updateReq now wall nodeID r t :
  reputations db !! nodeID = Some r ->
  VettedAt r = Some t ->
  exists r',
    reputations (fst (Update insertedRow db updateReq now wall)) !! nodeID
    = Some r' /\ VettedAt r' = Some t.
Proof.
  intros G V.
  set (dbNode := rowBefore insertedRow db (NodeID_ updateReq)).
  assert (Hsame : nodeID = NodeID_ updateReq -> dbNode = r).
  { intros E. unfold dbNode, rowBefore. rewrite <- E, G. reflexivity. }
  destruct (Disqualified dbNode) as [d|] eqn:D.
  - assert (D' : Disqualified dbNode <> None) by congruence.
    rewrite (Update_disqualified insertedRow db updateReq now wall D').
    cbn [fst with_reputations reputations]. fold dbNode.
    destruct (decide (nodeID = NodeID_ updateReq)) as [Heq|Hne].
    + rewrite (Hsame Heq). subst nodeID. rewrite lookup_insert_eq. eauto.
    + rewrite lookup_insert_ne by congruence. eauto.
  - destruct (err (snd (Update insertedRow db updateReq now wall)))
      as [e|] eqn:Hok.
    + destruct (recordAuditHistory (historyBefore db (NodeID_ updateReq)) now
                  (isUpOf updateReq) (AuditHistory updateReq))
        as [history [e'|]] eqn:R.
      * assert (R' : snd (recordAuditHistory
                            (historyBefore db (NodeID_ updateReq)) now
                            (isUpOf updateReq) (AuditHistory updateReq))
                     = Some e') by (rewrite R; reflexivity).
        rewrite (Update_refused insertedRow db updateReq now wall _ D R').
        cbn [fst]. eauto.
      * rewrite (Update_processed insertedRow db updateReq now wall _ D R)
          in Hok. discriminate.
    + destruct (Update_ok_inv insertedRow db updateReq now wall D Hok)
        as (history & response & _ & _ & U).
      rewrite U. cbn [fst reputations]. fold dbNode.
      destruct (decide (nodeID = NodeID_ updateReq)) as [Heq|Hne].
      * rewrite (Hsame Heq). subst nodeID. rewrite lookup_insert_eq. eexists.
        split; [reflexivity|]. rewrite updatedRow_VettedAt, V. reflexivity.
      * rewrite lookup_insert_ne by congruence. eauto.
Qed.

End Vetting.

(** C8.  At a processed update of a node whose [vettedAt] is unset,
    [vettedAt] becomes [now] exactly when the new total audit count is at
    least [AuditsRequiredForVetting], and stays unset otherwise; and a
    [vettedAt] that is set is the same after any sequence of updates. *)
Theorem vettedAt_set_once insertedRow db :
  (forall updateReq now wall,
      let nodeID := NodeID_ updateReq in
      let dbNode := rowBefore insertedRow db nodeID in
      Disqualified dbNode = None ->
      err (snd (Update insertedRow db updateReq now wall)) = None ->
      VettedAt dbNode = None ->
      exists row,
        reputations (fst (Update insertedRow db updateReq now wall)) !! nodeID
        = Some row
        /\ (AuditsRequiredForVetting updateReq <= TotalAuditCount row ->
            VettedAt row = Some now)
        /\ (TotalAuditCount row < AuditsRequiredForVetting updateReq ->
            VettedAt row = None))
  /\ (forall events nodeID r t,
        reputations db !! nodeID = Some r ->
        VettedAt r = Some t ->
        exists r',
          reputations (runUpdates insertedRow db events) !! nodeID = Some r'
          /\ VettedAt r' = Some t).
Proof.
  split.
  - intros updateReq now wall nodeID dbNode D Hok V.
    destruct (Update_ok_inv insertedRow db updateReq now wall D Hok)
      as (history & response & _ & _ & U).
    rewrite U. cbn [fst reputations]. clear U.
    pose proof (updatedRow_VettedAt dbNode updateReq response now wall) as E.
    cbv zeta in E.
    set (row := updatedRow dbNode updateReq response now wall) in *.
    exists row. split; [apply lookup_insert_eq|].
    rewrite E, V.
    destruct (Z.leb_spec (AuditsRequiredForVetting updateReq)
                (TotalAuditCount row)); split; intros; auto; lia.
  - intros events. revert db.
    induction events as [|e events IH]; intros db nodeID r t G V.
    + simpl. eauto.
    + simpl.
      destruct (Update_keeps_VettedAt insertedRow db (evRequest e) (evNow e)
                  (evWall e) nodeID r t G V) as (r' & G' & V').
      apply (IH _ nodeID r' t G' V').
Qed.

(** With one audit required, the first audit of a node vets it, and a
    failure later leaves [vettedAt] alone. *)
Lemma vettedAt_set_once_witness :
  let db' :=
    fst (Update exampleRow emptyDB (exampleRequest AuditSuccess) hour hour) in
  exists row,
    reputations db' !! 1%N = Some row
    /\ VettedAt row = Some hour
    /\ exists row',
         reputations
           (runUpdates exampleRow db'
              [ {| evRequest := exampleRequest AuditFailure;
                   evNow := hour + 2; evWall := hour + 2 |} ]) !! 1%N
         = Some row'
         /\ VettedAt row' = Some hour.
Proof.
  intros db'.
  destruct (proj1 (vettedAt_set_once exampleRow emptyDB)
              (exampleRequest AuditSuccess) hour hour
              eq_refl eq_refl eq_refl) as (row & G & Hset & _).
  fold db' in G.
  exists row. split; [exact G|].
  assert (V : VettedAt row = Some hour).
  { apply Hset.
    assert (E : Some row
                = Some (updatedRow (exampleRow 1%N)
                          (exampleRequest AuditSuccess)
                          {| NewScore := 1; TrackingPeriodFull := false |}
                          hour hour))
      by (rewrite <- G; vm_compute; reflexivity).
    injection E as ->. vm_compute. discriminate. }
  split; [exact V|].
  exact (proj2 (vettedAt_set_once exampleRow db') _ 1%N row hour G V).
Defined.

(** ** Suspension for unknown audits *)

(** Comparison of [float64]: a value strictly above another is not at or
    below it. *)
Lemma SFcompare_Lt_Gt x y :
  SFcompare x y = Some Lt -> SFcompare y x = Some Gt.
Proof.
  destruct x as [sx|sx| |sx mx ex], y as [sy|sy| |sy my ey]; simpl;
    try discriminate;
    try (destruct sx; try destruct sy; simpl; congruence);
    try (destruct sy; simpl; congruence).
  destruct sx, sy; try congruence;
    rewrite (Z.compare_antisym ex ey);
    destruct (ex ?= ey)%Z; simpl; try congruence;
    change (Pos.compare_cont Eq mx my) with (Pos.compare mx my);
    change (Pos.compare_cont Eq my mx) with (Pos.compare my mx);
    rewrite (Pos.compare_antisym mx my);
    destruct (mx ?= my)%positive; simpl; congruence.
Qed.

Lemma float_ltb_not_leb (x y : float) :
  (y <? x)%float = true -> (x <=? y)%float = false.
Proof.
  rewrite ltb_spec, leb_spec. unfold SFltb, SFleb.
  destruct (SFcompare (Prim2SF y) (Prim2SF x)) as [[| |]|] eqn:C;
    try discriminate.
  intros _. rewrite (SFcompare_Lt_Gt _ _ C). reflexivity.
Qed.

(** What the block writes to [UnknownAuditSuspended], to [Disqualified] and
    to monkit, when it starts with [UnknownAuditSuspended] unset. *)
Lemma unknownAuditStep_result dbNode updateReq rep now wall st :
  uUnknownAuditSuspended (fst st) = timeUnset ->
  let fires :=
    (rep <=? AuditDQ updateReq)%float
    && negb (AuditType_eqb (AuditOutcome updateReq) AuditSuccess)
    && match UnknownAuditSuspended dbNode with
       | Some suspendedAt =>
           (SuspensionGracePeriod updateReq <? Time.Sub wall suspendedAt)
           && SuspensionDQEnabled updateReq
       | None => false
       end in
  let st' := unknownAuditStep dbNode updateReq rep now wall st in
  uUnknownAuditSuspended (fst st')
  = (if fires then timeNil
     else if (rep <=? AuditDQ updateReq)%float
     then if isNil (UnknownAuditSuspended dbNode)
          then timeValue now else timeUnset
     else if isNil (UnknownAuditSuspended dbNode)
     then timeUnset else timeNil)
  /\ uDisqualified (fst st')
     = (if fires then timeValue now else uDisqualified (fst st))
  /\ snd st'
     = snd st ++ (if fires then [Meter "unknown_suspension_dqs"] else []).
Proof.
  intros Hunset. cbv zeta. unfold unknownAuditStep.
  destruct (rep <=? AuditDQ updateReq)%float;
    destruct (UnknownAuditSuspended dbNode) as [t|];
    destruct (AuditType_eqb (AuditOutcome updateReq) AuditSuccess);
    cbn [isNil negb andb fst snd]; rewrite ?Hunset;
    cbn [timeField_set negb andb];
    try destruct (SuspensionGracePeriod updateReq <? Time.Sub wall t);
    try destruct (SuspensionDQEnabled updateReq);
    cbn [andb fst snd uUnknownAuditSuspended uDisqualified
           with_UnknownAuditSuspended with_Disqualified];
    rewrite ?app_nil_r; auto.
Qed.

(** A disqualification made by an earlier block stands after the block for
    offline nodes. *)
Lemma offlineStep_keeps_Disqualified dbNode updateReq response now st :
  uDisqualified (fst st) = timeValue now ->
  uDisqualified (fst (offlineStep dbNode updateReq response now st))
  = timeValue now.
Proof. intros H. unfold offlineStep. repeat case_match; simpl; auto. Qed.

(** What the other blocks send to monkit. *)
Lemma vettingStep_mon dbNode updateReq n now st :
  snd (vettingStep dbNode updateReq n now st) = snd st.
Proof. unfold vettingStep. case_match; reflexivity. Qed.

Lemma contactStep_mon updateReq now st :
  snd (contactStep updateReq now st) = snd st.
Proof. unfold contactStep. case_match; reflexivity. Qed.

Lemma successCountStep_mon dbNode updateReq st :
  snd (successCountStep dbNode updateReq st) = snd st.
Proof. unfold successCountStep. case_match; reflexivity. Qed.

Lemma offlineDisabledStep_mon dbNode st :
  snd (offlineDisabledStep dbNode st) = snd st.
Proof. unfold offlineDisabledStep. repeat case_match; reflexivity. Qed.

Lemma auditDQStep_mon updateReq rep now st m :
  m <> Meter "bad_audit_dqs" ->
  In m (snd (auditDQStep updateReq rep now st)) <-> In m (snd st).
Proof.
  intros Hm. unfold auditDQStep. case_match; cbn [snd]; [|reflexivity].
  rewrite in_app_iff. simpl. intuition congruence.
Qed.

Lemma offlineStep_mon dbNode updateReq response now st m :
  m <> Meter "offline_dqs" ->
  In m (snd (offlineStep dbNode updateReq response now st)) <-> In m (snd st).
Proof.
  intros Hm. unfold offlineStep.
  repeat case_match; cbn [snd]; rewrite ?in_app_iff; simpl;
    intuition congruence.
Qed.

(** The same for the row that is written. *)
Lemma updatedRow_unknownAudit dbNode updateReq response now wall :
  let row := updatedRow dbNode updateReq response now wall in
  let rep :=
    (UnknownAuditReputationAlpha row
     / (UnknownAuditReputationAlpha row + UnknownAuditReputationBeta row))
    %float in
  let fires :=
    (rep <=? AuditDQ updateReq)%float
    && negb (AuditType_eqb (AuditOutcome updateReq) AuditSuccess)
    && match UnknownAuditSuspended dbNode with
       | Some suspendedAt =>
           (SuspensionGracePeriod updateReq <? Time.Sub wall suspendedAt)
           && SuspensionDQEnabled updateReq
       | None => false
       end in
  UnknownAuditSuspended row
  = (if fires then None
     else if (rep <=? AuditDQ updateReq)%float
     then match UnknownAuditSuspended dbNode with
          | None => Some now
          | Some t => Some t
          end
     else None)
  /\ (fires = true -> Disqualified row = Some now)
  /\ (In (Meter "unknown_suspension_dqs")
        (snd (populateUpdateNodeStats dbNode updateReq response now wall))
      <-> fires = true).
Proof.
  intros row.
  pose proof (updatedRow_belief dbNode updateReq response now wall) as B.
  cbv zeta in B. fold row in B.
  destruct (populateUpdateNodeStats_blocks dbNode updateReq response now wall)
    as (a & b & ua & ub & n & E & P).
  rewrite E in B.
  assert (Hua : ua = UnknownAuditReputationAlpha row) by congruence.
  assert (Hub : ub = UnknownAuditReputationBeta row) by congruence.
  rewrite <- Hua, <- Hub. clear B Hua Hub. intros rep fires.
  set (st0 := auditDQStep updateReq (a / (a + b))%float now
                (vettingStep dbNode updateReq n now
                   (initialStats updateReq response a b ua ub n))) in P.
  assert (H0 : uUnknownAuditSuspended (fst st0) = timeUnset).
  { unfold st0. frame uUnknownAuditSuspended. reflexivity. }
  destruct (unknownAuditStep_result dbNode updateReq rep now wall st0 H0)
    as (HS & HD & HM).
  fold fires in HS, HD, HM.
  set (st1 := unknownAuditStep dbNode updateReq rep now wall st0) in *.
  assert (Hmon0 : ~ In (Meter "unknown_suspension_dqs") (snd st0)).
  { unfold st0. rewrite auditDQStep_mon by discriminate.
    rewrite vettingStep_mon. simpl. intuition discriminate. }
  unfold row, updatedRow, populateUpdateFields.
  cbn [fst snd applyUpdateFields fUnknownAuditSuspended fDisqualified
         UnknownAuditSuspended Disqualified].
  rewrite P. cbv zeta. fold rep. fold st1.
  destruct (negb (OfflineSuspensionEnabled (AuditHistory updateReq))).
  - frame uUnknownAuditSuspended. frame uDisqualified.
    rewrite HS, HD. split; [|split].
    + destruct fires; [reflexivity|].
      destruct (rep <=? AuditDQ updateReq)%float;
        destruct (UnknownAuditSuspended dbNode); reflexivity.
    + intros ->. reflexivity.
    + rewrite offlineDisabledStep_mon, successCountStep_mon, contactStep_mon.
      rewrite HM, in_app_iff. destruct fires; simpl; intuition congruence.
  - frame uUnknownAuditSuspended. rewrite HS. split; [|split].
    + destruct fires; [reflexivity|].
      destruct (rep <=? AuditDQ updateReq)%float;
        destruct (UnknownAuditSuspended dbNode); reflexivity.
    + intros Hf. rewrite Hf in HD.
      rewrite offlineStep_keeps_Disqualified; [reflexivity|].
      frame uDisqualified. exact HD.
    + rewrite offlineStep_mon by discriminate.
      rewrite successCountStep_mon, contactStep_mon.
      rewrite HM, in_app_iff. destruct fires; simpl; intuition congruence.
Qed.

(** C6.  At a processed update, with the unknown-audit reputation taken
    from the parameters after the belief update: when it is at or below
    [AuditDQ] and the node is not suspended for unknown audits, the row is
    suspended at [now]; when it is above [AuditDQ] and the node is
    suspended, the suspension is cleared. *)
Theorem unknown_audit_suspension insertedRow db updateReq now wall :
  let nodeID := NodeID_ updateReq in
  let dbNode := rowBefore insertedRow db nodeID in
  Disqualified dbNode = None ->
  err (snd (Update insertedRow db updateReq now wall)) = None ->
  exists row,
    reputations (fst (Update insertedRow db updateReq now wall)) !! nodeID
    = Some row
    /\ let unknownAuditRep :=
         (UnknownAuditReputationAlpha row
          / (UnknownAuditReputationAlpha row
             + UnknownAuditReputationBeta row))%float in
       ((unknownAuditRep <=? AuditDQ updateReq)%float = true ->
        UnknownAuditSuspended dbNode = None ->
        UnknownAuditSuspended row = Some now)
       /\ ((AuditDQ updateReq <? unknownAuditRep)%float = true ->
           UnknownAuditSuspended dbNode <> None ->
           UnknownAuditSuspended row = None).
Proof.
  intros nodeID dbNode D Hok.
  destruct (Update_ok_inv insertedRow db updateReq now wall D Hok)
    as (history & response & _ & _ & U).
  rewrite U. cbn [fst reputations]. clear U.
  destruct (updatedRow_unknownAudit dbNode updateReq response now wall)
    as (HS & _ & _).
  set (row := updatedRow dbNode updateReq response now wall) in *.
  exists row. split; [apply lookup_insert_eq|]. clearbody row.
  cbv zeta. rewrite HS. split.
  - intros Hle Hnone. rewrite Hle, Hnone.
    rewrite andb_false_r. reflexivity.
  - intros Hlt _. rewrite (float_ltb_not_leb _ _ Hlt). reflexivity.
Qed.

(** A node that was suspended for unknown audits and has a good
    reputation again is taken out of suspension by a success. *)
Lemma unknown_audit_suspension_witness :
  let dbNode := exampleRowWith None (Some 5) None None in
  let db := with_reputations {[ 1%N := dbNode ]} emptyDB in
  exists row,
    reputations
      (fst (Update exampleRow db (exampleRequest AuditSuccess) hour hour))
      !! 1%N = Some row
    /\ UnknownAuditSuspended row = None.
Proof.
  intros dbNode db.
  destruct (unknown_audit_suspension exampleRow db
              (exampleRequest AuditSuccess) hour hour eq_refl eq_refl)
    as (row & G & _ & Hclear).
  exists row. split; [exact G|].
  apply Hclear; [|discriminate].
  assert (E : Some row = Some (updatedRow dbNode (exampleRequest AuditSuccess)
                 {| NewScore := 1; TrackingPeriodFull := false |} hour hour))
    by (rewrite <- G; reflexivity).
  injection E as ->. reflexivity.
Defined.

(** ** Disqualification after the grace period *)

Lemma populateUpdateFields_monitored dbNode updateReq response now wall :
  snd (populateUpdateFields dbNode updateReq response now wall)
  = snd (populateUpdateNodeStats dbNode updateReq response now wall).
Proof. reflexivity. Qed.

(** C2, as the code has it.  At a processed update for which the clock read
    by [time.Since] shows [now], disqualification case b takes place
    exactly when the unknown-audit reputation after the belief update is
    at or below [AuditDQ], the node was suspended for unknown audits
    before the call, the outcome is not a success, [SuspensionDQEnabled]
    is set and [now] minus the suspension time exceeds the grace period;
    and when it takes place the row is disqualified at [now] and its
    suspension is cleared. *)
Theorem grace_period_disqualification insertedRow db updateReq now :
  let nodeID := NodeID_ updateReq in
  let dbNode := rowBefore insertedRow db nodeID in
  let result := Update insertedRow db updateReq now now in
  Disqualified dbNode = None ->
  err (snd result) = None ->
  exists row,
    reputations (fst result) !! nodeID = Some row
    /\ let unknownAuditRep :=
         (UnknownAuditReputationAlpha row
          / (UnknownAuditReputationAlpha row
             + UnknownAuditReputationBeta row))%float in
       (gracePeriodDQ (monitored (snd result))
        <-> (unknownAuditRep <=? AuditDQ updateReq)%float = true
            /\ AuditOutcome updateReq <> AuditSuccess
            /\ SuspensionDQEnabled updateReq = true
            /\ exists suspendedAt,
                 UnknownAuditSuspended dbNode = Some suspendedAt
                 /\ SuspensionGracePeriod updateReq
                    < Time.Sub now suspendedAt)
       /\ (gracePeriodDQ (monitored (snd result)) ->
           Disqualified row = Some now
           /\ UnknownAuditSuspended row = None).
Proof.
  intros nodeID dbNode result D Hok. unfold result in *.
  destruct (Update_ok_inv insertedRow db updateReq now now D Hok)
    as (history & response & _ & _ & U).
  rewrite U. cbn [fst snd reputations monitored]. clear U.
  fold nodeID. fold dbNode.
  destruct (updatedRow_unknownAudit dbNode updateReq response now now)
    as (HS & HD & HM).
  rewrite populateUpdateFields_monitored. unfold gracePeriodDQ.
  set (row := updatedRow dbNode updateReq response now now) in *.
  exists row. split; [apply lookup_insert_eq|]. clearbody row.
  cbv zeta. rewrite HM. split.
  - destruct ((UnknownAuditReputationAlpha row
               / (UnknownAuditReputationAlpha row
                  + UnknownAuditReputationBeta row)
               <=? AuditDQ updateReq)%float); cbn [andb].
    + destruct (AuditOutcome updateReq); cbn [AuditType_eqb negb andb];
        destruct (UnknownAuditSuspended dbNode) as [t|];
        try destruct (Z.ltb_spec (SuspensionGracePeriod updateReq)
                        (Time.Sub now t));
        try destruct (SuspensionDQEnabled updateReq); cbn [andb];
        split; try discriminate; try (intros (_ & Hno & _); congruence);
        try (intros (_ & _ & Hen & _); congruence);
        try (intros (_ & _ & _ & s & Hs & Hlt); congruence);
        try (intros (_ & _ & _ & s & [= <-] & Hlt); lia);
        intros _; repeat split; try discriminate; eauto.
    + split; [discriminate | intros [? _]; discriminate].
  - intros Hf. split; [exact (HD Hf)|]. rewrite HS, Hf. reflexivity.
Qed.

(** A node suspended at time 0 gets an unknown outcome three hours later,
    with a grace period of one hour. *)
Lemma grace_period_disqualification_witness :
  let dbNode := exampleRowWith None (Some 0) None None in
  let db := with_reputations {[ 1%N := dbNode ]} emptyDB in
  let now := 3 * hour in
  exists row,
    reputations (fst (Update exampleRow db (exampleRequest AuditUnknown)
                        now now)) !! 1%N = Some row
    /\ Disqualified row = Some now
    /\ UnknownAuditSuspended row = None.
Proof.
  intros dbNode db now.
  destruct (grace_period_disqualification exampleRow db
              (exampleRequest AuditUnknown) now eq_refl eq_refl)
    as (row & G & _ & Hthen).
  exists row. split; [exact G|].
  apply Hthen. unfold gracePeriodDQ. vm_compute.
  repeat (first [left; reflexivity | right]).
Defined.

(** C2, as stated, fails: a node that was put in suspension while its
    unknown-audit reputation is above the threshold (alpha 1, beta 0), and
    that is found offline three hours later, meets every condition of the
    claim; the code lifts the suspension and does not disqualify. *)
Lemma grace_period_needs_low_reputation :
  let dbNode := exampleRowWith None (Some 0) None None in
  let db := with_reputations {[ 1%N := dbNode ]} emptyDB in
  let updateReq := exampleRequest AuditOffline in
  let now := 3 * hour in
  let result := Update exampleRow db updateReq now now in
  (UnknownAuditSuspended dbNode = Some 0
   /\ AuditOutcome updateReq <> AuditSuccess
   /\ SuspensionDQEnabled updateReq = true
   /\ SuspensionGracePeriod updateReq < Time.Sub now 0)
  /\ err (snd result) = None
  /\ ~ gracePeriodDQ (monitored (snd result))
  /\ exists row,
       reputations (fst result) !! 1%N = Some row
       /\ Disqualified row = None
       /\ UnknownAuditSuspended row = None.
Proof.
  intros dbNode db updateReq now result.
  split; [repeat split; discriminate || reflexivity|].
  split; [reflexivity|].
  split.
  - unfold gracePeriodDQ. vm_compute. intuition discriminate.
  - eexists. split; [reflexivity|]. split; reflexivity.
Qed.

(** ** Offline nodes *)

Lemma updatedRow_OnlineScore dbNode updateReq response now wall :
  OnlineScore (updatedRow dbNode updateReq response now wall)
  = NewScore response.
Proof.
  destruct (populateUpdateNodeStats_blocks dbNode updateReq response now wall)
    as (a & b & ua & ub & n & E & P).
  unfold updatedRow, populateUpdateFields.
  cbn [fst applyUpdateFields fOnlineScore OnlineScore].
  rewrite P. cbv zeta.
  destruct (negb (OfflineSuspensionEnabled (AuditHistory updateReq)));
    frame uOnlineScore; reflexivity.
Qed.

(** What the block for offline nodes leaves in the row. *)
Lemma updatedRow_offline dbNode updateReq response now wall :
  OfflineSuspensionEnabled (AuditHistory updateReq) = true ->
  let row := updatedRow dbNode updateReq response now wall in
  let penalize := penalizeOfflineNode updateReq response in
  match UnderReview dbNode with
  | Some underReview =>
      let trackingPeriodPassed :=
        Time.After now
          (Time.Add (Time.Add underReview (GracePeriod (AuditHistory updateReq)))
             (TrackingPeriod (AuditHistory updateReq))) in
      OfflineSuspended row
      = (if penalize
         then match OfflineSuspended dbNode with
              | Some t => Some t
              | None => Some now
              end
         else None)
      /\ (trackingPeriodPassed = true -> penalize = true ->
          OfflineDQEnabled (AuditHistory updateReq) = true ->
          Disqualified row = Some now)
      /\ (trackingPeriodPassed = true -> penalize = false ->
          UnderReview row = None)
      /\ (trackingPeriodPassed = false \/ penalize = true ->
          UnderReview row = Some underReview)
  | None =>
      (penalize = true ->
       UnderReview row = Some now /\ OfflineSuspended row = Some now)
      /\ (penalize = false ->
          UnderReview row = None
          /\ OfflineSuspended row = OfflineSuspended dbNode)
  end.
Proof.
  intros Hen row penalize.
  destruct (populateUpdateNodeStats_blocks dbNode updateReq response now wall)
    as (a & b & ua & ub & n & E & P).
  rewrite Hen in P. cbn [negb] in P. cbv zeta in P.
  set (st := successCountStep dbNode updateReq _) in P.
  assert (H1 : uOfflineSuspended (fst st) = timeUnset)
    by (unfold st; frame uOfflineSuspended; reflexivity).
  assert (H2 : uOfflineUnderReview (fst st) = timeUnset)
    by (unfold st; frame uOfflineUnderReview; reflexivity).
  clearbody st.
  unfold row, updatedRow, populateUpdateFields.
  cbn [fst applyUpdateFields fOfflineSuspended fUnderReview fDisqualified
         OfflineSuspended UnderReview Disqualified].
  rewrite P. unfold offlineStep. fold penalize.
  destruct (UnderReview dbNode) as [underReview|]; cbv zeta.
  - destruct penalize; destruct (OfflineSuspended dbNode) as [t|];
      destruct (Time.After now _);
      try destruct (OfflineDQEnabled (AuditHistory updateReq));
      cbn [negb andb isNil fst snd uOfflineSuspended uOfflineUnderReview
             uDisqualified with_OfflineSuspended with_OfflineUnderReview
             with_Disqualified];
      rewrite ?H1, ?H2; cbn [columnOrNull columnOfValue orKeep];
      repeat split; try reflexivity; try discriminate;
      intros; try reflexivity; try discriminate;
      intuition discriminate.
  - destruct penalize;
      cbn [fst snd uOfflineSuspended uOfflineUnderReview
             with_OfflineSuspended with_OfflineUnderReview];
      rewrite ?H1, ?H2; cbn [columnOrNull orKeep];
      repeat split; intros; try reflexivity; discriminate.
Qed.

(** C7.  At a processed update with offline suspension enabled, where
    [penalize] is "the new score is below [OfflineThreshold] and the
    tracking period is full".  For a node under review: the row is
    suspended for being offline exactly when [penalize] holds (a suspension
    that is kept keeps its time, a new one is at [now]); and once [now] is
    after [underReview + GracePeriod + TrackingPeriod], [penalize] with
    [OfflineDQEnabled] disqualifies at [now], and no [penalize] clears both
    [underReview] and the suspension.  For a node not under review:
    [penalize] sets both to [now], and otherwise [underReview] stays unset
    and the suspension is left as it was. *)
Theorem offline_review insertedRow db updateReq now wall :
  let nodeID := NodeID_ updateReq in
  let dbNode := rowBefore insertedRow db nodeID in
  let config := AuditHistory updateReq in
  let response :=
    snd (fst (updateAuditHistoryWithTx db nodeID now (isUpOf updateReq)
                config)) in
  let penalize :=
    (NewScore response <? OfflineThreshold config)%float
    && TrackingPeriodFull response in
  Disqualified dbNode = None ->
  err (snd (Update insertedRow db updateReq now wall)) = None ->
  OfflineSuspensionEnabled config = true ->
  exists row,
    reputations (fst (Update insertedRow db updateReq now wall)) !! nodeID
    = Some row
    /\ OnlineScore row = NewScore response
    /\ (forall underReview,
          UnderReview dbNode = Some underReview ->
          (OfflineSuspended row <> None <-> penalize = true)
          /\ (penalize = true ->
              OfflineSuspended row
              = Some (default now (OfflineSuspended dbNode)))
          /\ (underReview + GracePeriod config + TrackingPeriod config < now ->
              (penalize = true -> OfflineDQEnabled config = true ->
               Disqualified row = Some now)
              /\ (penalize = false ->
                  UnderReview row = None /\ OfflineSuspended row = None)))
    /\ (UnderReview dbNode = None ->
        (penalize = true ->
         UnderReview row = Some now /\ OfflineSuspended row = Some now)
        /\ (penalize = false ->
            UnderReview row = None
            /\ OfflineSuspended row = OfflineSuspended dbNode)).
Proof.
  intros nodeID dbNode config response penalize D Hok Hen.
  destruct (Update_ok_inv insertedRow db updateReq now wall D Hok)
    as (history & response' & _ & Hresp & U).
  fold nodeID config in Hresp. fold response in Hresp. subst response'.
  rewrite U. cbn [fst reputations]. clear U. fold nodeID. fold dbNode.
  pose proof (updatedRow_offline dbNode updateReq response now wall Hen) as O.
  pose proof (updatedRow_OnlineScore dbNode updateReq response now wall) as S.
  cbv zeta in O. unfold penalizeOfflineNode in O.
  fold config in O. fold penalize in O.
  set (row := updatedRow dbNode updateReq response now wall) in *.
  exists row. split; [apply lookup_insert_eq|]. clearbody row.
  split; [exact S|]. split.
  - intros underReview Hur. rewrite Hur in O.
    destruct O as (Hsusp & Hdq & Hclear & _).
    assert (Hpassed : underReview + GracePeriod config + TrackingPeriod config
                      < now ->
                      Time.After now
                        (Time.Add (Time.Add underReview (GracePeriod config))
                           (TrackingPeriod config)) = true).
    { intros Hlt. unfold Time.After, Time.Add. apply Z.ltb_lt. exact Hlt. }
    split; [|split].
    + rewrite Hsusp. destruct penalize;
        [destruct (OfflineSuspended dbNode)|]; intuition congruence.
    + intros Hp. rewrite Hsusp, Hp.
      destruct (OfflineSuspended dbNode); reflexivity.
    + intros Hlt. split.
      * intros Hp Hdqe. exact (Hdq (Hpassed Hlt) Hp Hdqe).
      * intros Hp. split; [exact (Hclear (Hpassed Hlt) Hp)|].
        rewrite Hsusp, Hp. reflexivity.
  - intros Hur. rewrite Hur in O. exact O.
Qed.

(** The spec's review cycle: four hourly windows without a single online
    audit, then an offline audit in the fifth hour. *)
Lemma offline_review_witness :
  exists row,
    reputations
      (fst (Update exampleRow offlineDB (exampleRequest AuditOffline)
              (10 * hour) (10 * hour))) !! 1%N = Some row
    /\ UnderReview row = Some (10 * hour)
    /\ OfflineSuspended row = Some (10 * hour).
Proof.
  destruct (offline_review exampleRow offlineDB (exampleRequest AuditOffline)
              (10 * hour) (10 * hour) eq_refl eq_refl eq_refl)
    as (row & G & _ & _ & Hclear).
  exists row. split; [exact G|].
  apply (proj1 (Hclear eq_refl)). reflexivity.
Defined.

(** ** Online and offline observations *)






(** The grace period is measured with [time.Since], on the clock, not on
    [now]: the update of the example above, made while the clock shows
    half an hour, does not disqualify. *)
Example grace_period_is_measured_on_the_clock :
  let dbNode := exampleRowWith None (Some 0) None None in
  let db := with_reputations {[ 1%N := dbNode ]} emptyDB in
  let result :=
    Update exampleRow db (exampleRequest AuditUnknown) (3 * hour)
      (hour / 2) in
  ~ gracePeriodDQ (monitored (snd result))
  /\ Disqualified <$> (reputations (fst result) !! 1%N) = Some None.
Proof.
  split; [|reflexivity].
  unfold gracePeriodDQ. vm_compute. intuition discriminate.
Qed.

(** * Further properties *)

(** ** What an update leaves alone *)

Section UpdateFrame.

Variable insertedRow : NodeID -> Reputation.

(** X1.  An [Update] for one node reads and writes the rows of that node
    only: the row and the history of every other node are as before. *)
Theorem Update_other_nodes db updateReq now wall nodeID :
  nodeID <> NodeID_ updateReq ->
  reputations (fst (Update insertedRow db updateReq now wall)) !! nodeID
  = reputations db !! nodeID
  /\ audit_histories (fst (Update insertedRow db updateReq now wall))
       !! nodeID
     = audit_histories db !! nodeID.
Proof.
  intros Hne.
  set (dbNode := rowBefore insertedRow db (NodeID_ updateReq)).
  destruct (Disqualified dbNode) as [d|] eqn:D.
  - assert (D' : Disqualified dbNode <> None) by congruence.
    rewrite (Update_disqualified insertedRow db updateReq now wall D').
    cbn [fst with_reputations reputations audit_histories].
    rewrite lookup_insert_ne by congruence. auto.
  - destruct (recordAuditHistory (historyBefore db (NodeID_ updateReq)) now
                (isUpOf updateReq) (AuditHistory updateReq))
      as [history [e|]] eqn:R.
    + assert (R' : snd (recordAuditHistory
                          (historyBefore db (NodeID_ updateReq)) now
                          (isUpOf updateReq) (AuditHistory updateReq))
                   = Some e) by (rewrite R; reflexivity).
      rewrite (Update_refused insertedRow db updateReq now wall _ D R').
      auto.
    + rewrite (Update_processed insertedRow db updateReq now wall _ D R).
      cbn [fst reputations audit_histories].
      rewrite !lookup_insert_ne by congruence. auto.
Qed.

(** X2.  No [Update] writes the columns [id], [suspended] and
    [audit_history] of a row: what [Get] reports as the audit history of a
    node is the same before and after. *)
Theorem Update_keeps_history_column db updateReq now wall nodeID info :
  Get db nodeID = inl info ->
  exists info',
    Get (fst (Update insertedRow db updateReq now wall)) nodeID = inl info'
    /\ iAuditHistory info' = iAuditHistory info
    /\ iSuspended info' = iSuspended info.
Proof.
  unfold Get. destruct (reputations db !! nodeID) as [r|] eqn:G;
    [|discriminate].
  intros [= <-]. cbn [iAuditHistory iSuspended].
  set (dbNode := rowBefore insertedRow db (NodeID_ updateReq)).
  assert (Hrow : nodeID = NodeID_ updateReq -> dbNode = r).
  { intros E. unfold dbNode, rowBefore. rewrite <- E, G. reflexivity. }
  assert (Hcase :
    reputations (fst (Update insertedRow db updateReq now wall)) !! nodeID
    = Some r
    \/ exists f,
         reputations (fst (Update insertedRow db updateReq now wall))
           !! nodeID = Some (applyUpdateFields f r)).
  { destruct (Disqualified dbNode) as [d|] eqn:D.
    - assert (D' : Disqualified dbNode <> None) by congruence.
      rewrite (Update_disqualified insertedRow db updateReq now wall D').
      cbn [fst with_reputations reputations]. fold dbNode. left.
      destruct (decide (nodeID = NodeID_ updateReq)) as [E|Hne].
      + rewrite (Hrow E). subst nodeID. apply lookup_insert_eq.
      + rewrite lookup_insert_ne by congruence. exact G.
    - destruct (recordAuditHistory (historyBefore db (NodeID_ updateReq)) now
                  (isUpOf updateReq) (AuditHistory updateReq))
        as [history [e|]] eqn:R.
      + assert (R' : snd (recordAuditHistory
                            (historyBefore db (NodeID_ updateReq)) now
                            (isUpOf updateReq) (AuditHistory updateReq))
                     = Some e) by (rewrite R; reflexivity).
        rewrite (Update_refused insertedRow db updateReq now wall _ D R').
        left. exact G.
      + rewrite (Update_processed insertedRow db updateReq now wall _ D R).
        cbn [fst reputations]. fold dbNode.
        destruct (decide (nodeID = NodeID_ updateReq)) as [E|Hne].
        * right. rewrite (Hrow E). subst nodeID. unfold updatedRow.
          eexists. apply lookup_insert_eq.
        * left. rewrite lookup_insert_ne by congruence. exact G. }
  destruct Hcase as [-> | [f ->]];
    (eexists; split; [reflexivity|]; split; reflexivity).
Qed.

End UpdateFrame.

(** ** The columns of a processed update *)

Lemma updatedRow_Contained dbNode updateReq response now wall :
  Contained (updatedRow dbNode updateReq response now wall) = false.
Proof.
  destruct (populateUpdateNodeStats_blocks dbNode updateReq response now wall)
    as (a & b & ua & ub & n & E & P).
  unfold updatedRow, populateUpdateFields.
  cbn [fst applyUpdateFields fContained Contained].
  rewrite P. cbv zeta.
  destruct (negb (OfflineSuspensionEnabled (AuditHistory updateReq)));
    frame uContained; reflexivity.
Qed.

Lemma updatedRow_AuditSuccessCount dbNode updateReq response now wall :
  AuditSuccessCount (updatedRow dbNode updateReq response now wall)
  = if AuditType_eqb (AuditOutcome updateReq) AuditSuccess
    then add64 (AuditSuccessCount dbNode) 1
    else AuditSuccessCount dbNode.
Proof.
  destruct (populateUpdateNodeStats_blocks dbNode updateReq response now wall)
    as (a & b & ua & ub & n & E & P).
  unfold updatedRow, populateUpdateFields.
  cbn [fst applyUpdateFields fAuditSuccessCount AuditSuccessCount].
  destruct (AuditType_eqb (AuditOutcome updateReq) AuditSuccess) eqn:S;
    [reflexivity|].
  rewrite P. cbv zeta.
  destruct (negb (OfflineSuspensionEnabled (AuditHistory updateReq)));
    frame uAuditSuccessCount; unfold successCountStep; rewrite S;
    frame uAuditSuccessCount; reflexivity.
Qed.

(** The first audit of a node without history leaves one window and the
    score 1. *)
Lemma recordAuditHistory_empty auditTime online config :
  recordAuditHistory emptyHistory auditTime online config
  = ({| Windows :=
          [addAudit online
             {| WindowStart := windowStartOf auditTime config;
                OnlineCount := 0; TotalCount := 0 |}];
        Score := 1 |}, None).
Proof.
  unfold recordAuditHistory, prepareWindows, windowStartOf. simpl.
  unfold Time.After. rewrite Z.ltb_irrefl. reflexivity.
Qed.

Section ProcessedUpdate.

Variable insertedRow : NodeID -> Reputation.

(** X3.  When [Update] returns a status, it is the status of the row the
    store now holds for the node; when it returns an error, it returns no
    status and reports no change. *)
Theorem Update_status_is_stored db updateReq now wall :
  let result := Update insertedRow db updateReq now wall in
  (forall s,
      status (snd result) = Some s ->
      exists row,
        reputations (fst result) !! NodeID_ updateReq = Some row
        /\ s = getNodeStatus row)
  /\ (err (snd result) <> None ->
      status (snd result) = None /\ changed (snd result) = false).
Proof.
  set (dbNode := rowBefore insertedRow db (NodeID_ updateReq)).
  destruct (Disqualified dbNode) as [d|] eqn:D.
  - assert (D' : Disqualified dbNode <> None) by congruence.
    rewrite (Update_disqualified insertedRow db updateReq now wall D').
    cbn [fst snd status err with_reputations reputations]. split.
    + intros s [= <-]. eexists. split; [apply lookup_insert_eq|reflexivity].
    + congruence.
  - destruct (recordAuditHistory (historyBefore db (NodeID_ updateReq)) now
                (isUpOf updateReq) (AuditHistory updateReq))
      as [history [e|]] eqn:R.
    + assert (R' : snd (recordAuditHistory
                          (historyBefore db (NodeID_ updateReq)) now
                          (isUpOf updateReq) (AuditHistory updateReq))
                   = Some e) by (rewrite R; reflexivity).
      rewrite (Update_refused insertedRow db updateReq now wall _ D R').
      cbn [fst snd status err changed]. split; [discriminate | auto].
    + rewrite (Update_processed insertedRow db updateReq now wall _ D R).
      cbn [fst snd status err reputations]. split.
      * intros s [= <-]. eexists.
        split; [apply lookup_insert_eq|reflexivity].
      * congruence.
Qed.

(** X4.  After a processed update the row and the history of the node
    agree: the online score of the row is the score of the history, and
    the last window of the history is the window of the observation. *)
Theorem Update_score_agrees db updateReq now wall :
  let nodeID := NodeID_ updateReq in
  let result := Update insertedRow db updateReq now wall in
  Disqualified (rowBefore insertedRow db nodeID) = None ->
  err (snd result) = None ->
  exists row history latest,
    reputations (fst result) !! nodeID = Some row
    /\ audit_histories (fst result) !! nodeID = Some history
    /\ OnlineScore row = Score history
    /\ last (Windows history) = Some latest
    /\ WindowStart latest = windowStartOf now (AuditHistory updateReq).
Proof.
  intros nodeID result D Hok. unfold result in *.
  destruct (Update_ok_inv insertedRow db updateReq now wall D Hok)
    as (history & response & R & Hresp & U).
  fold nodeID in R, Hresp, U.
  rewrite U. cbn [fst reputations audit_histories]. clear U.
  destruct (recordAuditHistory_unfold (historyBefore db nodeID) now
              (isUpOf updateReq) (AuditHistory updateReq))
    as (front & latest & E & R').
  rewrite R in R'.
  destruct (Time.After (WindowStart latest) _) eqn:A; [discriminate|].
  eexists _, history, (addAudit (isUpOf updateReq) latest).
  split; [apply lookup_insert_eq|]. split; [apply lookup_insert_eq|].
  split; [|split].
  - rewrite updatedRow_OnlineScore, Hresp.
    rewrite updateAuditHistoryWithTx_unfold.
    unfold historyBefore in R |- *.
    destruct (audit_histories db !! nodeID) as [h|] eqn:G.
    + rewrite R. reflexivity.
    + rewrite R. rewrite recordAuditHistory_empty in R.
      injection R as <-. reflexivity.
  - injection R' as ->. cbn [Windows]. apply last_snoc.
  - cbn [addAudit WindowStart].
    unfold Time.After in A. apply Z.ltb_ge in A.
    unfold prepareWindows in E.
    fold (windowStartOf now (AuditHistory updateReq)) in E.
    destruct (dropOldWindows _ _) as [kept dropped].
    unfold needsNewWindow in E.
    destruct (last kept) as [w|] eqn:L.
    + destruct (Time.Before (WindowStart w) _) eqn:B.
      * apply app_inj_tail in E as [_ <-]. reflexivity.
      * cbn [fst] in E. rewrite E, last_snoc in L. injection L as ->.
        unfold Time.Before in B. apply Z.ltb_ge in B. lia.
    + apply app_inj_tail in E as [_ <-]. reflexivity.
Qed.

(** X5.  A processed update takes the node out of containment, adds one to
    the count of successful audits when the outcome is a success, and
    leaves that count alone otherwise. *)
Theorem Update_containment_and_successes db updateReq now wall :
  let nodeID := NodeID_ updateReq in
  let dbNode := rowBefore insertedRow db nodeID in
  let result := Update insertedRow db updateReq now wall in
  Disqualified dbNode = None ->
  err (snd result) = None ->
  exists row s,
    reputations (fst result) !! nodeID = Some row
    /\ status (snd result) = Some s
    /\ Contained row = false
    /\ rsContained s = false
    /\ AuditSuccessCount row
       = match AuditOutcome updateReq with
         | AuditSuccess => add64 (AuditSuccessCount dbNode) 1
         | _ => AuditSuccessCount dbNode
         end.
Proof.
  intros nodeID dbNode result D Hok. unfold result in *.
  destruct (Update_ok_inv insertedRow db updateReq now wall D Hok)
    as (history & response & _ & _ & U).
  rewrite U. cbn [fst snd reputations status]. clear U.
  fold nodeID. fold dbNode.
  eexists _, _. split; [apply lookup_insert_eq|]. split; [reflexivity|].
  cbn [getNodeStatus rsContained].
  rewrite updatedRow_Contained, updatedRow_AuditSuccessCount.
  destruct (AuditOutcome updateReq); auto.
Qed.

End ProcessedUpdate.

(** ** Disqualification and its meters *)

Lemma unknownAuditStep_mon dbNode updateReq rep now wall st m :
  m <> Meter "unknown_suspension_dqs" ->
  In m (snd (unknownAuditStep dbNode updateReq rep now wall st))
  <-> In m (snd st).
Proof.
  intros Hm. unfold unknownAuditStep.
  repeat case_match; cbn [snd]; rewrite ?in_app_iff; simpl;
    intuition congruence.
Qed.

Section Accounting.

Variable now : Time.t.

Ltac accounted :=
  unfold dqAccounted, dqMarked in *; repeat case_match; cbn [fst snd];
  cbn [uDisqualified with_VettedAt with_Disqualified
         with_UnknownAuditSuspended with_LastContactSuccess
         with_LastContactFailure with_AuditSuccessCount with_OfflineSuspended
         with_OfflineUnderReview];
  rewrite ?in_app_iff; simpl; intuition congruence.

Lemma vettingStep_accounted dbNode updateReq n st :
  dqAccounted now st -> dqAccounted now (vettingStep dbNode updateReq n now st).
Proof. intros H. unfold vettingStep. accounted. Qed.

Lemma auditDQStep_accounted updateReq rep st :
  dqAccounted now st -> dqAccounted now (auditDQStep updateReq rep now st).
Proof. intros H. unfold auditDQStep. accounted. Qed.

Lemma unknownAuditStep_accounted dbNode updateReq rep wall st :
  dqAccounted now st ->
  dqAccounted now (unknownAuditStep dbNode updateReq rep now wall st).
Proof. intros H. unfold unknownAuditStep. accounted. Qed.

Lemma contactStep_accounted updateReq st :
  dqAccounted now st -> dqAccounted now (contactStep updateReq now st).
Proof. intros H. unfold contactStep. accounted. Qed.

Lemma successCountStep_accounted dbNode updateReq st :
  dqAccounted now st -> dqAccounted now (successCountStep dbNode updateReq st).
Proof. intros H. unfold successCountStep. accounted. Qed.

Lemma offlineDisabledStep_accounted dbNode st :
  dqAccounted now st -> dqAccounted now (offlineDisabledStep dbNode st).
Proof. intros H. unfold offlineDisabledStep. accounted. Qed.

Lemma offlineStep_accounted dbNode updateReq response st :
  dqAccounted now st ->
  dqAccounted now (offlineStep dbNode updateReq response now st).
Proof. intros H. unfold offlineStep. accounted. Qed.

Lemma populateUpdateNodeStats_accounted dbNode updateReq response wall :
  dqAccounted now
    (populateUpdateNodeStats dbNode updateReq response now wall).
Proof.
  destruct (populateUpdateNodeStats_blocks dbNode updateReq response now wall)
    as (a & b & ua & ub & n & E & P).
  rewrite P. cbv zeta.
  assert (H0 : dqAccounted now (initialStats updateReq response a b ua ub n)).
  { right. split; [reflexivity|]. unfold dqMarked. simpl.
    intuition discriminate. }
  destruct (negb (OfflineSuspensionEnabled (AuditHistory updateReq)));
    [apply offlineDisabledStep_accounted | apply offlineStep_accounted];
    apply successCountStep_accounted, contactStep_accounted,
      unknownAuditStep_accounted, auditDQStep_accounted,
      vettingStep_accounted, H0.
Qed.

End Accounting.

Section Disqualification.

Variable insertedRow : NodeID -> Reputation.

(** X6.  A processed update disqualifies at [now] or not at all, and it
    does so exactly when it marks one of the meters [bad_audit_dqs],
    [unknown_suspension_dqs] and [offline_dqs]. *)
Theorem Update_disqualifies_with_meter db updateReq now wall :
  let nodeID := NodeID_ updateReq in
  let result := Update insertedRow db updateReq now wall in
  Disqualified (rowBefore insertedRow db nodeID) = None ->
  err (snd result) = None ->
  exists row,
    reputations (fst result) !! nodeID = Some row
    /\ (Disqualified row = Some now \/ Disqualified row = None)
    /\ (Disqualified row = Some now <-> dqMarked (monitored (snd result))).
Proof.
  intros nodeID result D Hok. unfold result in *.
  destruct (Update_ok_inv insertedRow db updateReq now wall D Hok)
    as (history & response & _ & _ & U).
  rewrite U. cbn [fst snd reputations monitored]. clear U.
  fold nodeID. fold nodeID in D.
  eexists. split; [apply lookup_insert_eq|].
  rewrite populateUpdateFields_monitored.
  unfold updatedRow, populateUpdateFields.
  cbn [fst applyUpdateFields fDisqualified Disqualified]. rewrite D.
  destruct (populateUpdateNodeStats_accounted now
              (rowBefore insertedRow db nodeID) updateReq response wall)
    as [[Hd Hm] | [Hd Hm]]; rewrite Hd; cbn [columnOfValue orKeep].
  - split; [auto|]. split; auto.
  - split; [auto|]. split; [discriminate | intros; contradiction].
Qed.

(** X7.  Disqualification case a: when the audit reputation
    [alpha / (alpha + beta)], taken after the belief update, is at or below
    [AuditDQ], the processed update disqualifies the node at [now] and
    marks [bad_audit_dqs]. *)
Theorem Update_audit_disqualification db updateReq now wall :
  let nodeID := NodeID_ updateReq in
  let result := Update insertedRow db updateReq now wall in
  Disqualified (rowBefore insertedRow db nodeID) = None ->
  err (snd result) = None ->
  exists row,
    reputations (fst result) !! nodeID = Some row
    /\ ((AuditReputationAlpha row
         / (AuditReputationAlpha row + AuditReputationBeta row)
         <=? AuditDQ updateReq)%float = true ->
        Disqualified row = Some now
        /\ In (Meter "bad_audit_dqs") (monitored (snd result))).
Proof.
  intros nodeID result D Hok. unfold result in *.
  destruct (Update_ok_inv insertedRow db updateReq now wall D Hok)
    as (history & response & _ & _ & U).
  rewrite U. cbn [fst snd reputations monitored]. clear U.
  fold nodeID. fold nodeID in D.
  set (dbNode := rowBefore insertedRow db nodeID) in *.
  eexists. split; [apply lookup_insert_eq|].
  rewrite populateUpdateFields_monitored.
  pose proof (updatedRow_belief dbNode updateReq response now wall) as B.
  cbv zeta in B.
  destruct (populateUpdateNodeStats_blocks dbNode updateReq response now wall)
    as (a & b & ua & ub & n & E & P).
  rewrite E in B.
  assert (Ha : a = AuditReputationAlpha
                     (updatedRow dbNode updateReq response now wall))
    by congruence.
  assert (Hb : b = AuditReputationBeta
                     (updatedRow dbNode updateReq response now wall))
    by congruence.
  rewrite <- Ha, <- Hb. clear B Ha Hb. intros Hle.
  assert (Hin : In (Meter "bad_audit_dqs")
                  (snd (populateUpdateNodeStats dbNode updateReq response
                          now wall))).
  { rewrite P. cbv zeta.
    assert (H1 : forall st,
      In (Meter "bad_audit_dqs")
        (snd (auditDQStep updateReq (a / (a + b))%float now st))).
    { intros st. unfold auditDQStep. rewrite Hle. cbn [snd].
      rewrite in_app_iff. right. left. reflexivity. }
    destruct (negb (OfflineSuspensionEnabled (AuditHistory updateReq)));
      [rewrite offlineDisabledStep_mon
      | rewrite offlineStep_mon by discriminate];
      rewrite successCountStep_mon, contactStep_mon;
      rewrite unknownAuditStep_mon by discriminate; apply H1. }
  split; [|exact Hin].
  unfold updatedRow, populateUpdateFields.
  cbn [fst applyUpdateFields fDisqualified Disqualified]. rewrite D.
  destruct (populateUpdateNodeStats_accounted now dbNode updateReq response
              wall) as [[Hd Hm] | [Hd Hm]].
  - rewrite Hd. reflexivity.
  - exfalso. apply Hm. left. exact Hin.
Qed.

(** X8.  With offline suspension disabled, a processed update leaves the
    node neither suspended for being offline nor under review, and never
    marks [offline_dqs]. *)
Theorem Update_offline_suspension_disabled db updateReq now wall :
  let nodeID := NodeID_ updateReq in
  let result := Update insertedRow db updateReq now wall in
  Disqualified (rowBefore insertedRow db nodeID) = None ->
  err (snd result) = None ->
  OfflineSuspensionEnabled (AuditHistory updateReq) = false ->
  exists row,
    reputations (fst result) !! nodeID = Some row
    /\ OfflineSuspended row = None
    /\ UnderReview row = None
    /\ ~ In (Meter "offline_dqs") (monitored (snd result)).
Proof.
  intros nodeID result D Hok Hoff. unfold result in *.
  destruct (Update_ok_inv insertedRow db updateReq now wall D Hok)
    as (history & response & _ & _ & U).
  rewrite U. cbn [fst snd reputations monitored]. clear U.
  fold nodeID. fold nodeID in D.
  set (dbNode := rowBefore insertedRow db nodeID) in *.
  eexists. split; [apply lookup_insert_eq|].
  rewrite populateUpdateFields_monitored.
  destruct (populateUpdateNodeStats_blocks dbNode updateReq response now wall)
    as (a & b & ua & ub & n & E & P).
  rewrite Hoff in P. cbn [negb] in P. cbv zeta in P.
  set (st := successCountStep dbNode updateReq _) in P.
  assert (H1 : uOfflineSuspended (fst st) = timeUnset)
    by (unfold st; frame uOfflineSuspended; reflexivity).
  assert (H2 : uOfflineUnderReview (fst st) = timeUnset)
    by (unfold st; frame uOfflineUnderReview; reflexivity).
  assert (H3 : ~ In (Meter "offline_dqs") (snd st)).
  { unfold st. rewrite successCountStep_mon, contactStep_mon.
    rewrite unknownAuditStep_mon by discriminate.
    rewrite auditDQStep_mon by discriminate.
    rewrite vettingStep_mon. simpl. intuition discriminate. }
  clearbody st.
  unfold updatedRow, populateUpdateFields.
  cbn [fst applyUpdateFields fOfflineSuspended fUnderReview
         OfflineSuspended UnderReview].
  rewrite P, offlineDisabledStep_mon. unfold offlineDisabledStep.
  destruct (OfflineSuspended dbNode), (UnderReview dbNode);
    cbn [isNil negb fst snd uOfflineSuspended uOfflineUnderReview
           with_OfflineSuspended with_OfflineUnderReview];
    rewrite ?H1, ?H2; auto.
Qed.

End Disqualification.

(** ** Writing the status by hand *)

Lemma applyUpdateFields_status_same r :
  applyUpdateFields
    {| fVettedAt := Some (VettedAt r); fTotalAuditCount := None;
       fAuditReputationAlpha := None; fAuditReputationBeta := None;
       fDisqualified := Some (Disqualified r);
       fUnknownAuditReputationAlpha := None;
       fUnknownAuditReputationBeta := None;
       fUnknownAuditSuspended := Some (UnknownAuditSuspended r);
       fAuditSuccessCount := None; fContained := Some (Contained r);
       fOnlineScore := None;
       fOfflineSuspended := Some (OfflineSuspended r);
       fUnderReview := None |} r = r.
Proof. destruct r; reflexivity. Qed.

Lemma with_reputations_same db : with_reputations (reputations db) db = db.
Proof. destruct db; reflexivity. Qed.

(** X9.  [SetNodeStatus] on a node that has a row: afterwards the row shows
    exactly the status given, its audit counts, belief parameters, online
    score and review time are untouched, and so are the histories and the
    rows of the other nodes. *)
Theorem SetNodeStatus_sets_status db id s r :
  reputations db !! id = Some r ->
  let db' := SetNodeStatus db id s in
  (exists r',
      reputations db' !! id = Some r'
      /\ getNodeStatus r' = s
      /\ (TotalAuditCount r', AuditSuccessCount r', OnlineScore r',
          UnderReview r')
         = (TotalAuditCount r, AuditSuccessCount r, OnlineScore r,
            UnderReview r)
      /\ (AuditReputationAlpha r', AuditReputationBeta r',
          UnknownAuditReputationAlpha r', UnknownAuditReputationBeta r')
         = (AuditReputationAlpha r, AuditReputationBeta r,
            UnknownAuditReputationAlpha r, UnknownAuditReputationBeta r))
  /\ audit_histories db' = audit_histories db
  /\ (forall id', id' <> id -> reputations db' !! id' = reputations db !! id').
Proof.
  intros G db'. unfold db', SetNodeStatus, Update_Reputation_By_Id.
  rewrite G. cbn [fst with_reputations reputations audit_histories].
  split; [|split].
  - eexists. split; [apply lookup_insert_eq|].
    split; [destruct s; reflexivity|]. split; reflexivity.
  - reflexivity.
  - intros id' Hne. apply lookup_insert_ne. congruence.
Qed.

(** X10.  [SetNodeStatus] with the status a row already has changes
    nothing, and on a node without a row it writes nothing: unlike
    [Update] and [DisqualifyNode] it never creates a row. *)
Theorem SetNodeStatus_no_change db id :
  (forall r,
      reputations db !! id = Some r ->
      SetNodeStatus db id (getNodeStatus r) = db)
  /\ (forall s, reputations db !! id = None -> SetNodeStatus db id s = db).
Proof.
  split.
  - intros r G. unfold SetNodeStatus, Update_Reputation_By_Id. rewrite G.
    cbn [fst getNodeStatus rsVettedAt rsDisqualified rsUnknownAuditSuspended
           rsContained rsOfflineSuspended].
    rewrite applyUpdateFields_status_same, (insert_id _ _ _ G).
    apply with_reputations_same.
  - intros s G. unfold SetNodeStatus, Update_Reputation_By_Id. rewrite G.
    reflexivity.
Qed.

Section AdministrationFacts.

Variable insertedRow : NodeID -> Reputation.

(** What the three functions have in common. *)
Lemma writeStatusField_unfold db nodeID f :
  writeStatusField insertedRow db nodeID f
  = (with_reputations
       (<[nodeID := applyUpdateFields f (rowBefore insertedRow db nodeID)]>
          (reputations db)) db,
     Some (statusOf (applyUpdateFields f (rowBefore insertedRow db nodeID)))).
Proof.
  unfold writeStatusField, WithTx, ensureRow, Update_Reputation_By_Id,
    rowBefore.
  destruct (reputations db !! nodeID) as [r|] eqn:G.
  - rewrite G. reflexivity.
  - cbn [reputations with_reputations]. rewrite lookup_insert_eq.
    cbn [with_reputations reputations audit_histories fmap option_fmap
           option_map].
    rewrite insert_insert_eq. reflexivity.
Qed.

(** X11.  [DisqualifyNode] creates the row when it is missing and sets
    [disqualified] to the time of the clock, whatever the row held, also
    an earlier disqualification; the status it returns is the one stored;
    and from then on every [Update] for the node leaves the store as it
    is. *)
Theorem DisqualifyNode_is_final db nodeID wall :
  let db' := fst (DisqualifyNode insertedRow db nodeID wall) in
  (exists row,
      reputations db' !! nodeID = Some row
      /\ Disqualified row = Some wall
      /\ snd (DisqualifyNode insertedRow db nodeID wall)
         = Some (getNodeStatus row)
      /\ (VettedAt row, UnknownAuditSuspended row, OfflineSuspended row,
          Contained row)
         = (VettedAt (rowBefore insertedRow db nodeID),
            UnknownAuditSuspended (rowBefore insertedRow db nodeID),
            OfflineSuspended (rowBefore insertedRow db nodeID),
            Contained (rowBefore insertedRow db nodeID)))
  /\ audit_histories db' = audit_histories db
  /\ (forall updateReq now wall',
        NodeID_ updateReq = nodeID ->
        fst (Update insertedRow db' updateReq now wall') = db').
Proof.
  intros db'. unfold db', DisqualifyNode.
  rewrite writeStatusField_unfold.
  cbn [fst snd with_reputations reputations audit_histories].
  set (row := applyUpdateFields _ (rowBefore insertedRow db nodeID)).
  assert (G : <[nodeID := row]> (reputations db) !! nodeID = Some row)
    by apply lookup_insert_eq.
  split; [|split].
  - exists row. split; [exact G|]. split; [reflexivity|].
    split; reflexivity.
  - reflexivity.
  - intros updateReq now wall' Hid.
    match goal with |- fst (Update _ ?d _ _ _) = _ => set (db1 := d) end.
    assert (Hrow : rowBefore insertedRow db1 (NodeID_ updateReq) = row).
    { unfold rowBefore, db1. cbn [reputations with_reputations].
      rewrite Hid, lookup_insert_eq. reflexivity. }
    assert (D : Disqualified (rowBefore insertedRow db1 (NodeID_ updateReq))
                <> None) by (rewrite Hrow; discriminate).
    rewrite (Update_disqualified insertedRow db1 updateReq now wall' D).
    cbn [fst]. rewrite Hrow, Hid. unfold db1.
    cbn [with_reputations reputations audit_histories].
    rewrite insert_insert_eq. reflexivity.
Qed.

(** X12.  [SuspendNodeUnknownAudit] sets the suspension to the time given
    and returns the status stored; [UnsuspendNodeUnknownAudit] after it
    gives back the store as it was, for a node that had a row and was not
    suspended. *)
Theorem suspend_then_unsuspend db nodeID suspendedAt r :
  reputations db !! nodeID = Some r ->
  UnknownAuditSuspended r = None ->
  let suspended := SuspendNodeUnknownAudit insertedRow db nodeID suspendedAt in
  (exists row,
      reputations (fst suspended) !! nodeID = Some row
      /\ UnknownAuditSuspended row = Some suspendedAt
      /\ snd suspended = Some (getNodeStatus row))
  /\ fst (UnsuspendNodeUnknownAudit insertedRow (fst suspended) nodeID) = db.
Proof.
  intros G Hno suspended. unfold suspended, SuspendNodeUnknownAudit,
    UnsuspendNodeUnknownAudit.
  rewrite !writeStatusField_unfold.
  cbn [fst snd with_reputations reputations audit_histories].
  split.
  - eexists. split; [apply lookup_insert_eq|]. split; reflexivity.
  - unfold rowBefore at 1. unfold with_reputations.
    cbn [reputations audit_histories]. rewrite lookup_insert_eq.
    rewrite insert_insert_eq. unfold rowBefore. rewrite G.
    replace (applyUpdateFields _ (applyUpdateFields _ r)) with r
      by (destruct r; cbn in Hno; subst; reflexivity).
    rewrite (insert_id _ _ _ G). destruct db; reflexivity.
Qed.

(** X13.  [UpdateAuditHistory] never writes the table [reputations]; when
    it fails the store is as it was and the response is the initial one;
    when it succeeds [GetAuditHistory] returns the history it recorded. *)
Theorem UpdateAuditHistory_atomic db nodeID auditTime online config :
  let result := UpdateAuditHistory db nodeID auditTime online config in
  let recorded :=
    recordAuditHistory (historyBefore db nodeID) auditTime online config in
  reputations (fst (fst result)) = reputations db
  /\ snd result = snd recorded
  /\ (snd result <> None ->
      fst (fst result) = db
      /\ snd (fst result) = {| NewScore := 1; TrackingPeriodFull := false |})
  /\ (snd result = None ->
      GetAuditHistory (fst (fst result)) nodeID
      = inl (auditHistoryFromPB (fst recorded))).
Proof.
  cbv zeta. unfold UpdateAuditHistory, WithTx.
  rewrite updateAuditHistoryWithTx_unfold.
  destruct (recordAuditHistory (historyBefore db nodeID) auditTime online
              config) as [h [e|]]; cbn [fst snd].
  - split; [reflexivity|]. split; [reflexivity|].
    split; [auto | discriminate].
  - split; [reflexivity|]. split; [reflexivity|].
    split; [congruence|]. intros _. unfold GetAuditHistory.
    cbn [audit_histories with_audit_histories].
    rewrite lookup_insert_eq. reflexivity.
Qed.

End AdministrationFacts.

(** ** Histories that stay well formed *)

Section HistoryInvariants.

Implicit Types (ws : list AuditWindow) (w : AuditWindow).

Lemma windowsAscending_suffix ws1 ws2 :
  windowsAscending (ws1 ++ ws2) -> windowsAscending ws2.
Proof.
  induction ws1 as [|x ws1 IH]; [auto|]. simpl. intros [_ H]. auto.
Qed.

Lemma windowsAscending_snoc ws x :
  windowsAscending ws ->
  (forall w, last ws = Some w -> WindowStart w < WindowStart x) ->
  windowsAscending (ws ++ [x]).
Proof.
  induction ws as [|y ws IH]; intros Hasc Hlast; [simpl; auto|].
  destruct Hasc as [Hy Hrest]. simpl. split.
  - destruct ws as [|z ws]; simpl; [apply Hlast; reflexivity | exact Hy].
  - apply IH; [exact Hrest|]. intros w Hw. apply Hlast.
    destruct ws; [discriminate | exact Hw].
Qed.

Lemma windowsAscending_last_start ws w w' :
  WindowStart w' = WindowStart w ->
  windowsAscending (ws ++ [w]) -> windowsAscending (ws ++ [w']).
Proof.
  intros E. induction ws as [|y ws IH]; [simpl; auto|].
  simpl. intros [Hy Hrest]. split; [|auto].
  destruct ws as [|z ws]; simpl in *; [rewrite E|]; exact Hy.
Qed.

Lemma windowsAscending_bounds ws :
  windowsAscending ws ->
  forall first latest,
    head ws = Some first -> last ws = Some latest ->
    Forall (fun w => WindowStart first <= WindowStart w
                     <= WindowStart latest) ws.
Proof.
  induction ws as [|x ws IH]; intros Hasc first latest Hf Hl; [constructor|].
  injection Hf as ->. destruct Hasc as [Hx Hrest].
  destruct ws as [|y ws].
  - injection Hl as ->. constructor; [lia | constructor].
  - assert (Hl' : last (y :: ws) = Some latest) by exact Hl.
    pose proof (IH Hrest y latest eq_refl Hl') as Hall.
    assert (Hy : WindowStart y <= WindowStart latest).
    { inversion Hall; subst; lia. }
    constructor; [lia|].
    eapply Forall_impl; [exact Hall|]. simpl. intros w Hw. lia.
Qed.

Lemma dropOldWindows_head earliest ws x rest :
  fst (dropOldWindows earliest ws) = x :: rest ->
  Time.Before (WindowStart x) earliest = false.
Proof.
  induction ws as [|y ws IH]; [discriminate|]. simpl.
  destruct (Time.Before (WindowStart y) earliest) eqn:B; simpl.
  - exact IH.
  - intros [= -> _]. exact B.
Qed.

Lemma dropOldWindows_none earliest ws :
  (forall x, head ws = Some x ->
             Time.Before (WindowStart x) earliest = false) ->
  dropOldWindows earliest ws = (ws, false).
Proof.
  destruct ws as [|y ws]; [reflexivity|]. intros H. simpl.
  rewrite (H y eq_refl). reflexivity.
Qed.

(** After the deleting loop and the append, a last window that is not
    after the window of the observation is that window. *)
Lemma prepareWindows_latest_start a auditTime config front latest :
  fst (prepareWindows a auditTime config) = front ++ [latest] ->
  Time.After (WindowStart latest) (windowStartOf auditTime config) = false ->
  WindowStart latest = windowStartOf auditTime config.
Proof.
  intros E A. unfold Time.After in A. apply Z.ltb_ge in A.
  unfold prepareWindows in E.
  fold (windowStartOf auditTime config) in E.
  destruct (dropOldWindows _ _) as [kept dropped].
  unfold needsNewWindow in E.
  destruct (last kept) as [w|] eqn:L.
  - destruct (Time.Before (WindowStart w) _) eqn:B.
    + apply app_inj_tail in E as [_ <-]. reflexivity.
    + cbn [fst] in E. rewrite E, last_snoc in L. injection L as ->.
      unfold Time.Before in B. apply Z.ltb_ge in B. lia.
  - apply app_inj_tail in E as [_ <-]. reflexivity.
Qed.

(** The windows after the deleting loop and the append are in order when
    those of the history are, and none is older than the cut. *)
Lemma prepareWindows_ascending a auditTime config :
  windowsAscending (Windows a) ->
  windowsAscending (fst (prepareWindows a auditTime config)).
Proof.
  intros Hasc. unfold prepareWindows.
  destruct (dropOldWindows_suffix
              (Time.Add (Time.Truncate auditTime (WindowSize config))
                 (neg64 (TrackingPeriod config))) (Windows a))
    as (gone & E & _).
  destruct (dropOldWindows _ _) as [kept dropped]. cbn [fst] in E.
  rewrite E in Hasc. apply windowsAscending_suffix in Hasc.
  unfold needsNewWindow.
  destruct (last kept) as [w|] eqn:L.
  - destruct (Time.Before (WindowStart w) _) eqn:B; cbn [fst]; [|exact Hasc].
    apply windowsAscending_snoc; [exact Hasc|].
    intros w' Hw'. rewrite L in Hw'. injection Hw' as <-.
    unfold Time.Before in B. apply Z.ltb_lt in B. exact B.
  - cbn [fst]. apply windowsAscending_snoc; [exact Hasc|].
    intros w' Hw'. congruence.
Qed.

Lemma prepareWindows_head a auditTime config x rest :
  0 <= TrackingPeriod config <= maxInt64 ->
  fst (prepareWindows a auditTime config) = x :: rest ->
  windowStartOf auditTime config - TrackingPeriod config <= WindowStart x.
Proof.
  intros Htp. unfold prepareWindows.
  fold (windowStartOf auditTime config). rewrite (neg64_small _ Htp).
  set (start := windowStartOf auditTime config).
  destruct (dropOldWindows _ _) as [kept dropped] eqn:Dr.
  assert (Hk : forall y r, kept = y :: r ->
                           start - TrackingPeriod config <= WindowStart y).
  { intros y r Ek.
    assert (Hd : fst (dropOldWindows (Time.Add start (- TrackingPeriod config))
                        (Windows a)) = y :: r) by (rewrite Dr; exact Ek).
    apply dropOldWindows_head in Hd. unfold Time.Before, Time.Add in Hd.
    apply Z.ltb_ge in Hd. lia. }
  destruct kept as [|y r].
  - unfold needsNewWindow. simpl. intros [= <- _]. simpl. lia.
  - destruct (needsNewWindow (y :: r) start); cbn [fst];
      intros [= <- _]; eapply Hk; reflexivity.
Qed.

End HistoryInvariants.

(** X14.  Recording keeps a history well formed.  When the windows are in
    strictly increasing order of start, then after a record step that
    succeeds they still are, the last of them is the window of the
    observation, and, for a tracking period that is not negative, none
    starts earlier than that window minus the tracking period. *)
Theorem recordAuditHistory_keeps_order a auditTime online config a' :
  windowsAscending (Windows a) ->
  recordAuditHistory a auditTime online config = (a', None) ->
  windowsAscending (Windows a')
  /\ (exists latest,
        last (Windows a') = Some latest
        /\ WindowStart latest = windowStartOf auditTime config)
  /\ Forall (fun w => WindowStart w <= windowStartOf auditTime config)
        (Windows a')
  /\ (0 <= TrackingPeriod config <= maxInt64 ->
      Forall (fun w =>
                windowStartOf auditTime config - TrackingPeriod config
                <= WindowStart w) (Windows a')).
Proof.
  intros Hasc R.
  destruct (recordAuditHistory_unfold a auditTime online config)
    as (front & latest & E & R').
  rewrite R in R'.
  destruct (Time.After (WindowStart latest) _) eqn:A; [discriminate|].
  injection R' as ->. cbn [Windows].
  pose proof (prepareWindows_ascending a auditTime config Hasc) as Hp.
  rewrite E in Hp.
  pose proof (prepareWindows_latest_start _ _ _ _ _ E A) as Hstart.
  assert (Hasc' : windowsAscending (front ++ [addAudit online latest])).
  { apply (windowsAscending_last_start front latest); [reflexivity|exact Hp]. }
  assert (L : last (front ++ [addAudit online latest])
              = Some (addAudit online latest)) by apply last_snoc.
  split; [exact Hasc'|]. split; [eauto|].
  destruct (front ++ [addAudit online latest]) as [|x rest] eqn:Ex.
  { destruct front; discriminate. }
  pose proof (windowsAscending_bounds _ Hasc' x _ eq_refl L) as Hall.
  cbn [addAudit WindowStart] in Hall. rewrite Hstart in Hall.
  split.
  - eapply Forall_impl; [exact Hall|]. simpl. intros w Hw. lia.
  - intros Htp.
    assert (Hx : windowStartOf auditTime config - TrackingPeriod config
                 <= WindowStart x).
    { destruct front as [|y front'].
      - simpl in Ex. injection Ex as <- <-. cbn [addAudit WindowStart]. lia.
      - simpl in Ex. injection Ex as <- <-.
        eapply (prepareWindows_head a auditTime config y (front' ++ [latest]));
          eauto. }
    eapply Forall_impl; [exact Hall|]. simpl. intros w Hw. lia.
Qed.

Lemma add32_succ n : - 2 ^ 31 <= n + 1 < 2 ^ 31 -> add32 n 1 = n + 1.
Proof. unfold add32, wrap. intros H. rewrite Z.mod_small; lia. Qed.

(** X15.  Recording keeps the counts sound: when no window of the history
    has more audits online than audits, nor a full counter, the same holds
    of the count of every window after a record step that succeeds. *)
Theorem recordAuditHistory_counts a auditTime online config a' :
  Forall windowCountsOK (Windows a) ->
  recordAuditHistory a auditTime online config = (a', None) ->
  Forall (fun w => 0 <= OnlineCount w <= TotalCount w) (Windows a').
Proof.
  intros Hok R.
  destruct (recordAuditHistory_unfold a auditTime online config)
    as (front & latest & E & R').
  rewrite R in R'.
  destruct (Time.After (WindowStart latest) _); [discriminate|].
  injection R' as ->. cbn [Windows].
  assert (Hprep : Forall windowCountsOK
                    (fst (prepareWindows a auditTime config))).
  { unfold prepareWindows.
    destruct (dropOldWindows_suffix
                (Time.Add (Time.Truncate auditTime (WindowSize config))
                   (neg64 (TrackingPeriod config))) (Windows a))
      as (gone & Eg & _).
    destruct (dropOldWindows _ _) as [kept dropped]. cbn [fst] in Eg.
    rewrite Eg in Hok. apply Forall_app in Hok as [_ Hkept].
    destruct (needsNewWindow kept _); cbn [fst]; [|exact Hkept].
    apply Forall_app. split; [exact Hkept|].
    constructor; [|constructor]. unfold windowCountsOK. simpl. lia. }
  rewrite E in Hprep. apply Forall_app in Hprep as [Hfront Hlatest].
  apply Forall_app. split.
  - eapply Forall_impl; [exact Hfront|]. unfold windowCountsOK. simpl.
    intros w Hw. lia.
  - inversion Hlatest as [|? ? Hl _]; subst.
    constructor; [|constructor]. unfold windowCountsOK in Hl.
    cbn [addAudit OnlineCount TotalCount].
    rewrite (add32_succ (TotalCount latest)) by lia.
    destruct online; [rewrite add32_succ by lia|]; lia.
Qed.

(** X16.  A further audit in the same window only counts: after a record
    step that succeeds, recording another observation that falls in the
    same window succeeds, adds no window, drops none and leaves the score
    as it is; only the counts of the last window move. *)
Theorem recordAuditHistory_same_window a auditTime online config a1
    auditTime' online' :
  0 <= TrackingPeriod config <= maxInt64 ->
  recordAuditHistory a auditTime online config = (a1, None) ->
  windowStartOf auditTime' config = windowStartOf auditTime config ->
  exists front latest,
    Windows a1 = front ++ [latest]
    /\ recordAuditHistory a1 auditTime' online' config
       = ({| Windows := front ++ [addAudit online' latest];
             Score := Score a1 |}, None).
Proof.
  intros Htp R Hsame.
  destruct (recordAuditHistory_unfold a auditTime online config)
    as (front & latest & E & R').
  rewrite R in R'.
  destruct (Time.After (WindowStart latest) _) eqn:A; [discriminate|].
  pose proof (prepareWindows_latest_start _ _ _ _ _ E A) as Hstart.
  injection R' as ->. clear R. cbn [Windows Score].
  exists front, (addAudit online latest). split; [reflexivity|].
  set (score :=
         if negb (snd (prepareWindows a auditTime config)) then Score a
         else if len front =? 0 then 1%float else meanOnlineRatio front).
  clearbody score.
  set (start := windowStartOf auditTime config) in *.
  set (ws1 := front ++ [addAudit online latest]).
  assert (Hdrop : dropOldWindows (Time.Add start (neg64 (TrackingPeriod config)))
                    ws1 = (ws1, false)).
  { apply dropOldWindows_none. intros x Hx.
    assert (Hge : start - TrackingPeriod config <= WindowStart x).
    { unfold ws1 in Hx. destruct front as [|y front'].
      - simpl in Hx. injection Hx as <-. cbn [addAudit WindowStart]. lia.
      - simpl in Hx. injection Hx as <-.
        eapply (prepareWindows_head a auditTime config y (front' ++ [latest]));
          eauto. }
    rewrite (neg64_small _ Htp). unfold Time.Before, Time.Add.
    apply Z.ltb_ge. lia. }
  assert (Hlast : last ws1 = Some (addAudit online latest))
    by apply last_snoc.
  unfold recordAuditHistory, prepareWindows.
  fold (windowStartOf auditTime' config). rewrite Hsame. fold start.
  cbn [Windows Score]. fold ws1. rewrite Hdrop.
  unfold needsNewWindow. rewrite Hlast.
  change (WindowStart (addAudit online latest)) with (WindowStart latest).
  rewrite Hstart. unfold Time.Before, Time.After. rewrite Z.ltb_irrefl.
  rewrite Hlast.
  change (WindowStart (addAudit online latest)) with (WindowStart latest).
  rewrite Hstart, Z.ltb_irrefl.
  cbn [negb]. unfold ws1. rewrite addAuditToLatest_snoc. reflexivity.
Qed.

(** ** The histories of the store *)

Lemma recordAuditHistory_ascending a auditTime online config a' :
  windowsAscending (Windows a) ->
  recordAuditHistory a auditTime online config = (a', None) ->
  windowsAscending (Windows a').
Proof.
  intros Hasc R.
  destruct (recordAuditHistory_unfold a auditTime online config)
    as (front & latest & E & R').
  rewrite R in R'. destruct (Time.After _ _); [discriminate|].
  injection R' as ->. cbn [Windows].
  pose proof (prepareWindows_ascending a auditTime config Hasc) as Hp.
  rewrite E in Hp.
  apply (windowsAscending_last_start front latest); [reflexivity|exact Hp].
Qed.

Section StoreInvariant.

Variable insertedRow : NodeID -> Reputation.

Lemma Update_historiesAscending db updateReq now wall :
  historiesAscending db ->
  historiesAscending (fst (Update insertedRow db updateReq now wall)).
Proof.
  intros Hinv.
  set (dbNode := rowBefore insertedRow db (NodeID_ updateReq)).
  destruct (Disqualified dbNode) as [d|] eqn:D.
  - assert (D' : Disqualified dbNode <> None) by congruence.
    rewrite (Update_disqualified insertedRow db updateReq now wall D').
    exact Hinv.
  - destruct (recordAuditHistory (historyBefore db (NodeID_ updateReq)) now
                (isUpOf updateReq) (AuditHistory updateReq))
      as [history [e|]] eqn:R.
    + assert (R' : snd (recordAuditHistory
                          (historyBefore db (NodeID_ updateReq)) now
                          (isUpOf updateReq) (AuditHistory updateReq))
                   = Some e) by (rewrite R; reflexivity).
      rewrite (Update_refused insertedRow db updateReq now wall _ D R').
      exact Hinv.
    + rewrite (Update_processed insertedRow db updateReq now wall _ D R).
      intros nodeID h. cbn [fst audit_histories].
      destruct (decide (nodeID = NodeID_ updateReq)) as [->|Hne].
      * rewrite lookup_insert_eq. intros [= <-].
        apply (fun H => recordAuditHistory_ascending _ _ _ _ _ H R).
        unfold historyBefore.
        destruct (audit_histories db !! NodeID_ updateReq) as [h0|] eqn:G;
          [exact (Hinv _ _ G) | exact I].
      * rewrite lookup_insert_ne by congruence. apply Hinv.
Qed.

(** X17.  The order of the windows is an invariant of the store: when
    every history has its windows in strictly increasing order of start,
    so has every history after any sequence of updates, whatever their
    nodes, outcomes and times. *)
Theorem runUpdates_historiesAscending db events :
  historiesAscending db ->
  historiesAscending (runUpdates insertedRow db events).
Proof.
  revert db. induction events as [|e events IH]; intros db Hinv; [exact Hinv|].
  simpl. apply IH, Update_historiesAscending, Hinv.
Qed.

End StoreInvariant.

(** ** Walking the pieces *)

Section Walks.

Context {A S : Type}.

Implicit Types (fn : S -> A -> S * option WalkError) (items : list A).

(** What holds of the captured variables before a walk, and is kept by
    every call, holds after it. *)
Lemma walk_invariant (P : S -> Prop) fn items s :
  (forall s a, In a items -> P s -> P (fst (fn s a))) ->
  P s -> P (fst (walk fn items s)).
Proof.
  revert s. induction items as [|a items IH]; intros s Hstep Hs; [exact Hs|].
  simpl. pose proof (Hstep s a (or_introl eq_refl) Hs) as Ha.
  destruct (fn s a) as [s' [e|]]; [exact Ha|].
  apply IH; [|exact Ha]. intros s0 a0 Hin. apply Hstep. right. exact Hin.
Qed.

(** A walk that ends with an error ends in the call that returned it. *)
Lemma walk_error fn items s s' e :
  walk fn items s = (s', Some e) ->
  exists s0 a, In a items /\ fn s0 a = (s', Some e).
Proof.
  revert s. induction items as [|a items IH]; intros s; [discriminate|].
  simpl. destruct (fn s a) as [s1 [e1|]] eqn:F.
  - intros [= <- <-]. exists s, a. split; [left; reflexivity | exact F].
  - intros W. destruct (IH _ W) as (s0 & a0 & Hin & F0).
    exists s0, a0. split; [right; exact Hin | exact F0].
Qed.

(** When whether a call fails depends on the item alone, the walk fails
    exactly when an item fails. *)
Lemma walk_fails_iff (bad : A -> bool) fn items s :
  (forall s a, snd (fn s a) = None <-> bad a = false) ->
  snd (walk fn items s) = None <-> Forall (fun a => bad a = false) items.
Proof.
  intros Hbad. revert s. induction items as [|a items IH]; intros s.
  - simpl. split; [constructor | reflexivity].
  - simpl. pose proof (Hbad s a) as Ha.
    destruct (fn s a) as [s' [e|]]; simpl in *.
    + split; [discriminate|]. intros H. inversion H; subst.
      apply Ha. assumption.
    + rewrite IH. split.
      * intros H. constructor; [apply Ha; reflexivity | exact H].
      * intros H. inversion H; assumption.
Qed.

(** A walk without an error is a fold. *)
Lemma walk_fold fn items s :
  snd (walk fn items s) = None ->
  fst (walk fn items s) = fold_left (fun s a => fst (fn s a)) items s.
Proof.
  revert s. induction items as [|a items IH]; intros s; [reflexivity|].
  simpl. destruct (fn s a) as [s' [e|]] eqn:F; [discriminate|].
  intros H. rewrite (IH _ H). reflexivity.
Qed.

End Walks.

Lemma walk_app {A S : Type} (fn : S -> A -> S * option WalkError)
    (l1 l2 : list A) (s : S) :
  walk fn (l1 ++ l2) s
  = match walk fn l1 s with
    | (s1, None) => walk fn l2 s1
    | (s1, Some e) => (s1, Some e)
    end.
Proof.
  revert s. induction l1 as [|a l1 IH]; intros s; [reflexivity|].
  simpl. destruct (fn s a) as [s' [e|]]; [reflexivity | apply IH].
Qed.

(** The two walks of [WalkSatellitePieces] are one walk over the pieces of
    the satellite, followed by the error of the stores: blobs of format V0
    and stray files are passed over, and the V0 pieces come last. *)
Lemma WalkSatellitePieces_walk {S : Type} fw satellite
    (fn : S -> StoredPieceAccess -> S * option WalkError) (s : S) :
  WalkSatellitePieces fw satellite fn s
  = walkStore fn (allPieces fw satellite, storeError fw satellite) s.
Proof.
  unfold WalkSatellitePieces, allPieces, blobPieces, v0Pieces, storeError,
    walkStore.
  cbn [fst snd]. rewrite walk_app.
  assert (Hb : forall bs s0,
    walk (fun s blobInfo =>
            if StorageFormatVersion blobInfo <? FormatV1 then (s, None)
            else match newStoredPieceAccess blobInfo with
                 | None => (s, None)
                 | Some pieceAccess => fn s pieceAccess
                 end) bs s0
    = walk fn
        (omap (fun blobInfo =>
                 if StorageFormatVersion blobInfo <? FormatV1 then None
                 else newStoredPieceAccess blobInfo) bs) s0).
  { induction bs as [|b bs IH]; intros s0; [reflexivity|].
    simpl. destruct (StorageFormatVersion b <? FormatV1); [apply IH|].
    destruct (newStoredPieceAccess b) as [access|]; [|apply IH].
    simpl. destruct (fn s0 access) as [s1 [e|]]; [reflexivity | apply IH]. }
  rewrite Hb.
  destruct (walk fn _ s) as [s1 [e|]]; [reflexivity|].
  destruct (snd (blobs fw satellite)) as [e|].
  - destruct (v0PieceInfo fw); reflexivity.
  - destruct (v0PieceInfo fw) as [v0|]; [|reflexivity].
    destruct (walk fn (fst (v0 satellite)) s1) as [s2 [e|]]; reflexivity.
Qed.

Lemma walkStore_fst {A S : Type} (fn : S -> A -> S * option WalkError)
    store s :
  fst (walkStore fn store s) = fst (walk fn (fst store) s).
Proof. unfold walkStore. destruct (walk _ _ _) as [s1 [e|]]; reflexivity. Qed.

(** X18.  [WalkSatellitePiecesToTrash] never proposes a piece the filter
    contains nor a piece modified at or after [createdBefore]: every id it
    returns is the id of a piece of the satellite that the filter does not
    contain and whose modification time was read and is before
    [createdBefore].  Without a filter it returns nothing. *)
Theorem trash_only_unfiltered_old fw satelliteID createdBefore filter ctxDone :
  let result :=
    WalkSatellitePiecesToTrash fw satelliteID createdBefore filter ctxDone in
  (filter = None ->
   result = ({| pieceIDs := []; piecesCount := 0; piecesSkipped := 0 |}, None))
  /\ (forall id,
        In id (pieceIDs (fst result)) ->
        exists contains access mTime,
          filter = Some contains
          /\ In access (allPieces fw satelliteID)
          /\ PieceID access = id
          /\ contains id = false
          /\ ModTime access = inl mTime
          /\ mTime < createdBefore).
Proof.
  cbv zeta. unfold WalkSatellitePiecesToTrash.
  destruct filter as [contains|]; [|split; [reflexivity | intros id []]].
  split; [discriminate|].
  rewrite WalkSatellitePieces_walk, walkStore_fst. cbn [fst].
  set (P := fun r : trashResult =>
              forall id, In id (pieceIDs r) ->
                exists access mTime,
                  In access (allPieces fw satelliteID)
                  /\ PieceID access = id
                  /\ contains id = false
                  /\ ModTime access = inl mTime
                  /\ mTime < createdBefore).
  assert (HP : P (fst (walk (trashStep createdBefore contains ctxDone)
                         (allPieces fw satelliteID)
                         {| pieceIDs := []; piecesCount := 0;
                            piecesSkipped := 0 |}))).
  { apply walk_invariant; [|intros id []].
    intros r access Hin Hr. unfold trashStep.
    destruct (contains (PieceID access)) eqn:C; [exact Hr|].
    destruct (ModTime access) as [mTime|e] eqn:M.
    - destruct (Time.Before mTime createdBefore) eqn:B; [|exact Hr].
      cbn [negb pieceIDs].
      assert (Hnew : P {| pieceIDs := pieceIDs r ++ [PieceID access];
                          piecesCount := add64 (piecesCount r) 1;
                          piecesSkipped := piecesSkipped r |}).
      { intros id Hid. cbn [pieceIDs] in Hid. apply in_app_iff in Hid.
        destruct Hid as [Hid | [<- | []]]; [exact (Hr id Hid)|].
        exists access, mTime. unfold Time.Before in B.
        apply Z.ltb_lt in B. auto. }
      destruct (ctxDone _); exact Hnew.
    - destruct (IsNotExist e); exact Hr. }
  intros id Hid. destruct (HP id Hid) as (access & mTime & H).
  exists contains, access, mTime. split; [reflexivity | exact H].
Qed.

(** X19.  Of its own, only a done context makes
    [WalkSatellitePiecesToTrash] fail: an error it returns is the error
    the stores ended their walk with, or the error of the context, found
    done just after a piece was added to the list.  A modification time
    that cannot be read never ends the walk. *)
Theorem trash_error_is_cancellation fw satelliteID createdBefore filter
    ctxDone e :
  let result :=
    WalkSatellitePiecesToTrash fw satelliteID createdBefore filter ctxDone in
  snd result = Some e ->
  storeError fw satelliteID = Some e
  \/ (e = ErrCanceled
      /\ pieceIDs (fst result) <> []
      /\ ctxDone (length (pieceIDs (fst result))) = true).
Proof.
  cbv zeta. unfold WalkSatellitePiecesToTrash.
  destruct filter as [contains|]; [|discriminate].
  rewrite WalkSatellitePieces_walk. unfold walkStore. cbn [fst snd].
  destruct (walk _ _ _) as [r' [e'|]] eqn:W; cbn [fst snd];
    [|intros Hs; left; exact Hs].
  intros [= ->]. right.
  destruct (walk_error _ _ _ _ _ W) as (r0 & access & _ & F).
  unfold trashStep in F.
  destruct (contains (PieceID access)); [discriminate|].
  destruct (ModTime access) as [mTime|e0].
  - destruct (negb (Time.Before mTime createdBefore)); [discriminate|].
    cbn [pieceIDs] in F.
    destruct (ctxDone (length (pieceIDs r0 ++ [PieceID access]))) eqn:C;
      [|discriminate].
    injection F as <- <-. cbn [pieceIDs].
    split; [reflexivity|]. split; [|exact C].
    destruct (pieceIDs r0); discriminate.
  - destruct (IsNotExist e0); discriminate.
Qed.

(** The walk of [WalkSatellitePiecesToTrash] over a list of pieces, when
    the context is never done and the counters do not overflow. *)
Lemma trashStep_walk createdBefore contains ctxDone pieces r :
  (forall n, ctxDone n = false) ->
  0 <= piecesSkipped r <= piecesCount r ->
  piecesCount r + len pieces <= maxInt64 ->
  walk (trashStep createdBefore contains ctxDone) pieces r
  = ({| pieceIDs :=
          pieceIDs r
          ++ map PieceID (List.filter (isTrash createdBefore contains) pieces);
        piecesCount := piecesCount r + len pieces;
        piecesSkipped :=
          piecesSkipped r
          + len (List.filter (mtimeUnreadable contains) pieces) |}, None).
Proof.
  intros Hctx. revert r.
  induction pieces as [|access pieces IH]; intros r Hr Hlen.
  - simpl. unfold len. simpl. rewrite app_nil_r, !Z.add_0_r.
    destruct r; reflexivity.
  - assert (Hl : len (access :: pieces) = len pieces + 1)
      by (unfold len; simpl length; lia).
    pose proof (len_nonneg pieces) as Hnn.
    assert (Hc : add64 (piecesCount r) 1 = piecesCount r + 1)
      by (apply add64_succ; unfold minInt64, maxInt64 in *; lia).
    assert (Hs : add64 (piecesSkipped r) 1 = piecesSkipped r + 1)
      by (apply add64_succ; unfold minInt64, maxInt64 in *; lia).
    simpl walk. unfold trashStep at 1.
    unfold isTrash, mtimeUnreadable. simpl List.filter.
    cbn [pieceIDs piecesCount piecesSkipped]. rewrite Hc.
    destruct (contains (PieceID access)); cbn [negb andb].
    + rewrite IH by (cbn [piecesCount piecesSkipped]; lia).
      cbn [pieceIDs piecesCount piecesSkipped].
      rewrite Hl. do 2 f_equal; ring.
    + destruct (ModTime access) as [mTime|e].
      * destruct (Time.Before mTime createdBefore); cbn [negb].
        -- rewrite Hctx.
           rewrite IH by (cbn [piecesCount piecesSkipped]; lia).
           cbn [pieceIDs piecesCount piecesSkipped].
           rewrite Hl, <- app_assoc. simpl. do 2 f_equal; ring.
        -- rewrite IH by (cbn [piecesCount piecesSkipped]; lia).
           cbn [pieceIDs piecesCount piecesSkipped].
           rewrite Hl. do 2 f_equal; ring.
      * destruct (IsNotExist e); cbn [negb].
        -- rewrite IH by (cbn [piecesCount piecesSkipped]; lia).
           cbn [pieceIDs piecesCount piecesSkipped].
           rewrite Hl. do 2 f_equal; ring.
        -- rewrite Hs.
           rewrite IH by (cbn [piecesCount piecesSkipped]; lia).
           cbn [pieceIDs piecesCount piecesSkipped].
           rewrite Hl. do 2 f_equal; [ring|].
           unfold mtimeUnreadable, len. simpl length. lia.
Qed.

(** X20.  With a context that is never done, [WalkSatellitePiecesToTrash]
    misses nothing of what the stores show: it returns, in the order of
    the walk, the id of every piece of the satellite that the filter does
    not contain and that was modified before [createdBefore]; it counts
    every piece, and it counts as skipped the pieces outside the filter
    whose modification time could not be read although they exist.  Its
    error is the one the stores ended their walk with, if any. *)
Theorem trash_is_complete fw satelliteID createdBefore contains ctxDone :
  (forall n, ctxDone n = false) ->
  len (allPieces fw satelliteID) <= maxInt64 ->
  WalkSatellitePiecesToTrash fw satelliteID createdBefore (Some contains)
    ctxDone
  = ({| pieceIDs :=
          map PieceID
            (List.filter (isTrash createdBefore contains)
               (allPieces fw satelliteID));
        piecesCount := len (allPieces fw satelliteID);
        piecesSkipped :=
          len (List.filter (mtimeUnreadable contains)
                 (allPieces fw satelliteID)) |}, storeError fw satelliteID).
Proof.
  intros Hctx Hlen. unfold WalkSatellitePiecesToTrash.
  rewrite WalkSatellitePieces_walk. unfold walkStore. cbn [fst snd].
  rewrite trashStep_walk; cbn [pieceIDs piecesCount piecesSkipped];
    [reflexivity | exact Hctx | lia | lia].
Qed.

(** X21.  [WalkAndComputeSpaceUsedBySatellite] fails exactly when the
    stores fail or the size of a piece cannot be read for another reason
    than the piece being gone; when it does not fail, the two totals are
    the sums, in [int64], of the sizes of the pieces that are still there:
    a piece deleted during the walk counts for nothing. *)
Theorem space_used_ignores_missing fw satelliteID :
  let result := WalkAndComputeSpaceUsedBySatellite fw satelliteID in
  let pieces := allPieces fw satelliteID in
  (snd result = None
   <-> Forall (fun access => sizeFails access = false) pieces
       /\ storeError fw satelliteID = None)
  /\ (snd result = None ->
      fst result
      = (fold_left add64 (map fst (sizesOf pieces)) 0,
         fold_left add64 (map snd (sizesOf pieces)) 0)).
Proof.
  cbv zeta. unfold WalkAndComputeSpaceUsedBySatellite.
  rewrite WalkSatellitePieces_walk.
  set (fn := fun (totals : Z * Z) (access : StoredPieceAccess) =>
               match Size access with
               | inl (pieceTotal, pieceContentSize) =>
                   ((add64 (fst totals) pieceTotal,
                     add64 (snd totals) pieceContentSize), None)
               | inr e =>
                   if IsNotExist e then (totals, None) else (totals, Some e)
               end).
  assert (Hfails : forall s,
            snd (walk fn (allPieces fw satelliteID) s) = None
            <-> Forall (fun access => sizeFails access = false)
                  (allPieces fw satelliteID)).
  { intros s. apply walk_fails_iff. intros totals access.
    unfold fn, sizeFails.
    destruct (Size access) as [[pt pc]|e]; [split; reflexivity|].
    destruct (IsNotExist e); simpl; split; congruence. }
  assert (Hsnd : snd (walkStore fn (allPieces fw satelliteID,
                                    storeError fw satelliteID) (0, 0)) = None
                 <-> snd (walk fn (allPieces fw satelliteID) (0, 0)) = None
                     /\ storeError fw satelliteID = None).
  { unfold walkStore. cbn [fst snd].
    destruct (walk fn _ _) as [s1 [e|]]; cbn [snd].
    - split; [discriminate | intros [H _]; discriminate H].
    - split; [intros H; split; [reflexivity | exact H] | intros [_ H]; exact H]. }
  split.
  - rewrite Hsnd, Hfails. reflexivity.
  - intros Hok. apply Hsnd in Hok. destruct Hok as [Hok _].
    rewrite walkStore_fst. cbn [fst].
    rewrite (walk_fold _ _ _ Hok). clear Hok Hsnd Hfails.
    generalize 0 at 1 3 as total. generalize 0 as content.
    induction (allPieces fw satelliteID) as [|access pieces IH];
      intros content total; [reflexivity|].
    simpl fold_left at 1. unfold sizesOf. simpl omap.
    unfold fn at 2.
    destruct (Size access) as [[pt pc]|e]; cbn [fst snd].
    + rewrite IH. reflexivity.
    + destruct (IsNotExist e); cbn [fst]; rewrite IH; reflexivity.
Qed.

(** ** The clock *)

Lemma unknownAuditStep_clock dbNode updateReq rep now wall wall' st :
  UnknownAuditSuspended dbNode = None
  \/ AuditOutcome updateReq = AuditSuccess
  \/ SuspensionDQEnabled updateReq = false ->
  unknownAuditStep dbNode updateReq rep now wall st
  = unknownAuditStep dbNode updateReq rep now wall' st.
Proof.
  intros H. unfold unknownAuditStep.
  destruct (rep <=? AuditDQ updateReq)%float; [|reflexivity].
  destruct H as [-> | [-> | H]]; [reflexivity | reflexivity |].
  destruct (negb (AuditType_eqb (AuditOutcome updateReq) AuditSuccess));
    [|reflexivity].
  destruct (UnknownAuditSuspended dbNode); [|reflexivity].
  rewrite H, !andb_false_r. reflexivity.
Qed.

(** X22.  The clock read by [time.Since] matters to an update only for a
    node that is already suspended for unknown audits, for an outcome
    other than a success, and with [SuspensionDQEnabled]: in every other
    case [Update] gives the same store and the same result whatever the
    clock shows. *)
Theorem Update_clock_independent insertedRow db updateReq now wall wall' :
  UnknownAuditSuspended (rowBefore insertedRow db (NodeID_ updateReq)) = None
  \/ AuditOutcome updateReq = AuditSuccess
  \/ SuspensionDQEnabled updateReq = false ->
  Update insertedRow db updateReq now wall
  = Update insertedRow db updateReq now wall'.
Proof.
  intros H.
  set (dbNode := rowBefore insertedRow db (NodeID_ updateReq)) in *.
  assert (Hstats : forall response,
    populateUpdateNodeStats dbNode updateReq response now wall
    = populateUpdateNodeStats dbNode updateReq response now wall').
  { intros response.
    destruct (populateUpdateNodeStats_blocks dbNode updateReq response now
                wall) as (a & b & ua & ub & n & E & P).
    destruct (populateUpdateNodeStats_blocks dbNode updateReq response now
                wall') as (a' & b' & ua' & ub' & n' & E' & P').
    rewrite E in E'. injection E' as <- <- <- <- <-.
    rewrite P, P'.
    rewrite (unknownAuditStep_clock dbNode updateReq _ now wall wall' _ H).
    reflexivity. }
  assert (Hfields : forall response,
    populateUpdateFields dbNode updateReq response now wall
    = populateUpdateFields dbNode updateReq response now wall').
  { intros response. unfold populateUpdateFields. rewrite Hstats.
    reflexivity. }
  destruct (Disqualified dbNode) as [d|] eqn:D.
  - assert (D' : Disqualified dbNode <> None) by congruence.
    rewrite !(Update_disqualified insertedRow db updateReq now _ D').
    reflexivity.
  - destruct (recordAuditHistory (historyBefore db (NodeID_ updateReq)) now
                (isUpOf updateReq) (AuditHistory updateReq))
      as [history [e|]] eqn:R.
    + assert (R' : snd (recordAuditHistory
                          (historyBefore db (NodeID_ updateReq)) now
                          (isUpOf updateReq) (AuditHistory updateReq))
                   = Some e) by (rewrite R; reflexivity).
      rewrite !(Update_refused insertedRow db updateReq now _ _ D R').
      reflexivity.
    + rewrite !(Update_processed insertedRow db updateReq now _ _ D R).
      fold dbNode. unfold updatedRow. rewrite !Hfields. reflexivity.
Qed.

(** * The further properties on concrete inputs *)

Lemma Update_other_nodes_witness :
  2%N <> NodeID_ (exampleRequest AuditSuccess)
  /\ reputations
       (fst (Update exampleRow knownDB (exampleRequest AuditSuccess)
               hour hour)) !! 2%N = None.
Proof.
  assert (Hne : 2%N <> NodeID_ (exampleRequest AuditSuccess)) by discriminate.
  split; [exact Hne|].
  rewrite (proj1 (Update_other_nodes exampleRow knownDB
                    (exampleRequest AuditSuccess) hour hour 2%N Hne)).
  reflexivity.
Defined.

Lemma Update_keeps_history_column_witness :
  exists info',
    Get (fst (Update exampleRow knownDB (exampleRequest AuditSuccess)
                hour hour)) 1%N = inl info'
    /\ iAuditHistory info' = convertAuditHistoryFromDBX emptyHistory.
Proof.
  destruct (Update_keeps_history_column exampleRow knownDB
              (exampleRequest AuditSuccess) hour hour 1%N _ eq_refl)
    as (info' & G & H & _).
  exists info'. split; [exact G | exact H].
Defined.

Lemma Update_score_agrees_witness :
  exists row history latest,
    reputations
      (fst (Update exampleRow emptyDB (exampleRequest AuditSuccess)
              hour hour)) !! 1%N = Some row
    /\ OnlineScore row = Score history
    /\ last (Windows history) = Some latest
    /\ WindowStart latest = hour.
Proof.
  destruct (Update_score_agrees exampleRow emptyDB
              (exampleRequest AuditSuccess) hour hour eq_refl eq_refl)
    as (row & history & latest & G & _ & S & L & W).
  exists row, history, latest. repeat split; assumption.
Defined.

Lemma Update_containment_and_successes_witness :
  exists row,
    reputations
      (fst (Update exampleRow emptyDB (exampleRequest AuditSuccess)
              hour hour)) !! 1%N = Some row
    /\ Contained row = false
    /\ AuditSuccessCount row = 1.
Proof.
  destruct (Update_containment_and_successes exampleRow emptyDB
              (exampleRequest AuditSuccess) hour hour eq_refl eq_refl)
    as (row & s & G & _ & C & _ & A).
  exists row. split; [exact G|]. split; [exact C | exact A].
Defined.

(** A first audit that fails brings the audit reputation to 1/2, the
    threshold of the example. *)
Lemma Update_disqualifies_with_meter_witness :
  exists row,
    reputations
      (fst (Update exampleRow emptyDB (exampleRequest AuditFailure)
              hour hour)) !! 1%N = Some row
    /\ Disqualified row = Some hour.
Proof.
  destruct (Update_disqualifies_with_meter exampleRow emptyDB
              (exampleRequest AuditFailure) hour hour eq_refl eq_refl)
    as (row & G & _ & Hiff).
  exists row. split; [exact G|]. apply Hiff.
  unfold dqMarked. left. vm_compute.
  repeat (first [left; reflexivity | right]).
Defined.

Lemma Update_audit_disqualification_witness :
  exists row,
    reputations
      (fst (Update exampleRow emptyDB (exampleRequest AuditFailure)
              hour hour)) !! 1%N = Some row
    /\ Disqualified row = Some hour.
Proof.
  destruct (Update_audit_disqualification exampleRow emptyDB
              (exampleRequest AuditFailure) hour hour eq_refl eq_refl)
    as (row & G & Hdq).
  exists row. split; [exact G|]. apply Hdq.
  assert (E : Some row
              = Some (updatedRow (exampleRow 1%N) (exampleRequest AuditFailure)
                        {| NewScore := 1; TrackingPeriodFull := false |}
                        hour hour))
    by (rewrite <- G; vm_compute; reflexivity).
  injection E as ->. vm_compute. reflexivity.
Defined.

Lemma Update_offline_suspension_disabled_witness :
  exists row,
    reputations
      (fst (Update exampleRow offlineDB (exampleRequestNoOffline AuditOffline)
              (10 * hour) (10 * hour))) !! 1%N = Some row
    /\ OfflineSuspended row = None
    /\ UnderReview row = None.
Proof.
  destruct (Update_offline_suspension_disabled exampleRow offlineDB
              (exampleRequestNoOffline AuditOffline) (10 * hour) (10 * hour)
              eq_refl eq_refl eq_refl) as (row & G & S & U & _).
  exists row. split; [exact G|]. split; [exact S | exact U].
Defined.

Lemma SetNodeStatus_sets_status_witness :
  let s := {| rsContained := true; rsDisqualified := Some 7;
              rsUnknownAuditSuspended := None; rsOfflineSuspended := None;
              rsVettedAt := Some 3 |} in
  exists r',
    reputations (SetNodeStatus knownDB 1%N s) !! 1%N = Some r'
    /\ getNodeStatus r' = s.
Proof.
  intros s.
  destruct (proj1 (SetNodeStatus_sets_status knownDB 1%N s _ eq_refl))
    as (r' & G & St & _).
  exists r'. split; [exact G | exact St].
Defined.

Lemma suspend_then_unsuspend_witness :
  fst (UnsuspendNodeUnknownAudit exampleRow
         (fst (SuspendNodeUnknownAudit exampleRow knownDB 1%N 5)) 1%N)
  = knownDB.
Proof.
  exact (proj2 (suspend_then_unsuspend exampleRow knownDB 1%N 5 _
                  eq_refl eq_refl)).
Defined.

Lemma recordAuditHistory_keeps_order_witness :
  let a' := fst (recordAuditHistory offlineHistory (10 * hour) false
                   exampleConfig) in
  windowsAscending (Windows a')
  /\ Forall (fun w => 6 * hour <= WindowStart w <= 10 * hour) (Windows a').
Proof.
  intros a'.
  assert (Hasc : windowsAscending (Windows offlineHistory))
    by (simpl; repeat split; reflexivity).
  destruct (recordAuditHistory_keeps_order offlineHistory (10 * hour) false
              exampleConfig a' Hasc eq_refl) as (A & _ & Hi & Lo).
  split; [exact A|].
  assert (Htp : 0 <= TrackingPeriod exampleConfig <= maxInt64)
    by (split; discriminate).
  specialize (Lo Htp).
  rewrite Forall_forall in *. intros w Hw. split.
  - exact (Lo w Hw).
  - exact (Hi w Hw).
Defined.

Lemma recordAuditHistory_counts_witness :
  Forall (fun w => 0 <= OnlineCount w <= TotalCount w)
    (Windows (fst (recordAuditHistory offlineHistory (10 * hour) true
                     exampleConfig))).
Proof.
  apply (recordAuditHistory_counts offlineHistory (10 * hour) true
           exampleConfig).
  - repeat constructor; discriminate.
  - reflexivity.
Defined.

Lemma recordAuditHistory_same_window_witness :
  let a1 := fst (recordAuditHistory offlineHistory (10 * hour) false
                   exampleConfig) in
  exists front latest,
    Windows a1 = front ++ [latest]
    /\ recordAuditHistory a1 (10 * hour + 60) true exampleConfig
       = ({| Windows := front ++ [addAudit true latest];
             Score := Score a1 |}, None).
Proof.
  intros a1.
  assert (Htp : 0 <= TrackingPeriod exampleConfig <= maxInt64)
    by (split; discriminate).
  exact (recordAuditHistory_same_window offlineHistory (10 * hour) false
           exampleConfig a1 (10 * hour + 60) true Htp eq_refl eq_refl).
Defined.

Lemma runUpdates_historiesAscending_witness :
  historiesAscending
    (runUpdates exampleRow emptyDB
       [ {| evRequest := exampleRequest AuditSuccess;
            evNow := hour; evWall := hour |};
         {| evRequest := exampleRequest AuditOffline;
            evNow := 3 * hour; evWall := 3 * hour |} ]).
Proof.
  apply runUpdates_historiesAscending.
  intros nodeID h H. discriminate H.
Defined.

(** A context that is done as soon as it is asked ends the walk at the
    first piece to trash. *)
Lemma trash_error_is_cancellation_witness :
  let result :=
    WalkSatellitePiecesToTrash exampleWalker 1%N 10 (Some (fun _ => false))
      (fun _ => true) in
  snd result = Some ErrCanceled
  /\ pieceIDs (fst result) <> [].
Proof.
  intros result.
  destruct (trash_error_is_cancellation exampleWalker 1%N 10
              (Some (fun _ => false)) (fun _ => true) ErrCanceled eq_refl)
    as [Hs | (_ & Hne & _)]; [discriminate Hs|].
  split; [reflexivity | exact Hne].
Defined.

Lemma trash_is_complete_witness :
  WalkSatellitePiecesToTrash exampleWalker 1%N 10 (Some (N.eqb 9))
    (fun _ => false)
  = ({| pieceIDs := [1%N]; piecesCount := 3; piecesSkipped := 1 |}, None).
Proof.
  assert (Hlen : len (allPieces exampleWalker 1%N) <= maxInt64)
    by discriminate.
  exact (trash_is_complete exampleWalker 1%N 10 (N.eqb 9) (fun _ => false)
           (fun _ => eq_refl) Hlen).
Defined.

Lemma Update_clock_independent_witness :
  Update exampleRow emptyDB (exampleRequest AuditUnknown) hour hour
  = Update exampleRow emptyDB (exampleRequest AuditUnknown) hour (9 * hour).
Proof.
  apply Update_clock_independent. left. reflexivity.
Defined.
